(** * LaMDA-pytorch: the packing function of the streaming dataloader and the
      structure of the transformer, embedded in Rocq.

    Sources embedded here:
    - [src/dataloader/stream_dataloader.py]: the closure [tokenize] of
      [stream_dataloaders];
    - [src/lamda_pytorch/lamda_pytorch.py]: [Residual], [PreNorm],
      [FeedForward], [T5RelativePositionBias], [Attention], [Transformer],
      [LaMDA].

    Python integers are [Z]; Python lists are [list]; a Python [dict] is an
    insertion-ordered association list; a raised exception is the [Raise]
    branch of [result]. *)

From Stdlib Require Import ZArith Lia.
From stdpp Require Import base list strings.

Local Open Scope Z_scope.

(** ** Python exceptions and the error monad *)

Inductive exn : Type :=
| ZeroDivisionError
| ValueError
| KeyError
| IndexError
| RuntimeError.

Inductive result (A : Type) : Type :=
| Ok (a : A)
| Raise (e : exn).
Arguments Ok {A} a.
Arguments Raise {A} e.

Definition bind {A B} (m : result A) (f : A -> result B) : result B :=
  match m with
  | Ok a => f a
  | Raise e => Raise e
  end.

Notation "x <-! m ; k" := (bind m (fun x => k))
  (at level 100, m at next level, right associativity).

Fixpoint map_result {A B} (f : A -> result B) (l : list A) : result (list B) :=
  match l with
  | [] => Ok []
  | a :: l' => b <-! f a; bs <-! map_result f l'; Ok (b :: bs)
  end.

(** ** Python dictionaries (insertion ordered) *)

Definition dict (V : Type) : Type := list (string * V).

Fixpoint dict_get {V} (k : string) (d : dict V) : option V :=
  match d with
  | [] => None
  | (k', v) :: d' => if String.eqb k k' then Some v else dict_get k d'
  end.

(** [d[k]]: raises [KeyError] on a missing key. *)
Definition dict_item {V} (k : string) (d : dict V) : result V :=
  match dict_get k d with
  | Some v => Ok v
  | None => Raise KeyError
  end.

(** [d[k] = v]: an existing key keeps its position, a new key goes last. *)
Fixpoint dict_set {V} (k : string) (v : V) (d : dict V) : dict V :=
  match d with
  | [] => [(k, v)]
  | (k', v') :: d' =>
      if String.eqb k k' then (k, v) :: d' else (k', v') :: dict_set k v d'
  end.

Definition dict_keys {V} (d : dict V) : list string := map fst d.

(** ** Python integer and sequence primitives used by [tokenize] *)

(** [a // b]: floor division, [ZeroDivisionError] on a zero divisor.
    [Z.div] rounds towards minus infinity like Python's [//]. *)
Definition py_floordiv (a b : Z) : result Z :=
  if b =? 0 then Raise ZeroDivisionError else Ok (a / b).

(** Number of elements of [range(start, stop, step)] for [step <> 0]. *)
Definition range_len (start stop step : Z) : nat :=
  if 0 <? step then
    if start <? stop then Z.to_nat ((stop - start - 1) / step + 1) else 0%nat
  else
    if stop <? start then Z.to_nat ((start - stop - 1) / (- step) + 1) else 0%nat.

(** [range(start, stop, step)]: [ValueError] on a zero step. *)
Definition py_range (start stop step : Z) : result (list Z) :=
  if step =? 0 then Raise ValueError
  else Ok (map (fun k => start + Z.of_nat k * step)
               (seq 0 (range_len start stop step))).

(** Normalisation of one slice bound against a length, as Python does it:
    a negative bound counts from the end, and both are clamped. *)
Definition slice_bound (k len : Z) : Z :=
  if k <? 0 then Z.max 0 (k + len) else Z.min k len.

(** [t[i:j]] *)
Definition py_slice {A} (t : list A) (i j : Z) : list A :=
  let len := Z.of_nat (length t) in
  let lo := slice_bound i len in
  let hi := slice_bound j len in
  take (Z.to_nat (hi - lo)) (drop (Z.to_nat lo) t).

(** ** [tokenize] (stream_dataloader.py, lines 46-61) *)

(** What the tokenizer returns for a batch of texts: for each key
    ([input_ids], [attention_mask], ...) one integer list per example. *)
Definition BatchEncoding : Type := dict (list (list Z)).

Section Tokenize.

(** [tokenizer]: the external tokenizer, a black box. *)
Variable tokenizer : list string -> BatchEncoding.
(** [args.select_input_string] and [args.tokenizer_seq_length]. *)
Variable select_input_string : string.
Variable seq_length : Z.

(** [if total_length >= seq_length:
       total_length = (total_length // seq_length) * seq_length] *)
Definition truncated_length (total_length : Z) : result Z :=
  if seq_length <=? total_length then
    q <-! py_floordiv total_length seq_length; Ok (q * seq_length)
  else Ok total_length.

(** [[t[i : i + seq_length] for i in range(0, total_length, seq_length)]] *)
Definition split_blocks (total_length : Z) (t : list Z) : result (list (list Z)) :=
  r <-! py_range 0 total_length seq_length;
  Ok (map (fun i => py_slice t i (i + seq_length)) r).

(** Lines 47-57: the blocks of every key, before [labels] is added. *)
Definition tokenize_blocks (examples : dict (list string)) : result BatchEncoding :=
  texts <-! dict_item select_input_string examples;
  let examples := tokenizer texts in
  let concatenated_examples : dict (list Z) :=
    map (fun kv => (fst kv, concat (snd kv))) examples in
  first_key <-! match dict_keys examples with
                | [] => Raise IndexError
                | k :: _ => Ok k
                end;
  first_col <-! dict_item first_key concatenated_examples;
  let total_length := Z.of_nat (length first_col) in
  total_length <-! truncated_length total_length;
  map_result (fun kt => blocks <-! split_blocks total_length (snd kt);
                        Ok (fst kt, blocks))
             concatenated_examples.

(** Lines 59-61: [result["labels"] = copy.deepcopy(result["input_ids"])],
    on values (the copy has the same contents). *)
Definition tokenize (examples : dict (list string)) : result BatchEncoding :=
  result <-! tokenize_blocks examples;
  ids <-! dict_item "input_ids" result;
  Ok (dict_set "labels" ids result).

End Tokenize.

(** A small concrete tokenizer for running the model: one token per
    character (its code), with an all-ones attention mask. *)
Definition char_codes (s : string) : list Z :=
  map (fun c => Z.of_nat (Ascii.nat_of_ascii c)) (String.list_ascii_of_string s).

Definition char_tokenizer (texts : list string) : BatchEncoding :=
  [ ("input_ids"%string, map char_codes texts);
    ("attention_mask"%string, map (fun s => map (fun _ => 1) (char_codes s)) texts) ].

(** The first [q] slices of width [L] of a column, as the comprehension of
    [tokenize] lists them. *)
Definition full_blocks (L q : Z) (t : list Z) : list (list Z) :=
  map (fun k => py_slice t (Z.of_nat k * L) (Z.of_nat k * L + L))
      (seq 0 (Z.to_nat q)).

(** The tokenizer gives every key one entry per token: all columns of an
    encoding hold the same number of entries. *)
Definition token_aligned (enc : BatchEncoding) : Prop :=
  exists n : nat, Forall (fun kv => length (concat (snd kv)) = n) enc.

(** ** The mapped stream ([shuffled_train_files.map(tokenize, batched = True)])

    The dataset library calls [tokenize] once per batch of examples and
    appends the rows each call returns to the output stream; [tokenize] is a
    closure over [args] and [tokenizer] only, so a call sees nothing of the
    calls before it. *)

Definition column (key : string) (enc : BatchEncoding) : list (list Z) :=
  default [] (dict_get key enc).

Definition map_batched (f : dict (list string) -> result BatchEncoding)
    (batches : list (dict (list string))) : result (list (list Z)) :=
  outs <-! map_result f batches;
  Ok (concat (map (column "input_ids") outs)).

(** All the token ids a batch of examples holds, in order. *)
Definition batch_tokens (tokenizer : list string -> BatchEncoding)
    (select_input_string : string) (examples : dict (list string)) : list Z :=
  concat (column "input_ids" (tokenizer (default [] (dict_get select_input_string examples)))).

(** ** List objects on a heap: [tokenize] with its allocations

    Every Python list is an object with an identity.  The store maps a
    location to the items of the list that lives there; an item is an
    integer (immutable) or a reference to another list. *)

Abbreviation loc := nat.

Inductive pyval : Type :=
| VInt (z : Z)
| VRef (l : loc).

Abbreviation store := (list (list pyval)).

(** What can stop a run on the heap: an exception of [tokenize] itself,
    the recursion limit of [deepcopy], or a reference to no object (which
    no Python program can build). *)
Inductive heap_error : Type :=
| PyExn (e : exn)
| RecursionError
| DanglingRef.

Inductive outcome (A : Type) : Type :=
| Done (a : A)
| Fail (e : heap_error).
Arguments Done {A} a.
Arguments Fail {A} e.

(** [[]] or a list display: a fresh list object. *)
Definition new_list (items : list pyval) (s : store) : loc * store :=
  (length s, s ++ [items]).

(** [y.append(v)] *)
Definition list_append (y : loc) (v : pyval) (s : store) : store :=
  alter (fun items => items ++ [v]) y s.

(** The comprehension [[t[i : i + seq_length] for i in range(...)]]: a fresh
    result list, and every slice a fresh list appended to it. *)
Fixpoint append_blocks (outer : loc) (blocks : list (list Z)) (s : store) : store :=
  match blocks with
  | [] => s
  | b :: blocks' =>
      let (r, s1) := new_list (VInt <$> b) s in
      append_blocks outer blocks' (list_append outer (VRef r) s1)
  end.

Definition alloc_blocks (blocks : list (list Z)) (s : store) : loc * store :=
  let (outer, s1) := new_list [] s in
  (outer, append_blocks outer blocks s1).

(** The dict comprehension over the keys. *)
Fixpoint alloc_dict (d : dict (list (list Z))) (s : store) : dict loc * store :=
  match d with
  | [] => ([], s)
  | (k, blocks) :: d' =>
      let (r, s1) := alloc_blocks blocks s in
      let (refs, s2) := alloc_dict d' s1 in
      ((k, r) :: refs, s2)
  end.

(** [copy.deepcopy]: integers are returned as they are; a list that the memo
    already knows is returned from the memo; any other list gets a fresh
    copy, entered in the memo before its items are copied in order. *)
Definition memo : Type := list (loc * loc).

Fixpoint memo_get (l : loc) (m : memo) : option loc :=
  match m with
  | [] => None
  | (k, y) :: m' => if Nat.eqb l k then Some y else memo_get l m'
  end.

Fixpoint copy_items
    (rec : pyval -> memo -> store -> outcome (pyval * memo * store))
    (y : loc) (items : list pyval) (m : memo) (s : store) : outcome (memo * store) :=
  match items with
  | [] => Done (m, s)
  | a :: items' =>
      match rec a m s with
      | Done (a', m1, s1) => copy_items rec y items' m1 (list_append y a' s1)
      | Fail e => Fail e
      end
  end.

Fixpoint deepcopy (fuel : nat) (x : pyval) (m : memo) (s : store)
    : outcome (pyval * memo * store) :=
  match x with
  | VInt z => Done (VInt z, m, s)
  | VRef l =>
      match memo_get l m with
      | Some y => Done (VRef y, m, s)
      | None =>
          match fuel with
          | O => Fail RecursionError
          | S fuel' =>
              match s !! l with
              | None => Fail DanglingRef
              | Some items =>
                  let (y, s1) := new_list [] s in
                  match copy_items (deepcopy fuel') y items ((l, y) :: m) s1 with
                  | Done (m2, s2) => Done (VRef y, m2, s2)
                  | Fail e => Fail e
                  end
              end
          end
      end
  end.

Section TokenizeHeap.

Variable tokenizer : list string -> BatchEncoding.
Variable select_input_string : string.
Variable seq_length : Z.

(** [tokenize] with the result's lists as heap objects: the values of the
    returned dict are references.  The recursion limit given to
    [deepcopy] is the number of objects on the heap, which no chain of
    distinct lists can exceed. *)
Definition tokenize_heap (examples : dict (list string)) (s : store)
    : outcome (dict loc * store) :=
  match tokenize_blocks tokenizer select_input_string seq_length examples with
  | Raise e => Fail (PyExn e)
  | Ok blocks =>
      let (result, s1) := alloc_dict blocks s in
      match dict_get "input_ids" result with
      | None => Fail (PyExn KeyError)
      | Some ids =>
          match deepcopy (S (length s1)) (VRef ids) [] s1 with
          | Done (VRef labels, _, s2) => Done (dict_set "labels" labels result, s2)
          | Done (VInt _, _, _) => Fail DanglingRef
          | Fail e => Fail e
          end
      end
  end.

End TokenizeHeap.

(** Reading a list of blocks back from the heap. *)
Definition read_ints (s : store) (l : loc) : option (list Z) :=
  items ← s !! l;
  mapM (M := option) (fun v => match v with VInt z => Some z | VRef _ => None end) items.

Definition read_blocks (s : store) (r : loc) : option (list (list Z)) :=
  items ← s !! r;
  mapM (M := option) (fun v => match v with VRef l => read_ints s l | VInt _ => None end) items.

(** The objects a list of blocks is made of: the outer list and the lists
    it refers to. *)
Definition block_locs (s : store) (r : loc) : list loc :=
  r :: omap (fun v => match v with VRef l => Some l | VInt _ => None end)
            (default [] (s !! r)).


(** [is_blocks s r ls bs]: in store [s], the list at [r] holds references
    to the lists at [ls], and these hold the integers of the blocks [bs]. *)
Definition is_blocks (s : store) (r : loc) (ls : list loc) (bs : list (list Z)) : Prop :=
  s !! r = Some (VRef <$> ls) /\
  Forall2 (fun l b => s !! l = Some (VInt <$> b)) ls bs.

(** ** [T5RelativePositionBias._relative_position_bucket]
       (lamda_pytorch.py, lines 73-87), on one entry of the tensor

    The logarithmic branch is computed in float32:
    [(torch.log(n.float() / max_exact) / math.log(max_distance / max_exact)
      * (num_buckets - max_exact)).long()].
    That one expression is the parameter [log_offset num_buckets
    max_distance n]: no property of it is assumed anywhere below.
    Everything around it is integer arithmetic and is written out; the
    entries of the tensor are 64-bit integers and are taken in [Z]: the
    negation of line 79 is the code's for every entry above [- 2 ^ 63].  The scalar [math.log(max_distance / max_exact)] is Python
    arithmetic and raises on a zero divisor ([ZeroDivisionError]) and on a
    non-positive argument ([ValueError]). *)

Section RelativePositionBucket.

Variable log_offset : Z -> Z -> Z -> Z.

Definition relative_position_bucket
    (relative_position num_buckets max_distance : Z) : result Z :=
  let n := - relative_position in
  let n := Z.max n 0 in
  let max_exact := num_buckets / 2 in
  let is_small := n <? max_exact in
  if max_exact =? 0 then Raise ZeroDivisionError
  else if max_distance * max_exact <=? 0 then Raise ValueError
  else
    let val_if_large := max_exact + log_offset num_buckets max_distance n in
    let val_if_large := Z.min val_if_large (num_buckets - 1) in
    Ok (if is_small then n else val_if_large).

End RelativePositionBucket.

(** ** Tensor shapes *)

Definition shape : Type := list Z.

(** Two sizes of one broadcast dimension: equal, or one of them 1. *)
Definition broadcast_dim (x y : Z) : option Z :=
  if x =? y then Some x
  else if x =? 1 then Some y
  else if y =? 1 then Some x
  else None.

(** Broadcasting aligns the shapes at their last dimension. *)
Fixpoint broadcast_rev (a b : shape) : option shape :=
  match a, b with
  | [], _ => Some b
  | _, [] => Some a
  | x :: a', y :: b' =>
      d ← broadcast_dim x y; r ← broadcast_rev a' b'; Some (d :: r)
  end.

Definition broadcast (a b : shape) : option shape :=
  reverse <$> broadcast_rev (reverse a) (reverse b).

Fixpoint split_last (x : shape) : option (shape * Z) :=
  match x with
  | [] => None
  | [d] => Some ([], d)
  | d :: x' => '(lead, l) ← split_last x'; Some (d :: lead, l)
  end.

(** [x.chunk(2, dim = -1)]: the sizes of the pieces of a last dimension of
    size [n]; pieces of [ceil(n / 2)], one piece only when [n = 1], and two
    empty pieces when [n = 0]. *)
Definition chunk2_sizes (n : Z) : list Z :=
  let split_size := (n + 1) / 2 in
  if n =? 0 then [0; 0]
  else if split_size <? n then [split_size; n - split_size]
  else [n].

Definition chunk2 (x : shape) : option (list shape) :=
  '(lead, n) ← split_last x;
  Some ((fun c => lead ++ [c]) <$> chunk2_sizes n).

(** Unpacking into exactly two names. *)
Definition unpack2 {A} (l : list A) : option (A * A) :=
  match l with
  | [a; b] => Some (a, b)
  | _ => None
  end.

(** ** The modules, as their constructors build them

    A module is the record of its hyper-parameters and submodules; the
    parameter tensors are determined in shape by these.  The constructors of
    the tensor library ([nn.Linear], [nn.LayerNorm], [nn.Embedding]) are
    taken as they are called; their own argument checks are added by the
    constructors of the section on construction below
    ([Attention_init_checked] and the like). *)

Record Linear : Type := mkLinear
  { in_features : Z; out_features : Z; bias : bool }.

Record LayerNorm : Type := mkLayerNorm { normalized_shape : Z }.

Record Embedding : Type := mkEmbedding
  { num_embeddings : Z; embedding_dim : Z }.

(** [b ** 0.5] and [b ** -0.5], kept symbolic. *)
Inductive scale_factor : Type :=
| PowHalf (b : Z)
| PowNegHalf (b : Z).

(** [b ** -0.5] on a Python integer: a zero base raises. *)
Definition pow_neg_half (b : Z) : result scale_factor :=
  if b =? 0 then Raise ZeroDivisionError else Ok (PowNegHalf b).

Record T5RelativePositionBias : Type := mkT5RelativePositionBias
  { rpb_scale : scale_factor;
    num_buckets : Z;
    max_distance : Z;
    relative_attention_bias : Embedding }.

Definition T5RelativePositionBias_init (scale : scale_factor)
    (num_buckets max_distance heads : Z) : T5RelativePositionBias :=
  {| rpb_scale := scale;
     num_buckets := num_buckets;
     max_distance := max_distance;
     relative_attention_bias := mkEmbedding num_buckets heads |}.

Record Attention : Type := mkAttention
  { heads : Z;
    scale : scale_factor;
    to_q : Linear;
    to_kv : Linear;
    to_out : Linear;
    rel_pos_bias : T5RelativePositionBias }.

(** [Attention.__init__(dim, heads, dim_head)]; the relative position bias
    takes its defaults [num_buckets = 32], [max_distance = 128].  The
    [Dropout] module has no parameters and is left out. *)
Definition Attention_init (dim heads dim_head : Z) : result Attention :=
  scale <-! pow_neg_half dim_head;
  let inner_dim := heads * dim_head in
  Ok {| heads := heads;
        scale := scale;
        to_q := mkLinear dim inner_dim false;
        to_kv := mkLinear dim (dim_head * 2) false;
        to_out := mkLinear inner_dim dim true;
        rel_pos_bias := T5RelativePositionBias_init (PowHalf dim_head) 32 128 heads |}.

(** [FeedForward.net]: [Linear(dim, inner_dim * 2)], [GEGLU], [Dropout],
    [Linear(inner_dim, dim)]. *)
Record FeedForward : Type := mkFeedForward
  { ff_proj_in : Linear; ff_proj_out : Linear }.

Definition FeedForward_init (dim mult : Z) : FeedForward :=
  let inner_dim := dim * mult in
  {| ff_proj_in := mkLinear dim (inner_dim * 2) true;
     ff_proj_out := mkLinear inner_dim dim true |}.

Record Residual (F : Type) : Type := mkResidual { res_fn : F }.
Arguments mkResidual {F} _.
Arguments res_fn {F} _.

Record PreNorm (N F : Type) : Type := mkPreNorm { norm : N; pn_fn : F }.
Arguments mkPreNorm {N F} _ _.
Arguments norm {N F} _.
Arguments pn_fn {N F} _.

Definition PreNorm_init {F} (dim : Z) (fn : F) : PreNorm LayerNorm F :=
  mkPreNorm (mkLayerNorm dim) fn.

Record Transformer (N A F : Type) : Type := mkTransformer
  { layers : list (Residual (PreNorm N A) * Residual (PreNorm N F)) }.
Arguments mkTransformer {N A F} _.
Arguments layers {N A F} _.

(** [Transformer.__init__(dim, depth, heads, dim_head)]: one pair of
    wrapped modules per turn of [for _ in range(depth)]. *)
Definition Transformer_init (dim depth heads dim_head : Z)
    : result (Transformer LayerNorm Attention FeedForward) :=
  r <-! py_range 0 depth 1;
  ls <-! map_result (fun _ : Z =>
           attn <-! Attention_init dim heads dim_head;
           Ok (mkResidual (PreNorm_init dim attn),
               mkResidual (PreNorm_init dim (FeedForward_init dim 4)))) r;
  Ok (mkTransformer ls).

Record LaMDA : Type := mkLaMDA
  { token_emb : Embedding;
    transformer : Transformer LayerNorm Attention FeedForward;
    to_logits : LayerNorm * Linear }.

(** [LaMDA.__init__( *, num_tokens, dim, depth, dim_head, heads)].  The call
    [Transformer(dim, depth, dim_head, heads)] is positional. *)
Definition LaMDA_init (num_tokens dim depth dim_head heads : Z) : result LaMDA :=
  transformer <-! Transformer_init dim depth dim_head heads;
  Ok {| token_emb := mkEmbedding num_tokens dim;
        transformer := transformer;
        to_logits := (mkLayerNorm dim, mkLinear dim num_tokens true) |}.

(** ** [forward]

    [Module M T]: a module of type [M] maps a tensor of type [T] to a
    tensor.  [Residual], [PreNorm] and [Transformer] are written once, for
    every tensor type with an addition. *)

Class Module (M T : Type) : Type := forward : M -> T -> T.

Class TensorAdd (T : Type) : Type := tensor_add : T -> T -> T.

(** [Residual.forward]: [self.fn(x) + x] *)
#[export] Instance Residual_forward {T F} `{TensorAdd T} `{Module F T}
  : Module (Residual F) T :=
  fun m x => tensor_add (forward (res_fn m) x) x.

(** [PreNorm.forward]: [self.fn(self.norm(x))] *)
#[export] Instance PreNorm_forward {T N F} `{Module N T} `{Module F T}
  : Module (PreNorm N F) T :=
  fun m x => forward (pn_fn m) (forward (norm m) x).

(** [Transformer.forward]:
    [for attn, ff in self.layers: x = attn(x); x = ff(x)] *)
#[export] Instance Transformer_forward {T N A F} `{TensorAdd T}
    `{Module N T} `{Module A T} `{Module F T}
  : Module (Transformer N A F) T :=
  fun m x => fold_left (fun x l => forward (snd l) (forward (fst l) x)) (layers m) x.

(** *** The forward pass on shapes

    A tensor is followed by its shape; [None] is a shape error raised by
    the tensor library. *)

Definition Linear_forward (m : Linear) (x : shape) : option shape :=
  '(lead, d) ← split_last x;
  if d =? in_features m then Some (lead ++ [out_features m]) else None.

Definition LayerNorm_forward (m : LayerNorm) (x : shape) : option shape :=
  '(_, d) ← split_last x;
  if d =? normalized_shape m then Some x else None.

(** A tensor of token ids: its shape and its entries. *)
Record IdTensor : Type := mkIdTensor { ids_shape : shape; ids_data : list Z }.

(** An embedding lookup needs every index inside the table. *)
Definition Embedding_forward (m : Embedding) (x : IdTensor) : option shape :=
  if forallb (fun t => (0 <=? t) && (t <? num_embeddings m)) (ids_data x)
  then Some (ids_shape x ++ [embedding_dim m])
  else None.

(** The last two sizes of a shape ([*qk_dots.shape[-2:]]). *)
Definition last_two (x : shape) : option (Z * Z) :=
  '(lead, j) ← split_last x;
  '(_, i) ← split_last lead;
  Some (i, j).

(** [T5RelativePositionBias.forward]: the bucket tensor is [(i, j)], its
    embedding [(i, j, heads)], rearranged ['i j h -> () h i j'] and added to
    the scores. *)
Definition T5RelativePositionBias_forward (m : T5RelativePositionBias)
    (qk_dots : shape) : option shape :=
  '(i, j) ← last_two qk_dots;
  let h := embedding_dim (relative_attention_bias m) in
  let bias := [1; h; i; j] in
  broadcast qk_dots bias.

(** [rearrange(q, 'b n (h d) -> b h n d', h = h)] *)
Definition split_heads (h : Z) (q : shape) : option shape :=
  match q with
  | [b; n; hd] =>
      if (0 <? h) && (hd mod h =? 0) then Some [b; h; n; hd / h] else None
  | _ => None
  end.

(** [einsum('b h i d, b j d -> b h i j', q, k)] *)
Definition einsum_qk (q k : shape) : option shape :=
  match q, k with
  | [b; h; i; d], [b'; j; d'] =>
      b0 ← broadcast_dim b b'; _ ← broadcast_dim d d'; Some [b0; h; i; j]
  | _, _ => None
  end.

(** [einsum('b h i j, b j d -> b h i d', attn, v)] *)
Definition einsum_av (attn v : shape) : option shape :=
  match attn, v with
  | [b; h; i; j], [b'; j'; d] =>
      b0 ← broadcast_dim b b'; _ ← broadcast_dim j j'; Some [b0; h; i; d]
  | _, _ => None
  end.

(** [rearrange(out, 'b h n d -> b n (h d)')] *)
Definition merge_heads (out : shape) : option shape :=
  match out with
  | [b; h; n; d] => Some [b; n; h * d]
  | _ => None
  end.

(** [sim.masked_fill(mask, value)]: the mask must broadcast to [sim]. *)
Definition masked_fill_shape (sim mask : shape) : option shape :=
  r ← broadcast sim mask;
  if bool_decide (r = sim) then Some sim else None.

(** [q, k, v = (self.to_q(x), *self.to_kv(x).chunk(2, dim = -1))] and the
    split of [q] into heads. *)
Definition Attention_qkv (m : Attention) (x : shape) : option (shape * shape * shape) :=
  q ← Linear_forward (to_q m) x;
  kv ← Linear_forward (to_kv m) x;
  '(k, v) ← chunk2 kv ≫= unpack2;
  q ← split_heads (heads m) q;
  Some (q, k, v).

(** [Attention.forward]; the scaling of [q], the softmax and the dropout
    keep the shape of their argument. *)
Definition Attention_forward (m : Attention) (x : shape) : option shape :=
  '(q, k, v) ← Attention_qkv m x;
  sim ← einsum_qk q k;
  '(i, j) ← last_two sim;
  sim ← T5RelativePositionBias_forward (rel_pos_bias m) sim;
  let causal_mask := [i; j] in
  sim ← masked_fill_shape sim causal_mask;
  let attn := sim in
  out ← einsum_av attn v;
  out ← merge_heads out;
  Linear_forward (to_out m) out.

(** [GEGLU.forward]: [x, gates = x.chunk(2, dim = -1); x * F.gelu(gates)] *)
Definition GEGLU_forward (x : shape) : option shape :=
  '(x, gates) ← chunk2 x ≫= unpack2;
  broadcast x gates.

Definition FeedForward_forward (m : FeedForward) (x : shape) : option shape :=
  x ← Linear_forward (ff_proj_in m) x;
  x ← GEGLU_forward x;
  Linear_forward (ff_proj_out m) x.

#[export] Instance shape_add : TensorAdd (option shape) :=
  fun a b => a ← a; b ← b; broadcast a b.

#[export] Instance LayerNorm_module : Module LayerNorm (option shape) :=
  fun m x => x ≫= LayerNorm_forward m.

#[export] Instance Attention_module : Module Attention (option shape) :=
  fun m x => x ≫= Attention_forward m.

#[export] Instance FeedForward_module : Module FeedForward (option shape) :=
  fun m x => x ≫= FeedForward_forward m.

(** [LaMDA.forward]: [token_emb], [transformer], [to_logits]. *)
Definition LaMDA_forward (m : LaMDA) (x : IdTensor) : option shape :=
  x ← Embedding_forward (token_emb m) x;
  x ← forward (transformer m) (Some x);
  x ← LayerNorm_forward (fst (to_logits m)) x;
  Linear_forward (snd (to_logits m)) x.

(** *** The causal mask of [Attention.forward], entry by entry *)

(** [torch.ones((i, j)).triu(diagonal)] at row [r], column [c]. *)
Definition triu_ones (diagonal r c : Z) : bool := diagonal <=? c - r.

(** [torch.ones((i, j), dtype = torch.bool).triu(j - i + 1)] *)
Definition causal_mask (i j : Z) (r c : Z) : bool := triu_ones (j - i + 1) r c.

(** [sim.masked_fill(mask, value)] at row [r], column [c]. *)
Definition masked_fill {S : Type} (sim : Z -> Z -> S) (mask : Z -> Z -> bool)
    (value : S) (r c : Z) : S :=
  if mask r c then value else sim r c.

(** The columns of the projections a head reads: head [h] of the queries
    reads columns [h * dim_head + d] of [to_q]; keys read columns [d] and
    values columns [dim_head + d] of [to_kv], whatever the head. *)
Definition q_column (dim_head h d : Z) : Z := h * dim_head + d.
Definition k_column (d : Z) : Z := d.
Definition v_column (dim_head d : Z) : Z := dim_head + d.

(** ** The layer sequence in the words of the specification (section 4.7):
    each layer applies [x = x + Attention(Norm(x))] and then
    [x = x + Feedforward(Norm(x))], layers in order. *)
Fixpoint spec_layers {T N A F} `{TensorAdd T} `{Module N T} `{Module A T} `{Module F T}
    (ls : list (Residual (PreNorm N A) * Residual (PreNorm N F))) (x : T) : T :=
  match ls with
  | [] => x
  | (attn, ff) :: ls' =>
      let x := tensor_add x (forward (pn_fn (res_fn attn)) (forward (norm (res_fn attn)) x)) in
      let x := tensor_add x (forward (pn_fn (res_fn ff)) (forward (norm (res_fn ff)) x)) in
      spec_layers ls' x
  end.

(** A small instance for running the layer sequence: integers as tensors,
    functions on integers as modules. *)
#[local] Instance Z_tensor_add : TensorAdd Z := Z.add.

#[local] Instance fn_module : Module (Z -> Z) Z := fun f x => f x.

Definition sample_layers
  : list (Residual (PreNorm (Z -> Z) (Z -> Z)) * Residual (PreNorm (Z -> Z) (Z -> Z))) :=
  [ (mkResidual (mkPreNorm (Z.mul 2) (Z.add 1)),
     mkResidual (mkPreNorm (Z.mul 3) (Z.add 5)));
    (mkResidual (mkPreNorm (Z.mul 7) Z.opp),
     mkResidual (mkPreNorm Z.succ Z.pred)) ].

(** ** Further definitions used by the properties below *)

(** A tokenizer that encodes every text on its own, as tokenizers do: the
    ids of a text and an all-ones mask of the same length. *)
Definition per_example_tokenizer (encode : string -> list Z)
    (texts : list string) : BatchEncoding :=
  [ ("input_ids"%string, map encode texts);
    ("attention_mask"%string, map (fun s => map (fun _ => 1) (encode s)) texts) ].

(** The value of [total_length] after line 52, for [seq_length <> 0]. *)
Definition packed_length (L n : Z) : Z :=
  if L <=? n then n / L * L else n.

(** The list comprehension of line 55 on one column, for [seq_length <> 0]. *)
Definition slices (L T : Z) (t : list Z) : list (list Z) :=
  map (fun i => py_slice t i (i + L))
      (map (fun k => 0 + Z.of_nat k * L) (seq 0 (range_len 0 T L))).

(** [torch.arange(n)] *)
Definition arange (n : Z) : list Z := Z.of_nat <$> seq 0 (Z.to_nat n).

(** [T5RelativePositionBias.forward], lines 91-93:
    [rel_pos = rearrange(k_pos, 'j -> 1 j') - rearrange(q_pos, 'i -> i 1')],
    row [q], column [k]. *)
Definition rel_pos (i j : Z) : list (list Z) :=
  map (fun q => map (fun k => k - q) (arange j)) (arange i).

(** [_relative_position_bucket] on a whole tensor: the scalar
    [math.log(max_distance / max_exact)] raises whatever the tensor holds,
    also when it is empty; the rest works entry by entry. *)
Definition relative_position_bucket_tensor (log_offset : Z -> Z -> Z -> Z)
    (rel : list (list Z)) (num_buckets max_distance : Z) : result (list (list Z)) :=
  _ <-! relative_position_bucket log_offset 0 num_buckets max_distance;
  map_result
    (map_result (fun r => relative_position_bucket log_offset r num_buckets max_distance))
    rel.

(** Line 94: [rp_bucket], the indices looked up in the bias table. *)
Definition rp_bucket (log_offset : Z -> Z -> Z -> Z) (m : T5RelativePositionBias)
    (i j : Z) : result (list (list Z)) :=
  relative_position_bucket_tensor log_offset (rel_pos i j) (num_buckets m) (max_distance m).

(** Line 138: the whole mask,
    [torch.ones((i, j), dtype = torch.bool).triu(j - i + 1)]. *)
Definition causal_mask_matrix (i j : Z) : list (list bool) :=
  map (fun r => map (fun c => causal_mask i j r c) (arange j)) (arange i).

(** ** Construction, with the argument checks of the libraries

    [Attention_init], [Transformer_init] and [LaMDA_init] above are the
    computation written in the constructors themselves.  The constructors
    of the tensor library that they call allocate their parameter tensors
    at once, and the allocation raises [RuntimeError] on a negative size
    (a size of zero is accepted).  The constructors below add these checks,
    in the order in which the source makes the calls. *)

Definition check_size (n : Z) : result unit :=
  if n <? 0 then Raise RuntimeError else Ok tt.

(** [nn.Linear(i, o, bias)] allocates a weight of [o] by [i] entries. *)
Definition nn_Linear (i o : Z) (bias : bool) : result Linear :=
  _ <-! check_size o;
  _ <-! check_size i;
  Ok (mkLinear i o bias).

(** [nn.LayerNorm(dim)] allocates a weight of [dim] entries. *)
Definition nn_LayerNorm (dim : Z) : result LayerNorm :=
  _ <-! check_size dim;
  Ok (mkLayerNorm dim).

(** [nn.Embedding(n, dim)] allocates a table of [n] by [dim] entries. *)
Definition nn_Embedding (n dim : Z) : result Embedding :=
  _ <-! check_size n;
  _ <-! check_size dim;
  Ok (mkEmbedding n dim).

(** [T5RelativePositionBias.__init__], lines 60-71. *)
Definition T5RelativePositionBias_init_checked (scale : scale_factor)
    (num_buckets max_distance heads : Z) : result T5RelativePositionBias :=
  relative_attention_bias <-! nn_Embedding num_buckets heads;
  Ok {| rpb_scale := scale;
        num_buckets := num_buckets;
        max_distance := max_distance;
        relative_attention_bias := relative_attention_bias |}.

(** [Attention.__init__], lines 102-121: the scale of line 112 comes first,
    then the three projections of lines 117-119, then the bias table. *)
Definition Attention_init_checked (dim heads dim_head : Z) : result Attention :=
  scale <-! pow_neg_half dim_head;
  let inner_dim := heads * dim_head in
  to_q <-! nn_Linear dim inner_dim false;
  to_kv <-! nn_Linear dim (dim_head * 2) false;
  to_out <-! nn_Linear inner_dim dim true;
  rel_pos_bias <-! T5RelativePositionBias_init_checked (PowHalf dim_head) 32 128 heads;
  Ok {| heads := heads;
        scale := scale;
        to_q := to_q;
        to_kv := to_kv;
        to_out := to_out;
        rel_pos_bias := rel_pos_bias |}.

(** [FeedForward.__init__], lines 44-52. *)
Definition FeedForward_init_checked (dim mult : Z) : result FeedForward :=
  let inner_dim := dim * mult in
  proj_in <-! nn_Linear dim (inner_dim * 2) true;
  proj_out <-! nn_Linear inner_dim dim true;
  Ok {| ff_proj_in := proj_in; ff_proj_out := proj_out |}.

(** [PreNorm.__init__], lines 26-29; the wrapped module is built by the
    caller before the call. *)
Definition PreNorm_init_checked {F} (dim : Z) (fn : F) : result (PreNorm LayerNorm F) :=
  norm <-! nn_LayerNorm dim;
  Ok (mkPreNorm norm fn).

(** [Transformer.__init__], lines 153-160. *)
Definition Transformer_init_checked (dim depth heads dim_head : Z)
    : result (Transformer LayerNorm Attention FeedForward) :=
  r <-! py_range 0 depth 1;
  ls <-! map_result (fun _ : Z =>
           attn <-! Attention_init_checked dim heads dim_head;
           attn <-! PreNorm_init_checked dim attn;
           ff <-! FeedForward_init_checked dim 4;
           ff <-! PreNorm_init_checked dim ff;
           Ok (mkResidual attn, mkResidual ff)) r;
  Ok (mkTransformer ls).

(** [LaMDA.__init__], lines 170-179: the token table of line 172 is built
    before the transformer of line 174. *)
Definition LaMDA_init_checked (num_tokens dim depth dim_head heads : Z) : result LaMDA :=
  token_emb <-! nn_Embedding num_tokens dim;
  transformer <-! Transformer_init_checked dim depth dim_head heads;
  norm <-! nn_LayerNorm dim;
  proj <-! nn_Linear dim num_tokens true;
  Ok {| token_emb := token_emb;
        transformer := transformer;
        to_logits := (norm, proj) |}.

(** ** [stream_dataloaders] (stream_dataloader.py, lines 9-101) *)

(** Modelled from the spec: the configuration class [CFG]
    (lamda_pytorch/config.py) is not among the source files.  The record
    holds the fields that [stream_dataloaders] and its closure [tokenize]
    read from [args] and that decide what is accepted: the name of the text
    column, the sequence length and the batch size, the last two integers. *)
Record CFG : Type := mkCFG
  { select_input_string : string;
    tokenizer_seq_length : Z;
    batch_size : Z }.

(** [torch.utils.data.DataLoader]: the stream it reads, its batch size and
    [drop_last].  The stream is the lazily mapped dataset of lines 70 and
    79, given by the function the dataset library applies to each batch of
    examples once the loader is iterated. *)
Record DataLoader : Type := mkDataLoader
  { dl_dataset : dict (list string) -> result BatchEncoding;
    dl_batch_size : Z;
    dl_drop_last : bool }.

(** [DataLoader(dataset, batch_size = n, drop_last = d, ...)]: the
    constructor builds the batch sampler, which raises [ValueError] unless
    the batch size is a positive integer. *)
Definition DataLoader_init (dataset : dict (list string) -> result BatchEncoding)
    (n : Z) (d : bool) : result DataLoader :=
  if n <=? 0 then Raise ValueError
  else Ok {| dl_dataset := dataset; dl_batch_size := n; dl_drop_last := d |}.

(** [stream_dataloaders(args, tokenizer)].  Loading, shuffling and mapping
    the two streams (lines 17-32, 70-91) are lazy calls of the dataset
    library on data that lives outside the program: they read neither the
    sequence length nor the batch size and run [tokenize] on nothing.  What
    is left of the construction are the two calls of lines 94 and 97. *)
Definition stream_dataloaders (args : CFG) (tokenizer : list string -> BatchEncoding)
    : result (DataLoader * DataLoader) :=
  let tokenize :=
    tokenize tokenizer (select_input_string args) (tokenizer_seq_length args) in
  train_dataloader <-! DataLoader_init tokenize (batch_size args) true;
  eval_dataloader <-! DataLoader_init tokenize (batch_size args) true;
  Ok (train_dataloader, eval_dataloader).

(** * Properties *)

Example tokenize_two_blocks :
  tokenize char_tokenizer "text" 4 [("text"%string, ["abcde"; "fghi"]%string)]
  = Ok [ ("input_ids"%string, [[97; 98; 99; 100]; [101; 102; 103; 104]]);
         ("attention_mask"%string, [[1; 1; 1; 1]; [1; 1; 1; 1]]);
         ("labels"%string, [[97; 98; 99; 100]; [101; 102; 103; 104]]) ].
Proof. vm_compute. reflexivity. Qed.

(** ** Packing: helper lemmas *)

Lemma map_result_ok {A B} (f : A -> result B) (g : A -> B) (l : list A) :
  (forall a, f a = Ok (g a)) -> map_result f l = Ok (map g l).
Proof.
  intros Hf. induction l as [|a l IH]; simpl; [reflexivity|].
  rewrite Hf, IH. reflexivity.
Qed.

Lemma dict_get_map_snd {V W} (g : V -> W) (k : string) (d : dict V) :
  dict_get k (map (fun kv => (fst kv, g (snd kv))) d) = g <$> dict_get k d.
Proof.
  induction d as [|[k' v] d IH]; simpl; [reflexivity|].
  destruct (String.eqb k k'); [reflexivity|exact IH].
Qed.

Lemma dict_get_set_ne {V} (k k' : string) (v : V) (d : dict V) :
  k <> k' -> dict_get k (dict_set k' v d) = dict_get k d.
Proof.
  intros Hne. induction d as [|[k0 v0] d IH]; simpl.
  - destruct (String.eqb_spec k k'); [contradiction|reflexivity].
  - destruct (String.eqb_spec k' k0) as [->|Hne0]; simpl.
    + destruct (String.eqb_spec k k0); [contradiction|reflexivity].
    + destruct (String.eqb k k0); [reflexivity|exact IH].
Qed.

Lemma dict_get_set_eq {V} (k : string) (v : V) (d : dict V) :
  dict_get k (dict_set k v d) = Some v.
Proof.
  induction d as [|[k0 v0] d IH]; simpl.
  - rewrite String.eqb_refl. reflexivity.
  - destruct (String.eqb_spec k k0) as [->|Hne]; simpl.
    + rewrite String.eqb_refl. reflexivity.
    + destruct (String.eqb_spec k k0); [contradiction|exact IH].
Qed.

(** [range(0, q * step, step)] has [q] elements when [step > 0]. *)
Lemma range_len_multiple (q step : Z) :
  0 < step -> 0 <= q -> range_len 0 (q * step) step = Z.to_nat q.
Proof.
  intros Hs Hq. unfold range_len.
  destruct (Z.ltb_spec 0 step); [|lia].
  destruct (Z.ltb_spec 0 (q * step)) as [Hpos|Hnpos].
  - f_equal. assert (0 < q) by nia.
    replace (q * step - 0 - 1) with ((q - 1) * step + (step - 1)) by lia.
    rewrite Z.div_add_l by lia. rewrite Z.div_small by lia. lia.
  - assert (q = 0) by nia. subst q. reflexivity.
Qed.

(** A negative step from 0 never reaches a non-negative stop. *)
Lemma range_len_negative_step (stop step : Z) :
  step < 0 -> 0 <= stop -> range_len 0 stop step = 0%nat.
Proof.
  intros Hs Hstop. unfold range_len.
  destruct (Z.ltb_spec 0 step); [lia|].
  destruct (Z.ltb_spec stop 0); [lia|reflexivity].
Qed.

Lemma py_slice_inside {A} (t : list A) (i len : Z) :
  0 <= i -> 0 <= len -> i + len <= Z.of_nat (length t) ->
  py_slice t i (i + len) = take (Z.to_nat len) (drop (Z.to_nat i) t).
Proof.
  intros Hi Hlen Hin. unfold py_slice, slice_bound.
  destruct (Z.ltb_spec i 0); [lia|].
  destruct (Z.ltb_spec (i + len) 0); [lia|].
  rewrite !Z.min_l by lia. f_equal. lia.
Qed.

(** Consecutive slices of width [w] rebuild the prefix they cover. *)
Lemma concat_consecutive_slices {A} (t : list A) (w : nat) (q : nat) :
  concat (map (fun k => take w (drop (k * w) t)) (seq 0 q)) = take (q * w) t.
Proof.
  induction q as [|q IH].
  - reflexivity.
  - rewrite seq_S, map_app, concat_app, IH. simpl.
    rewrite app_nil_r, take_take_drop. f_equal. lia.
Qed.

Lemma split_blocks_multiple (L q : Z) (t : list Z) :
  0 < L -> 0 <= q ->
  split_blocks L (q * L) t
  = Ok (full_blocks L q t).
Proof.
  intros HL Hq. unfold split_blocks, py_range, full_blocks.
  destruct (Z.eqb_spec L 0); [lia|]. simpl.
  rewrite range_len_multiple by lia. rewrite map_map. reflexivity.
Qed.

Lemma full_slices (L q : Z) (t : list Z) :
  0 < L -> 0 <= q -> q * L <= Z.of_nat (length t) ->
  full_blocks L q t
  = map (fun k => take (Z.to_nat L) (drop (k * Z.to_nat L) t)) (seq 0 (Z.to_nat q)).
Proof.
  intros HL Hq Hlen. unfold full_blocks. apply map_ext_in. intros k Hk.
  apply in_seq in Hk.
  rewrite py_slice_inside by nia. do 2 f_equal. nia.
Qed.

Lemma dict_get_Forall {V} (P : V -> Prop) (k : string) (d : dict V) (v : V) :
  Forall (fun kv => P (snd kv)) d -> dict_get k d = Some v -> P v.
Proof.
  induction 1 as [|[k' v'] d Hx _ IH]; simpl; [discriminate|].
  destruct (String.eqb k k'); [intros [= <-]; exact Hx|exact IH].
Qed.

(** What [tokenize] returns on a batch that holds at least one full block:
    [total / L] consecutive slices of every column. *)
Lemma tokenize_blocks_full (tokenizer : list string -> BatchEncoding)
    (sel : string) (L : Z) (ex : dict (list string)) (texts : list string)
    (cols : list (list Z)) :
  0 < L ->
  dict_get sel ex = Some texts ->
  dict_get "input_ids" (tokenizer texts) = Some cols ->
  token_aligned (tokenizer texts) ->
  L <= Z.of_nat (length (concat cols)) ->
  tokenize_blocks tokenizer sel L ex
  = Ok (map (fun kv => (fst kv, full_blocks L (Z.of_nat (length (concat cols)) / L)
                                            (concat (snd kv))))
            (tokenizer texts)).
Proof.
  intros HL Hsel Hids [n Hal] Hge.
  unfold tokenize_blocks, dict_item. rewrite Hsel. simpl.
  destruct (tokenizer texts) as [|[k0 c0] rest] eqn:Henc; [discriminate|].
  simpl. rewrite String.eqb_refl. simpl.
  assert (Hn : length (concat cols) = n).
  { exact (dict_get_Forall (fun c => length (concat c) = n) _ _ _ Hal Hids). }
  assert (Hn0 : length (concat c0) = n).
  { inversion Hal; subst; assumption. }
  rewrite Hn0, <- Hn.
  unfold truncated_length.
  destruct (Z.leb_spec L (Z.of_nat (length (concat cols)))); [|lia].
  unfold py_floordiv. destruct (Z.eqb_spec L 0); [lia|]. simpl.
  set (q := Z.of_nat (length (concat cols)) / L).
  assert (Hq : 0 <= q) by (apply Z.div_pos; lia).
  rewrite split_blocks_multiple by lia. simpl.
  rewrite (map_result_ok _
    (fun kt : string * list Z => (fst kt, full_blocks L q (snd kt)))).
  - simpl. rewrite map_map. reflexivity.
  - intros [k t]. simpl. rewrite split_blocks_multiple by lia. reflexivity.
Qed.

Lemma tokenize_full (tokenizer : list string -> BatchEncoding)
    (sel : string) (L : Z) (ex : dict (list string)) (texts : list string)
    (cols : list (list Z)) :
  0 < L ->
  dict_get sel ex = Some texts ->
  dict_get "input_ids" (tokenizer texts) = Some cols ->
  token_aligned (tokenizer texts) ->
  L <= Z.of_nat (length (concat cols)) ->
  exists r,
    tokenize tokenizer sel L ex = Ok r /\
    column "input_ids" r
    = full_blocks L (Z.of_nat (length (concat cols)) / L) (concat cols) /\
    column "labels" r = column "input_ids" r.
Proof.
  intros HL Hsel Hids Hal Hge.
  unfold tokenize. rewrite (tokenize_blocks_full _ _ _ _ texts cols) by assumption.
  simpl. unfold dict_item.
  rewrite (dict_get_map_snd (fun c => full_blocks L _ (concat c))), Hids. simpl.
  eexists. split; [reflexivity|].
  unfold column. rewrite dict_get_set_eq, dict_get_set_ne by discriminate.
  rewrite (dict_get_map_snd (fun c => full_blocks L _ (concat c))), Hids.
  split; reflexivity.
Qed.

Lemma full_blocks_concat (L q : Z) (t : list Z) :
  0 < L -> 0 <= q -> q * L <= Z.of_nat (length t) ->
  concat (full_blocks L q t) = take (Z.to_nat (q * L)) t.
Proof.
  intros HL Hq Hlen. rewrite full_slices by assumption.
  rewrite concat_consecutive_slices. f_equal. nia.
Qed.

Lemma full_blocks_length (L q : Z) (t : list Z) :
  0 < L -> 0 <= q -> q * L <= Z.of_nat (length t) ->
  Forall (fun b => Z.of_nat (length b) = L) (full_blocks L q t).
Proof.
  intros HL Hq Hlen. rewrite full_slices by assumption.
  apply Forall_forall. intros b Hb. apply list_elem_of_In, in_map_iff in Hb.
  destruct Hb as [k [<- Hk]]. apply in_seq in Hk.
  rewrite length_take, length_drop. nia.
Qed.

(** On a batch that holds at least one full block, every emitted block of
    token ids and of labels has exactly [L] entries. *)
Lemma tokenize_full_blocks_exact (tokenizer : list string -> BatchEncoding)
    (sel : string) (L : Z) (ex : dict (list string)) (texts : list string)
    (cols : list (list Z)) :
  0 < L ->
  dict_get sel ex = Some texts ->
  dict_get "input_ids" (tokenizer texts) = Some cols ->
  token_aligned (tokenizer texts) ->
  L <= Z.of_nat (length (concat cols)) ->
  exists r,
    tokenize tokenizer sel L ex = Ok r /\
    Forall (fun b => Z.of_nat (length b) = L) (column "input_ids" r) /\
    Forall (fun b => Z.of_nat (length b) = L) (column "labels" r).
Proof.
  intros HL Hsel Hids Hal Hge.
  destruct (tokenize_full tokenizer sel L ex texts cols) as (r & Hr & Hi & Hl);
    try assumption.
  exists r. split; [exact Hr|]. rewrite Hl, Hi.
  assert (Forall (fun b => Z.of_nat (length b) = L)
            (full_blocks L (Z.of_nat (length (concat cols)) / L) (concat cols))).
  { apply full_blocks_length; [lia|apply Z.div_pos; lia|].
    rewrite Z.mul_comm. apply Z.mul_div_le. lia. }
  split; assumption.
Qed.

(** C1, as the code breaks it: with [L = 4], a batch whose examples hold
    three tokens in all is not dropped; [tokenize] emits one block of
    three token ids, three mask entries and three labels. *)
Theorem tokenize_short_batch_emits_short_block :
  tokenize char_tokenizer "text" 4 [("text"%string, ["abc"%string])]
  = Ok [ ("input_ids"%string, [[97; 98; 99]]);
         ("attention_mask"%string, [[1; 1; 1]]);
         ("labels"%string, [[97; 98; 99]]) ].
Proof. vm_compute. reflexivity. Qed.

(** C2, refuted as stated: two calls with [L = 2], on the batches "abc" and
    "def".  The remainder of the first call (token 99) is not kept for the
    second: the emitted ids are 97 98 100 101, which is no prefix of the
    input 97 .. 102, and two tokens are lost, more than [L - 1]. *)
Lemma map_batched_remainder_not_carried :
  let batches := [ [("text"%string, ["abc"%string])];
                   [("text"%string, ["def"%string])] ] in
  let input := concat (map (batch_tokens char_tokenizer "text") batches) in
  exists blocks,
    map_batched (tokenize char_tokenizer "text" 2) batches = Ok blocks /\
    input = [97; 98; 99; 100; 101; 102] /\
    concat blocks = [97; 98; 100; 101] /\
    (forall m : nat, take m input <> concat blocks) /\
    (2 - 1 < Z.of_nat (length input) - Z.of_nat (length (concat blocks))).
Proof.
  exists [[97; 98]; [100; 101]].
  split; [vm_compute; reflexivity|].
  split; [vm_compute; reflexivity|].
  split; [vm_compute; reflexivity|].
  split; [|vm_compute; reflexivity].
  intros m. vm_compute.
  do 5 (destruct m as [|m]; [discriminate|]). discriminate.
Qed.

(** C2, amended: every call truncates its own batch.  For [L > 0] and
    batches that each hold at least [L] tokens, the emitted token ids are
    the concatenation, call by call, of the first [(n / L) * L] of the [n]
    tokens of that call's batch; the [n mod L] tokens left over in a call
    are dropped by that call. *)
Theorem map_batched_truncates_each_call
    (tokenizer : list string -> BatchEncoding) (sel : string) (L : Z)
    (batches : list (dict (list string))) :
  0 < L ->
  Forall (fun ex => exists texts cols,
            dict_get sel ex = Some texts /\
            dict_get "input_ids" (tokenizer texts) = Some cols /\
            token_aligned (tokenizer texts) /\
            L <= Z.of_nat (length (concat cols))) batches ->
  exists blocks,
    map_batched (tokenize tokenizer sel L) batches = Ok blocks /\
    concat blocks
    = concat (map (fun ex =>
                let t := batch_tokens tokenizer sel ex in
                take (Z.to_nat (Z.of_nat (length t) / L * L)) t) batches).
Proof.
  intros HL Hall. unfold map_batched.
  induction Hall as [|ex batches Hex _ IH].
  - exists []. split; reflexivity.
  - destruct Hex as (texts & cols & Hsel & Hids & Hal & Hge).
    destruct (tokenize_full tokenizer sel L ex texts cols) as (r & Hr & Hi & _);
      try assumption.
    destruct IH as (blocks & Hbs & Hcat).
    destruct (map_result (tokenize tokenizer sel L) batches) as [outs|] eqn:Houts;
      [|discriminate].
    simpl in Hbs. injection Hbs as <-.
    exists (column "input_ids" r ++ concat (map (column "input_ids") outs)).
    split.
    + simpl. rewrite Hr. simpl. rewrite Houts. reflexivity.
    + assert (Hbt : batch_tokens tokenizer sel ex = concat cols).
      { unfold batch_tokens, column. rewrite Hsel. simpl. rewrite Hids. reflexivity. }
      rewrite concat_app, Hcat. simpl. rewrite Hbt. f_equal.
      rewrite Hi. apply full_blocks_concat; [lia|apply Z.div_pos; lia|].
      rewrite Z.mul_comm. apply Z.mul_div_le. lia.
Qed.

Lemma map_batched_truncates_each_call_witness :
  exists blocks,
    map_batched (tokenize char_tokenizer "text" 2)
      [ [("text"%string, ["abc"%string])]; [("text"%string, ["de"; "fgh"]%string)] ]
    = Ok blocks /\
    concat blocks = [97; 98; 100; 101; 102; 103].
Proof.
  apply (map_batched_truncates_each_call char_tokenizer "text" 2
           [ [("text"%string, ["abc"%string])];
             [("text"%string, ["de"; "fgh"]%string)] ]).
  - lia.
  - repeat constructor.
    + exists ["abc"%string], [[97; 98; 99]].
      repeat split; try reflexivity.
      * exists 3%nat. repeat constructor.
      * simpl. lia.
    + exists ["de"; "fgh"]%string, [[100; 101]; [102; 103; 104]].
      repeat split; try reflexivity.
      * exists 5%nat. repeat constructor.
      * simpl. lia.
Defined.

(** C6, refuted as stated: nothing rejects a negative sequence length.
    With [seq_length = -2] the packing function runs on a batch and returns
    normally, with no block under any key. *)
Lemma tokenize_negative_seq_length_not_rejected :
  -2 <= 0 /\
  tokenize char_tokenizer "text" (-2) [("text"%string, ["abc"%string])]
  = Ok [ ("input_ids"%string, []);
         ("attention_mask"%string, []);
         ("labels"%string, []) ].
Proof. split; [lia|vm_compute; reflexivity]. Qed.

(** The sequence length is read by [tokenize] when a batch is processed.
    A zero sequence length makes that call raise [ZeroDivisionError]; a
    negative one is never rejected: the call returns normally, with no
    block under any key. *)
Lemma tokenize_nonpositive_seq_length
    (tokenizer : list string -> BatchEncoding) (sel : string) (L : Z)
    (ex : dict (list string)) (texts : list string) :
  dict_get sel ex = Some texts ->
  is_Some (dict_get "input_ids" (tokenizer texts)) ->
  (L = 0 -> tokenize tokenizer sel L ex = Raise ZeroDivisionError) /\
  (L < 0 -> tokenize tokenizer sel L ex
            = Ok (dict_set "labels" []
                    (map (fun kv => (fst kv, [])) (tokenizer texts)))).
Proof.
  intros Hsel [cols Hids]. unfold tokenize, tokenize_blocks, dict_item.
  rewrite Hsel. simpl.
  destruct (tokenizer texts) as [|[k0 c0] rest] eqn:Henc; [discriminate|].
  simpl. rewrite String.eqb_refl. simpl. unfold truncated_length.
  set (total := Z.of_nat (length (concat c0))).
  assert (Htot : 0 <= total) by (unfold total; lia).
  split.
  - intros ->. destruct (Z.leb_spec 0 total); [|lia]. reflexivity.
  - intros HL. destruct (Z.leb_spec L total); [|lia].
    unfold py_floordiv. destruct (Z.eqb_spec L 0); [lia|]. simpl.
    assert (HT : 0 <= total / L * L).
    { pose proof (Z.mod_neg_bound total L HL).
      pose proof (Z.div_mod total L ltac:(lia)). nia. }
    assert (Hsplit : forall t, split_blocks L (total / L * L) t = Ok []).
    { intros t. unfold split_blocks, py_range.
      destruct (Z.eqb_spec L 0); [lia|].
      rewrite range_len_negative_step by lia. reflexivity. }
    rewrite Hsplit. simpl.
    rewrite (map_result_ok _ (fun kt : string * list Z => (fst kt, @nil (list Z)))).
    + simpl. rewrite map_map. simpl.
      assert (Hget : dict_get "input_ids"
                (((k0, []) :: map (fun kv => (fst kv, [])) rest) : BatchEncoding)
              = Some []).
      { change ((k0, []) :: map (fun kv : string * list (list Z) => (fst kv, [])) rest)
          with (map (fun kv : string * list (list Z) => (fst kv, (fun _ => @nil (list Z)) (snd kv)))
                    ((k0, c0) :: rest)).
        rewrite (dict_get_map_snd (fun _ : list (list Z) => @nil (list Z))), Hids.
        reflexivity. }
      simpl in Hget. rewrite Hget. reflexivity.
    + intros [k t]. simpl. rewrite Hsplit. reflexivity.
Qed.

(** ** Shapes: helper lemmas *)

Lemma broadcast_dim_refl (x : Z) : broadcast_dim x x = Some x.
Proof. unfold broadcast_dim. rewrite Z.eqb_refl. reflexivity. Qed.

Lemma broadcast_dim_one_r (x : Z) : broadcast_dim x 1 = Some x.
Proof.
  unfold broadcast_dim. destruct (Z.eqb_spec x 1) as [->|_]; [reflexivity|].
  reflexivity.
Qed.

Lemma broadcast_rev_refl (a : shape) : broadcast_rev a a = Some a.
Proof.
  induction a as [|x a IH]; [reflexivity|].
  simpl. rewrite broadcast_dim_refl. simpl. rewrite IH. reflexivity.
Qed.

Lemma broadcast_refl (a : shape) : broadcast a a = Some a.
Proof.
  unfold broadcast. rewrite broadcast_rev_refl. simpl.
  rewrite reverse_involutive. reflexivity.
Qed.

Lemma chunk2_sizes_even (d : Z) : 0 < d -> chunk2_sizes (d * 2) = [d; d].
Proof.
  intros Hd. unfold chunk2_sizes.
  destruct (Z.eqb_spec (d * 2) 0); [lia|].
  rewrite Z.div_add_l by lia. change (1 / 2) with 0. rewrite Z.add_0_r.
  destruct (Z.ltb_spec d (d * 2)); [|lia].
  do 2 f_equal. lia.
Qed.

Lemma split_heads_exact (h d b n : Z) :
  0 < h -> split_heads h [b; n; h * d] = Some [b; h; n; d].
Proof.
  intros Hh. unfold split_heads.
  destruct (Z.ltb_spec 0 h); [|lia].
  rewrite (Z.mul_comm h d), Z.mod_mul, Z.div_mul by lia. reflexivity.
Qed.

(** [range(depth)] has [depth] elements, none when [depth <= 0]. *)
Lemma range_len_depth (depth : Z) : range_len 0 depth 1 = Z.to_nat depth.
Proof.
  unfold range_len. simpl.
  destruct (Z.ltb_spec 0 depth); [|lia].
  rewrite Z.div_1_r. lia.
Qed.

(** ** The constructors *)

Lemma Attention_init_ok (dim h d : Z) :
  d <> 0 ->
  Attention_init dim h d
  = Ok {| heads := h;
          scale := PowNegHalf d;
          to_q := mkLinear dim (h * d) false;
          to_kv := mkLinear dim (d * 2) false;
          to_out := mkLinear (h * d) dim true;
          rel_pos_bias := T5RelativePositionBias_init (PowHalf d) 32 128 h |}.
Proof.
  intros Hd. unfold Attention_init, pow_neg_half.
  destruct (Z.eqb_spec d 0); [contradiction|reflexivity].
Qed.

Lemma Transformer_init_ok (dim depth h d : Z) (a : Attention) :
  Attention_init dim h d = Ok a ->
  Transformer_init dim depth h d
  = Ok (mkTransformer
          (replicate (Z.to_nat depth)
             (mkResidual (PreNorm_init dim a),
              mkResidual (PreNorm_init dim (FeedForward_init dim 4))))).
Proof.
  intros Ha. unfold Transformer_init, py_range. simpl.
  rewrite range_len_depth, Ha. simpl.
  set (l := mkResidual (PreNorm_init dim a)).
  set (r := mkResidual (PreNorm_init dim (FeedForward_init dim 4))).
  rewrite (map_result_ok _ (fun _ : Z => (l, r))) by reflexivity.
  simpl. do 2 f_equal.
  generalize 0%nat. induction (Z.to_nat depth) as [|k IH]; intros s; simpl.
  - reflexivity.
  - f_equal. apply IH.
Qed.

(** ** The projections of an attention layer, on shapes *)

Lemma Attention_qkv_shapes (dim h d b n : Z) (a : Attention) :
  0 < h -> 0 < d ->
  Attention_init dim h d = Ok a ->
  Attention_qkv a [b; n; dim] = Some ([b; h; n; d], [b; n; d], [b; n; d]).
Proof.
  intros Hh Hd Ha. rewrite Attention_init_ok in Ha by lia. injection Ha as <-.
  unfold Attention_qkv, Linear_forward, chunk2. simpl.
  rewrite Z.eqb_refl. simpl. rewrite chunk2_sizes_even by lia. simpl.
  change (split_heads h [b; n; h * d] ≫= (λ q : shape, Some (q, [b; n; d], [b; n; d]))
          = Some ([b; h; n; d], [b; n; d], [b; n; d])).
  rewrite split_heads_exact by lia. reflexivity.
Qed.

Lemma Attention_forward_shape (dim h d b n : Z) (a : Attention) :
  0 < h -> 0 < d ->
  Attention_init dim h d = Ok a ->
  Attention_forward a [b; n; dim] = Some [b; n; dim].
Proof.
  intros Hh Hd Ha. unfold Attention_forward.
  rewrite (Attention_qkv_shapes dim h d b n a) by assumption.
  rewrite Attention_init_ok in Ha by lia. injection Ha as <-.
  simpl. rewrite !broadcast_dim_refl. simpl.
  unfold T5RelativePositionBias_forward, broadcast. simpl.
  rewrite !broadcast_dim_refl. simpl. rewrite broadcast_dim_one_r. simpl.
  unfold masked_fill_shape, broadcast. simpl.
  rewrite !broadcast_dim_refl. simpl.
  rewrite bool_decide_eq_true_2 by reflexivity. simpl.
  rewrite !broadcast_dim_refl. simpl.
  unfold Linear_forward. simpl. rewrite Z.eqb_refl. reflexivity.
Qed.

Lemma FeedForward_forward_shape (dim b n : Z) :
  0 < dim ->
  FeedForward_forward (FeedForward_init dim 4) [b; n; dim] = Some [b; n; dim].
Proof.
  intros Hdim. unfold FeedForward_forward, FeedForward_init, Linear_forward. simpl.
  rewrite Z.eqb_refl. simpl.
  unfold GEGLU_forward, chunk2. simpl.
  rewrite chunk2_sizes_even by lia. simpl.
  rewrite broadcast_refl. simpl. rewrite Z.eqb_refl. reflexivity.
Qed.

Lemma LayerNorm_forward_shape (dim b n : Z) :
  LayerNorm_forward (mkLayerNorm dim) [b; n; dim] = Some [b; n; dim].
Proof. unfold LayerNorm_forward. simpl. rewrite Z.eqb_refl. reflexivity. Qed.

(** One layer keeps the shape [(b, n, dim)]. *)
Lemma layer_forward_shape (dim h d b n : Z) (a : Attention) :
  0 < dim -> 0 < h -> 0 < d ->
  Attention_init dim h d = Ok a ->
  forward (mkResidual (PreNorm_init dim (FeedForward_init dim 4)))
    (forward (mkResidual (PreNorm_init dim a)) (Some [b; n; dim]))
  = Some [b; n; dim].
Proof.
  intros Hdim Hh Hd Ha.
  unfold forward, Residual_forward, PreNorm_forward, forward,
    LayerNorm_module, Attention_module, FeedForward_module,
    tensor_add, shape_add, PreNorm_init.
  cbn [res_fn pn_fn norm mbind option_bind].
  rewrite LayerNorm_forward_shape. cbn [mbind option_bind].
  rewrite (Attention_forward_shape dim h d b n a) by assumption.
  cbn [mbind option_bind]. rewrite broadcast_refl. cbn [mbind option_bind].
  rewrite LayerNorm_forward_shape. cbn [mbind option_bind].
  rewrite FeedForward_forward_shape by assumption.
  cbn [mbind option_bind]. apply broadcast_refl.
Qed.

Lemma Transformer_forward_shape (dim h d b n : Z) (a : Attention) (k : nat) :
  0 < dim -> 0 < h -> 0 < d ->
  Attention_init dim h d = Ok a ->
  forward (mkTransformer
             (replicate k
                (mkResidual (PreNorm_init dim a),
                 mkResidual (PreNorm_init dim (FeedForward_init dim 4)))))
          (Some [b; n; dim])
  = Some [b; n; dim].
Proof.
  intros Hdim Hh Hd Ha. unfold forward at 1, Transformer_forward.
  cbn [layers]. induction k as [|k IH]; [reflexivity|].
  cbn [replicate fold_left fst snd].
  rewrite (layer_forward_shape dim h d b n a) by assumption. exact IH.
Qed.

(** ** The layer sequence *)

Lemma Residual_forward_eq {T F : Type} `{TensorAdd T} `{Module F T}
    (m : Residual F) (x : T) :
  forward m x = tensor_add (forward (res_fn m) x) x.
Proof. reflexivity. Qed.

Lemma PreNorm_forward_eq {T N F : Type} `{Module N T} `{Module F T}
    (m : PreNorm N F) (x : T) :
  forward m x = forward (pn_fn m) (forward (norm m) x).
Proof. reflexivity. Qed.

Section LayerSequence.

Context {T N A F : Type}.
Context `{TensorAdd T} `{Module N T} `{Module A T} `{Module F T}.

Hypothesis tensor_add_comm : forall x y : T, tensor_add x y = tensor_add y x.

Lemma Transformer_forward_spec_layers
    (ls : list (Residual (PreNorm N A) * Residual (PreNorm N F))) (x : T) :
  forward (mkTransformer ls) x = spec_layers ls x.
Proof.
  unfold forward at 1, Transformer_forward. cbn [layers].
  revert x. induction ls as [|[attn ff] ls IH]; intros x; [reflexivity|].
  cbn [fold_left spec_layers fst snd]. rewrite IH. f_equal.
  rewrite !Residual_forward_eq, !PreNorm_forward_eq.
  rewrite (tensor_add_comm _ x). apply tensor_add_comm.
Qed.

End LayerSequence.

Lemma Transformer_forward_app {T N A F : Type}
    `{TensorAdd T} `{Module N T} `{Module A T} `{Module F T}
    (ls1 ls2 : list (Residual (PreNorm N A) * Residual (PreNorm N F))) (x : T) :
  forward (mkTransformer (ls1 ++ ls2)) x
  = forward (mkTransformer ls2) (forward (mkTransformer ls1) x).
Proof.
  unfold forward at 1 2 3, Transformer_forward. cbn [layers].
  apply fold_left_app.
Qed.

(** C8: the forward pass of a transformer runs its layers one after the
    other, in the order of the list: each layer computes
    [x = x + Attention(LayerNorm(x))] and then
    [x = x + FeedForward(LayerNorm(x))]; the output of the first layers
    [ls1] is computed without the later layers [ls2], which start from it;
    and a transformer constructed with depth [D] has exactly [D] layers. *)
Theorem Transformer_forward_sequential {T N A F : Type}
    `{TensorAdd T} `{Module N T} `{Module A T} `{Module F T}
    (tensor_add_comm : forall x y : T, tensor_add x y = tensor_add y x)
    (t : Transformer N A F) (x : T) :
  forward t x = spec_layers (layers t) x /\
  (forall ls1 ls2, layers t = ls1 ++ ls2 ->
     forward t x = forward (mkTransformer ls2) (forward (mkTransformer ls1) x)) /\
  (forall dim depth heads dim_head : Z,
     0 <= depth -> dim_head <> 0 ->
     exists t' : Transformer LayerNorm Attention FeedForward,
       Transformer_init dim depth heads dim_head = Ok t' /\
       Z.of_nat (length (layers t')) = depth).
Proof.
  destruct t as [ls]. split; [|split].
  - apply Transformer_forward_spec_layers. exact tensor_add_comm.
  - cbn [layers]. intros ls1 ls2 ->. apply Transformer_forward_app.
  - intros dim depth h d Hdepth Hd.
    eexists. split.
    + apply Transformer_init_ok. apply Attention_init_ok. exact Hd.
    + cbn [layers]. rewrite length_replicate. lia.
Qed.

Lemma Transformer_forward_sequential_witness :
  forward (mkTransformer sample_layers) 1 = -252 /\
  spec_layers sample_layers 1 = -252.
Proof.
  destruct (Transformer_forward_sequential Z.add_comm (mkTransformer sample_layers) 1)
    as [Hs _].
  split; [refine (eq_trans Hs _)|]; vm_compute; reflexivity.
Defined.

(** C9: an attention layer built for [heads] heads of size [dim_head]
    projects the queries with one bias-free linear map
    [dim -> heads * dim_head], split into [heads] heads of [dim_head]
    columns each, a different set of columns for every head; keys and values
    come from one bias-free linear map [dim -> 2 * dim_head] cut in two
    halves of [dim_head] columns, which carry no head axis: all heads read
    the same keys and values. *)
Theorem Attention_multi_query_projections (dim heads dim_head : Z) :
  0 < heads -> 0 < dim_head ->
  exists m : Attention,
    Attention_init dim heads dim_head = Ok m /\
    to_q m = mkLinear dim (heads * dim_head) false /\
    to_kv m = mkLinear dim (dim_head * 2) false /\
    (forall b n : Z,
       Attention_qkv m [b; n; dim]
       = Some ([b; heads; n; dim_head], [b; n; dim_head], [b; n; dim_head])) /\
    (forall h d : Z, 0 <= h < heads -> 0 <= d < dim_head ->
       0 <= q_column dim_head h d < out_features (to_q m) /\
       0 <= k_column d < dim_head /\
       dim_head <= v_column dim_head d < out_features (to_kv m)) /\
    (forall h d h' d' : Z,
       0 <= d < dim_head -> 0 <= d' < dim_head ->
       q_column dim_head h d = q_column dim_head h' d' -> h = h' /\ d = d').
Proof.
  intros Hh Hd. eexists. split; [apply Attention_init_ok; lia|].
  split; [reflexivity|]. split; [reflexivity|]. split; [|split].
  - intros b n. apply (Attention_qkv_shapes dim heads dim_head); try assumption.
    apply Attention_init_ok. lia.
  - intros h d Hhr Hdr. cbn [to_q to_kv out_features].
    unfold q_column, k_column, v_column. nia.
  - intros h d h' d' Hdr Hdr'. unfold q_column. intros Heq.
    assert (h = h') by nia. subst h'. split; [reflexivity|lia].
Qed.

Lemma Attention_multi_query_projections_witness :
  exists m : Attention,
    Attention_init 512 8 64 = Ok m /\
    to_q m = mkLinear 512 512 false /\
    to_kv m = mkLinear 512 128 false /\
    Attention_qkv m [2; 10; 512] = Some ([2; 8; 10; 64], [2; 10; 64], [2; 10; 64]).
Proof.
  destruct (Attention_multi_query_projections 512 8 64) as (m & Hm & Hq & Hkv & Hs & _);
    [lia|lia|].
  exists m. repeat split; try assumption. apply Hs.
Defined.

(** The layers of a transformer that was constructed, whatever the
    arguments: [depth] copies of the same pair of wrapped modules. *)
Lemma Transformer_init_layers (dim depth h d : Z)
    (t : Transformer LayerNorm Attention FeedForward) :
  Transformer_init dim depth h d = Ok t ->
  layers t
  = replicate (Z.to_nat depth)
      (mkResidual (PreNorm_init dim
         {| heads := h;
            scale := PowNegHalf d;
            to_q := mkLinear dim (h * d) false;
            to_kv := mkLinear dim (d * 2) false;
            to_out := mkLinear (h * d) dim true;
            rel_pos_bias := T5RelativePositionBias_init (PowHalf d) 32 128 h |}),
       mkResidual (PreNorm_init dim (FeedForward_init dim 4))).
Proof.
  intros Ht. destruct (Z.eqb_spec d 0) as [->|Hd].
  - unfold Transformer_init, py_range in Ht. simpl in Ht.
    rewrite range_len_depth in Ht.
    destruct (Z.to_nat depth) as [|k]; simpl in Ht.
    + injection Ht as <-. reflexivity.
    + discriminate.
  - rewrite (Transformer_init_ok dim depth h d _ (Attention_init_ok dim h d Hd)) in Ht.
    injection Ht as <-. reflexivity.
Qed.

(** C3: [LaMDA(num_tokens, dim, depth, dim_head, heads)] hands [dim_head]
    and [heads] to [Transformer] in the places of [heads] and [dim_head].
    Every attention layer of a constructed model therefore has [dim_head]
    query heads of size [heads]: its [heads] field is the model's
    [dim_head], its scale is [heads ** -0.5], its query projection is
    [dim -> dim_head * heads], its key/value projection is
    [dim -> 2 * heads], its bias table has [dim_head] columns and, for
    positive sizes, its queries have shape [(b, dim_head, n, heads)] and its
    keys and values [(b, n, heads)]. *)
Theorem LaMDA_init_swaps_heads_and_dim_head
    (num_tokens dim depth dim_head_arg heads_arg : Z) (m : LaMDA) :
  LaMDA_init num_tokens dim depth dim_head_arg heads_arg = Ok m ->
  Transformer_init dim depth dim_head_arg heads_arg = Ok (transformer m) /\
  length (layers (transformer m)) = Z.to_nat depth /\
  Forall (fun l =>
            let a := pn_fn (res_fn (fst l)) in
            heads a = dim_head_arg /\
            scale a = PowNegHalf heads_arg /\
            to_q a = mkLinear dim (dim_head_arg * heads_arg) false /\
            to_kv a = mkLinear dim (heads_arg * 2) false /\
            embedding_dim (relative_attention_bias (rel_pos_bias a)) = dim_head_arg /\
            (0 < dim_head_arg -> 0 < heads_arg ->
             forall b n : Z,
               Attention_qkv a [b; n; dim]
               = Some ([b; dim_head_arg; n; heads_arg],
                       [b; n; heads_arg], [b; n; heads_arg])))
         (layers (transformer m)).
Proof.
  intros Hm. unfold LaMDA_init in Hm.
  destruct (Transformer_init dim depth dim_head_arg heads_arg) as [t|] eqn:Ht;
    [|discriminate].
  cbn [bind] in Hm. injection Hm as <-. cbn [transformer].
  split; [reflexivity|].
  rewrite (Transformer_init_layers _ _ _ _ _ Ht).
  split; [apply length_replicate|].
  apply Forall_replicate. cbn [fst res_fn pn_fn PreNorm_init].
  repeat split.
  intros Hdh Hh b n.
  apply (Attention_qkv_shapes dim dim_head_arg heads_arg); try assumption.
  apply Attention_init_ok. lia.
Qed.

Lemma LaMDA_init_swaps_heads_and_dim_head_witness :
  exists m : LaMDA,
    LaMDA_init 20000 512 2 64 8 = Ok m /\
    length (layers (transformer m)) = 2%nat /\
    Forall (fun l =>
              heads (pn_fn (res_fn (fst l))) = 64 /\
              to_kv (pn_fn (res_fn (fst l))) = mkLinear 512 16 false /\
              Attention_qkv (pn_fn (res_fn (fst l))) [1; 2048; 512]
              = Some ([1; 64; 2048; 8], [1; 2048; 8], [1; 2048; 8]))
           (layers (transformer m)).
Proof.
  destruct (LaMDA_init 20000 512 2 64 8) as [m|] eqn:Hm; [|discriminate].
  exists m. split; [reflexivity|].
  destruct (LaMDA_init_swaps_heads_and_dim_head 20000 512 2 64 8 m Hm)
    as (_ & Hlen & Hall).
  split; [exact Hlen|].
  eapply Forall_impl; [exact Hall|].
  intros l (Hheads & _ & _ & Hkv & _ & Hshape).
  split; [exact Hheads|]. split; [exact Hkv|].
  apply Hshape; lia.
Defined.

(** C10: for a model built with positive [dim], [dim_head] and [heads], and
    a tensor of token ids of shape [(batch, length)] whose entries all lie
    in [[0, num_tokens)], the forward pass returns logits of shape
    [(batch, length, num_tokens)], whatever [batch], [length] and the depth
    are. *)
Theorem LaMDA_forward_logits_shape
    (num_tokens dim depth dim_head_arg heads_arg batch len : Z) (data : list Z) :
  0 < dim -> 0 < dim_head_arg -> 0 < heads_arg ->
  0 <= batch -> 0 <= len ->
  Z.of_nat (length data) = batch * len ->
  Forall (fun t => 0 <= t < num_tokens) data ->
  exists m : LaMDA,
    LaMDA_init num_tokens dim depth dim_head_arg heads_arg = Ok m /\
    LaMDA_forward m (mkIdTensor [batch; len] data) = Some [batch; len; num_tokens].
Proof.
  intros Hdim Hdh Hh Hb Hn Hsize Hids.
  pose proof (Attention_init_ok dim dim_head_arg heads_arg ltac:(lia)) as Ha.
  pose proof (Transformer_init_ok dim depth dim_head_arg heads_arg _ Ha) as Ht.
  eexists. split; [unfold LaMDA_init; rewrite Ht; reflexivity|].
  unfold LaMDA_forward, Embedding_forward.
  cbn [token_emb transformer to_logits ids_data ids_shape num_embeddings
       embedding_dim fst snd].
  assert (Hall : forallb (fun t => (0 <=? t) && (t <? num_tokens)) data = true).
  { apply forallb_forall. intros t Ht'. apply list_elem_of_In in Ht'.
    rewrite Forall_forall in Hids. specialize (Hids t Ht').
    apply andb_true_intro. split; [apply Z.leb_le|apply Z.ltb_lt]; lia. }
  rewrite Hall. cbn [mbind option_bind app].
  rewrite (Transformer_forward_shape dim dim_head_arg heads_arg batch len) by assumption.
  cbn [mbind option_bind]. rewrite LayerNorm_forward_shape. cbn [mbind option_bind].
  unfold Linear_forward. simpl. rewrite Z.eqb_refl. reflexivity.
Qed.

Lemma LaMDA_forward_logits_shape_witness :
  exists m : LaMDA,
    LaMDA_init 100 16 2 4 8 = Ok m /\
    LaMDA_forward m (mkIdTensor [2; 3] [1; 2; 3; 4; 5; 99]) = Some [2; 3; 100].
Proof.
  apply (LaMDA_forward_logits_shape 100 16 2 4 8 2 3 [1; 2; 3; 4; 5; 99]);
    try lia; try reflexivity.
  repeat constructor; lia.
Defined.

(** ** The causal mask *)

(** For a square score matrix the mask selects exactly the entries above the
    diagonal, and [masked_fill] puts the fill value there and nowhere
    else. *)
Lemma causal_mask_square (n r c : Z) : causal_mask n n r c = true <-> r < c.
Proof. unfold causal_mask, triu_ones. rewrite Z.leb_le. lia. Qed.

Lemma masked_fill_causal {S : Type} (sim : Z -> Z -> S) (neg_max : S) (n r c : Z) :
  (r < c -> masked_fill sim (causal_mask n n) neg_max r c = neg_max) /\
  (c <= r -> masked_fill sim (causal_mask n n) neg_max r c = sim r c).
Proof.
  unfold masked_fill. pose proof (causal_mask_square n r c) as Hm.
  destruct (causal_mask n n r c); split; intros Hrc; try reflexivity.
  - assert (r < c) by (apply Hm; reflexivity). lia.
  - apply Hm in Hrc. discriminate.
Qed.

(** ** List objects: allocation, deep copy and independence *)

Lemma read_ints_ok (s : store) (l : loc) (b : list Z) :
  s !! l = Some (VInt <$> b) -> read_ints s l = Some b.
Proof.
  intros Hl. unfold read_ints. rewrite Hl. simpl.
  apply mapM_Some_2. clear Hl. induction b as [|z b IH]; simpl; constructor; auto.
Qed.

Lemma is_blocks_read (s : store) (r : loc) (ls : list loc) (bs : list (list Z)) :
  is_blocks s r ls bs ->
  read_blocks s r = Some bs /\ block_locs s r = r :: ls.
Proof.
  intros [Hr Hls]. unfold read_blocks, block_locs. rewrite Hr. simpl. split.
  - apply mapM_Some_2. clear Hr.
    induction Hls as [|l b ls bs Hl _ IH]; simpl; constructor.
    + apply read_ints_ok, Hl.
    + exact IH.
  - f_equal. clear. induction ls as [|l ls IH]; simpl; [reflexivity|].
    f_equal. exact IH.
Qed.

Lemma is_blocks_bound (s : store) (r : loc) (ls : list loc) (bs : list (list Z)) :
  is_blocks s r ls bs -> Forall (fun l => (l < length s)%nat) (r :: ls).
Proof.
  intros [Hr Hls]. constructor.
  - eapply lookup_lt_Some, Hr.
  - clear Hr. induction Hls as [|l b ls bs Hl _ IH]; constructor.
    + eapply lookup_lt_Some, Hl.
    + exact IH.
Qed.

(** Allocation never disturbs the lists that exist. *)
Lemma is_blocks_extend (s ext : store) (r : loc) (ls : list loc) (bs : list (list Z)) :
  is_blocks s r ls bs -> is_blocks (s ++ ext) r ls bs.
Proof.
  intros [Hr Hls]. split.
  - apply lookup_app_l_Some, Hr.
  - eapply Forall2_impl; [exact Hls|].
    intros l b Hl. apply lookup_app_l_Some, Hl.
Qed.

(** Replacing a list that is not among the blocks' own leaves them as they
    are. *)
Lemma is_blocks_insert_other (s : store) (r : loc) (ls : list loc)
    (bs : list (list Z)) (l : loc) (obj : list pyval) :
  l ∉ r :: ls -> is_blocks s r ls bs -> is_blocks (<[l := obj]> s) r ls bs.
Proof.
  intros Hnot [Hr Hls]. split.
  - rewrite list_lookup_insert_ne; [exact Hr|].
    intros ->. apply Hnot. left.
  - clear Hr. induction Hls as [|l' b ls bs Hl _ IH]; constructor.
    + rewrite list_lookup_insert_ne; [exact Hl|].
      intros ->. apply Hnot. right. left.
    + apply IH. intros Hin. apply Hnot.
      apply elem_of_cons in Hin as [->|Hin]; [left|right; right; exact Hin].
Qed.

(** The store after the list comprehension, written out. *)
Lemma append_blocks_layout (bs : list (list Z)) (s0 : store)
    (outer : list pyval) (inner : store) :
  append_blocks (length s0) bs (s0 ++ outer :: inner)
  = s0 ++ (outer ++ (VRef <$> seq (S (length s0) + length inner) (length bs)))
          :: (inner ++ (fmap (M := list) VInt <$> bs)).
Proof.
  revert outer inner. induction bs as [|b bs IH]; intros outer inner.
  - simpl. rewrite !app_nil_r. reflexivity.
  - cbn [append_blocks new_list].
    unfold list_append.
    rewrite <- app_assoc, alter_app_r_alt by lia.
    rewrite Nat.sub_diag. cbn [alter list_alter app].
    rewrite (IH (outer ++ [VRef (length (s0 ++ outer :: inner))]) (inner ++ [VInt <$> b])).
    rewrite !length_app. cbn [length fmap list_fmap seq].
    rewrite <- !app_assoc. cbn [app].
    do 4 f_equal.
    + f_equal. lia.
    + f_equal. f_equal. lia.
Qed.

Lemma alloc_blocks_layout (bs : list (list Z)) (s : store) :
  alloc_blocks bs s
  = (length s,
     s ++ (VRef <$> seq (S (length s)) (length bs)) :: (fmap (M := list) VInt <$> bs)).
Proof.
  unfold alloc_blocks, new_list.
  rewrite (append_blocks_layout bs s [] []). simpl.
  rewrite Nat.add_0_r. reflexivity.
Qed.

Lemma layout_is_blocks (s : store) (bs : list (list Z)) :
  is_blocks (s ++ (VRef <$> seq (S (length s)) (length bs)) :: (fmap (M := list) VInt <$> bs))
            (length s) (seq (S (length s)) (length bs)) bs.
Proof.
  split.
  - apply list_lookup_middle. reflexivity.
  - apply Forall2_same_length_lookup_2.
    + rewrite length_seq. reflexivity.
    + intros i l b Hl Hb. apply lookup_seq in Hl as [-> Hi].
      rewrite lookup_app_r by lia.
      replace (S (length s) + i - length s)%nat with (S i) by lia.
      simpl. rewrite list_lookup_fmap, Hb. reflexivity.
Qed.

Lemma alloc_dict_spec (d : dict (list (list Z))) (s : store)
    (refs : dict loc) (s' : store) :
  alloc_dict d s = (refs, s') ->
  (exists ext, s' = s ++ ext) /\
  (forall k bs, dict_get k d = Some bs ->
     exists r ls, dict_get k refs = Some r /\ is_blocks s' r ls bs /\ NoDup (r :: ls)).
Proof.
  revert s refs s'. induction d as [|[k0 blocks] d IH]; intros s refs s' Halloc.
  - simpl in Halloc. injection Halloc as <- <-. split.
    + exists []. rewrite app_nil_r. reflexivity.
    + intros k bs Hk. discriminate.
  - cbn [alloc_dict] in Halloc. rewrite alloc_blocks_layout in Halloc.
    destruct (alloc_dict d _) as [refs' s2] eqn:Hrest.
    injection Halloc as <- <-.
    destruct (IH _ _ _ Hrest) as [[ext Hext] Hkeys]. split.
    + eexists. rewrite Hext, <- app_assoc. reflexivity.
    + intros k bs Hk. simpl in Hk. simpl.
      destruct (String.eqb k k0); [|exact (Hkeys k bs Hk)].
      injection Hk as ->.
      exists (length s), (seq (S (length s)) (length bs)).
      split; [reflexivity|]. split.
      * rewrite Hext. apply is_blocks_extend, layout_is_blocks.
      * apply NoDup_cons. split; [|apply NoDup_seq].
        rewrite elem_of_seq. lia.
Qed.

Lemma deepcopy_int (fuel : nat) (z : Z) (m : memo) (s : store) :
  deepcopy fuel (VInt z) m s = Done (VInt z, m, s).
Proof. destruct fuel; reflexivity. Qed.

(** Copying the items of a list of integers appends them to the copy. *)
Lemma copy_items_ints (rec : pyval -> memo -> store -> outcome (pyval * memo * store))
    (y : loc) (zs : list Z) (m : memo) (st : store) :
  (forall z m s, rec (VInt z) m s = Done (VInt z, m, s)) ->
  copy_items rec y (VInt <$> zs) m st
  = Done (m, alter (fun items => items ++ (VInt <$> zs)) y st).
Proof.
  intros Hrec. revert st. induction zs as [|z zs IH]; intros st.
  - simpl. rewrite list_alter_id; [reflexivity|]. intros x. apply app_nil_r.
  - cbn [fmap list_fmap copy_items]. rewrite Hrec, IH.
    unfold list_append. rewrite list_alter_alter_eq.
    do 2 f_equal. apply list_alter_ext; [|reflexivity].
    intros x _. simpl. rewrite <- app_assoc. reflexivity.
Qed.

Lemma deepcopy_ref (fuel : nat) (l : loc) (m : memo) (s : store) :
  deepcopy (S fuel) (VRef l) m s
  = match memo_get l m with
    | Some y => Done (VRef y, m, s)
    | None =>
        match s !! l with
        | None => Fail DanglingRef
        | Some items =>
            match copy_items (deepcopy fuel) (length s) items
                             ((l, length s) :: m) (s ++ [[]]) with
            | Done (m2, s2) => Done (VRef (length s), m2, s2)
            | Fail e => Fail e
            end
        end
    end.
Proof. reflexivity. Qed.

Lemma copy_items_cons (rec : pyval -> memo -> store -> outcome (pyval * memo * store))
    (y : loc) (a : pyval) (items : list pyval) (m : memo) (s : store) :
  copy_items rec y (a :: items) m s
  = match rec a m s with
    | Done (a', m1, s1) => copy_items rec y items m1 (list_append y a' s1)
    | Fail e => Fail e
    end.
Proof. reflexivity. Qed.

(** Copying the items of a list of blocks: every block gets a fresh list
    behind those allocated so far. *)
Lemma copy_items_refs (fuel : nat) (s : store) (ls : list loc) (bs : list (list Z)) :
  Forall2 (fun l b => s !! l = Some (VInt <$> b)) ls bs ->
  NoDup ls ->
  forall (ys : list loc) (objs : store) (m : memo),
    (forall l, l ∈ ls -> memo_get l m = None) ->
    exists m',
      copy_items (deepcopy (S fuel)) (length s) (VRef <$> ls) m
                 (s ++ (VRef <$> ys) :: objs)
      = Done (m', s ++ (VRef <$> (ys ++ seq (S (length s) + length objs) (length ls)))
                       :: (objs ++ (fmap (M := list) VInt <$> bs))).
Proof.
  induction 1 as [|l b ls bs Hl Hls IH]; intros Hnd ys objs m Hm.
  - exists m. simpl. rewrite !app_nil_r. reflexivity.
  - apply NoDup_cons in Hnd as [Hnotin Hnd].
    cbn [fmap list_fmap]. rewrite copy_items_cons, deepcopy_ref.
    rewrite (Hm l) by left.
    rewrite (lookup_app_l_Some _ _ _ _ Hl).
    rewrite copy_items_ints by apply deepcopy_int.
    rewrite alter_app_r_alt by lia. rewrite Nat.sub_diag.
    cbn [alter list_alter app].
    unfold list_append. rewrite <- app_assoc.
    rewrite alter_app_r_alt by lia. rewrite Nat.sub_diag.
    cbn [alter list_alter app].
    set (y' := length (s ++ (VRef <$> ys) :: objs)).
    destruct (IH Hnd (ys ++ [y']) (objs ++ [VInt <$> b]) ((l, y') :: m)) as [m' Hcopy].
    { intros l' Hl'. cbn [memo_get].
      destruct (Nat.eqb_spec l' l) as [->|_]; [contradiction|].
      apply Hm. right. exact Hl'. }
    exists m'. rewrite fmap_app in Hcopy. cbn [fmap list_fmap] in Hcopy.
    rewrite Hcopy. do 2 f_equal.
    rewrite <- !app_assoc. cbn [length seq app]. f_equal.
    do 2 f_equal. subst y'. rewrite !length_app. cbn [length].
    replace (length s + S (length objs))%nat with (S (length s) + length objs)%nat by lia.
    replace (S (length s) + (length objs + 1))%nat
      with (S (S (length s) + length objs)) by lia.
    reflexivity.
Qed.

(** [deepcopy] of a list of blocks builds a second list of blocks with the
    same integers, made of fresh lists only. *)
Lemma deepcopy_blocks (fuel : nat) (s : store) (r : loc) (ls : list loc)
    (bs : list (list Z)) :
  is_blocks s r ls bs ->
  NoDup (r :: ls) ->
  exists m',
    deepcopy (S (S fuel)) (VRef r) [] s
    = Done (VRef (length s), m',
            s ++ (VRef <$> seq (S (length s)) (length bs))
              :: (fmap (M := list) VInt <$> bs)).
Proof.
  intros [Hr Hls] Hnd. apply NoDup_cons in Hnd as [Hnotin Hnd].
  rewrite deepcopy_ref. cbn [memo_get]. rewrite Hr.
  destruct (copy_items_refs fuel s ls bs Hls Hnd [] [] [(r, length s)]) as [m' Hcopy].
  { intros l Hl. cbn [memo_get].
    destruct (Nat.eqb_spec l r) as [->|_]; [contradiction|reflexivity]. }
  cbn [fmap list_fmap] in Hcopy. rewrite Hcopy.
  exists m'. cbn [app length]. rewrite Nat.add_0_r.
  rewrite (Forall2_length _ _ _ Hls). reflexivity.
Qed.

(** C7: when [tokenize] returns, the list of blocks under [labels] holds,
    block by block and entry by entry, the integers of the list under
    [input_ids]; the two are made of different list objects (the outer
    lists and every block), so that replacing the contents of any list
    object of one of them leaves what is read from the other unchanged. *)
Theorem tokenize_labels_independent_copy
    (tokenizer : list string -> BatchEncoding) (sel : string) (L : Z)
    (ex : dict (list string)) (s0 : store) (enc : BatchEncoding) :
  tokenize tokenizer sel L ex = Ok enc ->
  exists (refs : dict loc) (s : store) (r_ids r_lab : loc),
    tokenize_heap tokenizer sel L ex s0 = Done (refs, s) /\
    dict_get "input_ids" refs = Some r_ids /\
    dict_get "labels" refs = Some r_lab /\
    read_blocks s r_ids = Some (column "input_ids" enc) /\
    read_blocks s r_lab = Some (column "labels" enc) /\
    column "labels" enc = column "input_ids" enc /\
    (forall l, l ∈ block_locs s r_ids -> l ∉ block_locs s r_lab) /\
    (forall l obj, l ∈ block_locs s r_ids ->
       read_blocks (<[l := obj]> s) r_lab = Some (column "labels" enc)) /\
    (forall l obj, l ∈ block_locs s r_lab ->
       read_blocks (<[l := obj]> s) r_ids = Some (column "input_ids" enc)).
Proof.
  intros Htok. unfold tokenize in Htok.
  destruct (tokenize_blocks tokenizer sel L ex) as [blocks|] eqn:Hblocks;
    [|discriminate].
  cbn [bind] in Htok. unfold dict_item in Htok.
  destruct (dict_get "input_ids" blocks) as [ids|] eqn:Hids; [|discriminate].
  cbn [bind] in Htok. injection Htok as <-.
  assert (Hcol : column "input_ids" (dict_set "labels" ids blocks) = ids).
  { unfold column. rewrite dict_get_set_ne by discriminate. rewrite Hids. reflexivity. }
  assert (Hlab : column "labels" (dict_set "labels" ids blocks) = ids).
  { unfold column. rewrite dict_get_set_eq. reflexivity. }
  rewrite Hcol, Hlab.
  unfold tokenize_heap. rewrite Hblocks.
  destruct (alloc_dict blocks s0) as [result s1] eqn:Halloc.
  destruct (alloc_dict_spec _ _ _ _ Halloc) as [_ Hkeys].
  destruct (Hkeys _ _ Hids) as (r & ls & Hr & Hblk & Hnd).
  rewrite Hr.
  pose proof (is_blocks_bound _ _ _ _ Hblk) as Hbound.
  assert (Hfuel : exists fuel, length s1 = S fuel).
  { apply Forall_cons in Hbound as [Hlt _].
    destruct (length s1) as [|fuel]; [lia|]. exists fuel. reflexivity. }
  destruct Hfuel as [fuel Hfuel].
  destruct (deepcopy_blocks fuel s1 r ls ids Hblk Hnd) as [m' Hcopy].
  rewrite <- Hfuel in Hcopy. rewrite Hcopy.
  set (s2 := s1 ++ (VRef <$> seq (S (length s1)) (length ids))
                :: (fmap (M := list) VInt <$> ids)).
  assert (Hblk_ids : is_blocks s2 r ls ids) by apply is_blocks_extend, Hblk.
  assert (Hblk_lab : is_blocks s2 (length s1) (seq (S (length s1)) (length ids)) ids)
    by apply layout_is_blocks.
  destruct (is_blocks_read _ _ _ _ Hblk_ids) as [Hread_ids Hlocs_ids].
  destruct (is_blocks_read _ _ _ _ Hblk_lab) as [Hread_lab Hlocs_lab].
  assert (Hsep : forall l, l ∈ r :: ls ->
                   l ∉ length s1 :: seq (S (length s1)) (length ids)).
  { intros l Hl Hl'. rewrite Forall_forall in Hbound. specialize (Hbound l Hl).
    apply elem_of_cons in Hl' as [->|Hl']; [lia|].
    apply elem_of_seq in Hl'. lia. }
  exists (dict_set "labels" (length s1) result), s2, r, (length s1).
  split; [reflexivity|].
  split; [rewrite dict_get_set_ne by discriminate; exact Hr|].
  split; [apply dict_get_set_eq|].
  split; [exact Hread_ids|]. split; [exact Hread_lab|]. split; [reflexivity|].
  rewrite Hlocs_ids, Hlocs_lab. split; [exact Hsep|]. split.
  - intros l obj Hl.
    apply (is_blocks_read _ _ (seq (S (length s1)) (length ids))).
    apply is_blocks_insert_other; [apply Hsep, Hl|exact Hblk_lab].
  - intros l obj Hl.
    apply (is_blocks_read _ _ ls).
    apply is_blocks_insert_other; [|exact Hblk_ids].
    intros Hl'. exact (Hsep l Hl' Hl).
Qed.

Lemma tokenize_labels_independent_copy_witness :
  exists (refs : dict loc) (s : store) (r_ids r_lab : loc),
    tokenize_heap char_tokenizer "text" 2 [("text"%string, ["abcde"%string])] []
    = Done (refs, s) /\
    dict_get "input_ids" refs = Some r_ids /\
    dict_get "labels" refs = Some r_lab /\
    read_blocks s r_ids = Some [[97; 98]; [99; 100]] /\
    read_blocks s r_lab = Some [[97; 98]; [99; 100]] /\
    (forall l obj, l ∈ block_locs s r_ids ->
       read_blocks (<[l := obj]> s) r_lab = Some [[97; 98]; [99; 100]]).
Proof.
  destruct (tokenize_labels_independent_copy char_tokenizer "text" 2
              [("text"%string, ["abcde"%string])] []
              [ ("input_ids"%string, [[97; 98]; [99; 100]]);
                ("attention_mask"%string, [[1; 1]; [1; 1]]);
                ("labels"%string, [[97; 98]; [99; 100]]) ])
    as (refs & s & r_ids & r_lab & Hrun & Hi & Hl & Hri & Hrl & _ & _ & Hind & _).
  - vm_compute. reflexivity.
  - exists refs, s, r_ids, r_lab. repeat split; assumption.
Defined.

(** A run of the heap model: after [tokenize], overwriting the first block
    of [input_ids] in place changes what is read under [input_ids] and not
    what is read under [labels]. *)
Example tokenize_heap_mutation :
  match tokenize_heap char_tokenizer "text" 2 [("text"%string, ["abcde"%string])] [] with
  | Done (refs, s) =>
      match dict_get "input_ids" refs, dict_get "labels" refs with
      | Some r_ids, Some r_lab =>
          let s' := <[S r_ids := [VInt 0; VInt 0]]> s in
          read_blocks s' r_ids = Some [[0; 0]; [99; 100]] /\
          read_blocks s' r_lab = Some [[97; 98]; [99; 100]]
      | _, _ => False
      end
  | Fail _ => False
  end.
Proof. vm_compute. split; reflexivity. Qed.

(** * Further properties of the packing function *)

Lemma split_blocks_slices (L T : Z) (t : list Z) :
  L <> 0 -> split_blocks L T t = Ok (slices L T t).
Proof.
  intros HL. unfold split_blocks, py_range, slices.
  destruct (Z.eqb_spec L 0); [contradiction|reflexivity].
Qed.

Lemma truncated_length_packed (L n : Z) :
  L <> 0 -> truncated_length L n = Ok (packed_length L n).
Proof.
  intros HL. unfold truncated_length, packed_length, py_floordiv.
  destruct (L <=? n); [|reflexivity].
  destruct (Z.eqb_spec L 0); [contradiction|reflexivity].
Qed.

(** With a sequence length other than 0, [tokenize] slices every column of
    a non-empty encoding, with the length taken from the first column. *)
Lemma tokenize_blocks_nonzero (tokenizer : list string -> BatchEncoding)
    (sel : string) (L : Z) (ex : dict (list string)) (texts : list string)
    (k0 : string) (c0 : list (list Z)) (rest : BatchEncoding) :
  L <> 0 ->
  dict_get sel ex = Some texts ->
  tokenizer texts = (k0, c0) :: rest ->
  tokenize_blocks tokenizer sel L ex
  = Ok (map (fun kv => (fst kv,
                        slices L (packed_length L (Z.of_nat (length (concat c0))))
                               (concat (snd kv))))
            (tokenizer texts)).
Proof.
  intros HL Hsel Henc. unfold tokenize_blocks, dict_item.
  rewrite Hsel. cbn [bind]. rewrite Henc.
  cbn [dict_keys map fst snd bind dict_get]. rewrite String.eqb_refl. cbn [bind].
  rewrite truncated_length_packed by assumption. cbn [bind].
  set (T := packed_length L (Z.of_nat (length (concat c0)))).
  rewrite (map_result_ok _ (fun kt : string * list Z => (fst kt, slices L T (snd kt)))).
  - cbn [map fst snd]. rewrite map_map. reflexivity.
  - intros [k t]. cbn [fst snd]. rewrite split_blocks_slices by assumption.
    reflexivity.
Qed.

Lemma dict_get_map_snd_None {V W} (g : V -> W) (k : string) (d : dict V) :
  dict_get k d = None ->
  dict_get k (map (fun kv => (fst kv, g (snd kv))) d) = None.
Proof. intros Hk. rewrite dict_get_map_snd, Hk. reflexivity. Qed.

(** X1: when [tokenize] fails and with what.  A missing text column is a
    [KeyError]; an encoding without any key is an [IndexError]; a zero
    sequence length is a [ZeroDivisionError], raised before [input_ids] is
    looked for; an encoding without [input_ids] is a [KeyError]; in every
    other case [tokenize] returns. *)
Theorem tokenize_outcome (tokenizer : list string -> BatchEncoding)
    (sel : string) (L : Z) (ex : dict (list string)) :
  (dict_get sel ex = None -> tokenize tokenizer sel L ex = Raise KeyError) /\
  (forall texts, dict_get sel ex = Some texts ->
     (tokenizer texts = [] -> tokenize tokenizer sel L ex = Raise IndexError) /\
     (tokenizer texts <> [] -> L = 0 ->
        tokenize tokenizer sel L ex = Raise ZeroDivisionError) /\
     (tokenizer texts <> [] -> L <> 0 ->
        dict_get "input_ids" (tokenizer texts) = None ->
        tokenize tokenizer sel L ex = Raise KeyError) /\
     (L <> 0 -> is_Some (dict_get "input_ids" (tokenizer texts)) ->
        exists r, tokenize tokenizer sel L ex = Ok r)).
Proof.
  split.
  - intros Hsel. unfold tokenize, tokenize_blocks, dict_item. rewrite Hsel.
    reflexivity.
  - intros texts Hsel. repeat split.
    + intros Henc. unfold tokenize, tokenize_blocks, dict_item.
      rewrite Hsel. cbn [bind]. rewrite Henc. reflexivity.
    + intros Hne ->. unfold tokenize, tokenize_blocks, dict_item.
      rewrite Hsel. cbn [bind].
      destruct (tokenizer texts) as [|[k0 c0] rest]; [contradiction|].
      cbn [dict_keys map fst snd bind dict_get]. rewrite String.eqb_refl.
      cbn [bind]. unfold truncated_length.
      destruct (Z.leb_spec 0 (Z.of_nat (length (concat c0)))); [reflexivity|lia].
    + intros Hne HL Hids. unfold tokenize.
      destruct (tokenizer texts) as [|[k0 c0] rest] eqn:Henc; [contradiction|].
      rewrite (tokenize_blocks_nonzero _ _ _ _ texts k0 c0 rest) by assumption.
      cbn [bind]. unfold dict_item. rewrite Henc.
      rewrite (dict_get_map_snd_None (fun c => slices L _ (concat c))) by exact Hids.
      reflexivity.
    + intros HL [ids Hids]. unfold tokenize.
      destruct (tokenizer texts) as [|[k0 c0] rest] eqn:Henc; [discriminate|].
      rewrite (tokenize_blocks_nonzero _ _ _ _ texts k0 c0 rest) by assumption.
      cbn [bind]. unfold dict_item. rewrite Henc.
      rewrite (dict_get_map_snd (fun c => slices L _ (concat c))), Hids.
      eexists. reflexivity.
Qed.

Lemma tokenize_outcome_witness :
  tokenize char_tokenizer "text" 3 [("body"%string, ["abc"%string])] = Raise KeyError /\
  tokenize (fun _ => []) "text" 3 [("text"%string, ["abc"%string])] = Raise IndexError /\
  tokenize (fun _ => [("attention_mask"%string, [[1]])]) "text" 0
           [("text"%string, ["abc"%string])] = Raise ZeroDivisionError /\
  tokenize (fun _ => [("attention_mask"%string, [[1]])]) "text" 3
           [("text"%string, ["abc"%string])] = Raise KeyError.
Proof.
  split; [|split; [|split]].
  - apply (tokenize_outcome char_tokenizer "text" 3 [("body"%string, ["abc"%string])]).
    reflexivity.
  - apply (tokenize_outcome (fun _ => []) "text" 3 [("text"%string, ["abc"%string])]
             ) with (texts := ["abc"%string]); reflexivity.
  - apply (tokenize_outcome (fun _ => [("attention_mask"%string, [[1]])]) "text" 0
             [("text"%string, ["abc"%string])]) with (texts := ["abc"%string]);
      [reflexivity|discriminate|reflexivity].
  - apply (tokenize_outcome (fun _ => [("attention_mask"%string, [[1]])]) "text" 3
             [("text"%string, ["abc"%string])]) with (texts := ["abc"%string]);
      [reflexivity|discriminate|discriminate|reflexivity].
Defined.

(** Every successful run of [tokenize], taken apart. *)
Lemma tokenize_Ok_inv (tokenizer : list string -> BatchEncoding)
    (sel : string) (L : Z) (ex : dict (list string)) (r : BatchEncoding) :
  tokenize tokenizer sel L ex = Ok r ->
  exists texts k0 c0 rest ids,
    dict_get sel ex = Some texts /\
    L <> 0 /\
    tokenizer texts = (k0, c0) :: rest /\
    dict_get "input_ids" (tokenizer texts) = Some ids /\
    let T := packed_length L (Z.of_nat (length (concat c0))) in
    r = dict_set "labels" (slices L T (concat ids))
          (map (fun kv => (fst kv, slices L T (concat (snd kv)))) (tokenizer texts)).
Proof.
  intros Hr.
  destruct (dict_get sel ex) as [texts|] eqn:Hsel.
  2:{ unfold tokenize, tokenize_blocks, dict_item in Hr. rewrite Hsel in Hr.
      discriminate. }
  destruct (tokenizer texts) as [|[k0 c0] rest] eqn:Henc.
  { unfold tokenize, tokenize_blocks, dict_item in Hr. rewrite Hsel in Hr.
    cbn [bind] in Hr. rewrite Henc in Hr. discriminate. }
  destruct (Z.eqb_spec L 0) as [->|HL].
  { unfold tokenize, tokenize_blocks, dict_item in Hr. rewrite Hsel in Hr.
    cbn [bind] in Hr. rewrite Henc in Hr.
    cbn [dict_keys map fst snd bind dict_get] in Hr.
    rewrite String.eqb_refl in Hr. cbn [bind] in Hr. unfold truncated_length in Hr.
    destruct (Z.leb_spec 0 (Z.of_nat (length (concat c0)))); [discriminate|lia]. }
  unfold tokenize in Hr.
  rewrite (tokenize_blocks_nonzero _ _ _ _ texts k0 c0 rest) in Hr by assumption.
  cbn [bind] in Hr. unfold dict_item in Hr.
  rewrite (dict_get_map_snd (fun c => slices L _ (concat c))) in Hr.
  destruct (dict_get "input_ids" (tokenizer texts)) as [ids|] eqn:Hids;
    [|discriminate].
  cbn [fmap option_fmap option_map bind] in Hr. injection Hr as <-.
  exists texts, k0, c0, rest, ids. repeat split; assumption.
Qed.

(** What a key of the result holds: [labels] the slices of [input_ids],
    any other key the slices of its own column. *)
Lemma dict_get_packed (enc : BatchEncoding) (g : list Z -> list (list Z))
    (ids : list (list Z)) (k : string) :
  dict_get k (dict_set "labels" (g (concat ids))
                (map (fun kv => (fst kv, g (concat (snd kv)))) enc))
  = if String.eqb k "labels" then Some (g (concat ids))
    else (fun c => g (concat c)) <$> dict_get k enc.
Proof.
  destruct (String.eqb_spec k "labels") as [->|Hne].
  - apply dict_get_set_eq.
  - rewrite dict_get_set_ne by exact Hne.
    apply (dict_get_map_snd (fun c => g (concat c))).
Qed.

Lemma py_slice_whole {A} (t : list A) (L : Z) :
  Z.of_nat (length t) <= L -> py_slice t 0 (0 + L) = t.
Proof.
  intros Hlen. unfold py_slice, slice_bound. rewrite Z.add_0_l.
  change (0 <? 0) with false. cbv iota.
  destruct (Z.ltb_spec L 0); [lia|].
  rewrite Z.min_r by lia. rewrite Z.min_l by lia.
  rewrite Z.sub_0_r, Nat2Z.id. change (Z.to_nat 0) with 0%nat.
  rewrite drop_0. apply take_ge. reflexivity.
Qed.

Lemma slices_short (L : Z) (t : list Z) :
  (0 < length t)%nat -> Z.of_nat (length t) < L ->
  slices L (packed_length L (Z.of_nat (length t))) t = [t].
Proof.
  intros Hpos Hlt. unfold slices, packed_length, range_len.
  destruct (Z.leb_spec L (Z.of_nat (length t))); [lia|].
  destruct (Z.ltb_spec 0 L); [|lia].
  destruct (Z.ltb_spec 0 (Z.of_nat (length t))); [|lia].
  rewrite Z.div_small by lia. simpl.
  rewrite py_slice_whole by lia. reflexivity.
Qed.

Lemma slices_full (L n : Z) (t : list Z) :
  0 < L -> L <= n ->
  slices L (packed_length L n) t = full_blocks L (n / L) t.
Proof.
  intros HL Hn. unfold slices, packed_length, full_blocks.
  destruct (Z.leb_spec L n); [|lia].
  rewrite range_len_multiple by (try apply Z.div_pos; lia).
  rewrite map_map. reflexivity.
Qed.

Lemma slices_no_tokens (L : Z) (t : list Z) :
  0 < L -> slices L (packed_length L 0) t = [].
Proof.
  intros HL. unfold slices, packed_length, range_len.
  destruct (Z.leb_spec L 0); [lia|].
  destruct (Z.ltb_spec 0 L); [|lia]. reflexivity.
Qed.

Lemma elem_of_py_slice {A} (t : list A) (i j : Z) (x : A) :
  x ∈ py_slice t i j -> x ∈ t.
Proof.
  unfold py_slice. intros Hx.
  apply elem_of_take in Hx as [k [Hk _]].
  apply list_elem_of_lookup_2 in Hk.
  rewrite <- (take_drop (Z.to_nat (slice_bound i (Z.of_nat (length t)))) t).
  apply elem_of_app. right. exact Hk.
Qed.

Lemma elem_of_slices (L T : Z) (t b : list Z) (x : Z) :
  b ∈ slices L T t -> x ∈ b -> x ∈ t.
Proof.
  unfold slices. intros Hb Hx.
  apply list_elem_of_In, in_map_iff in Hb as [i [<- _]].
  eapply elem_of_py_slice, Hx.
Qed.

Lemma tokenize_nonzero (tokenizer : list string -> BatchEncoding)
    (sel : string) (L : Z) (ex : dict (list string)) (texts : list string)
    (k0 : string) (c0 : list (list Z)) (rest : BatchEncoding) (ids : list (list Z)) :
  L <> 0 ->
  dict_get sel ex = Some texts ->
  tokenizer texts = (k0, c0) :: rest ->
  dict_get "input_ids" (tokenizer texts) = Some ids ->
  let T := packed_length L (Z.of_nat (length (concat c0))) in
  tokenize tokenizer sel L ex
  = Ok (dict_set "labels" (slices L T (concat ids))
          (map (fun kv => (fst kv, slices L T (concat (snd kv)))) (tokenizer texts))).
Proof.
  intros HL Hsel Henc Hids T. unfold tokenize.
  rewrite (tokenize_blocks_nonzero _ _ _ _ texts k0 c0 rest) by assumption.
  cbn [bind]. unfold dict_item.
  rewrite (dict_get_map_snd (fun c => slices L _ (concat c))), Hids.
  reflexivity.
Qed.

Lemma aligned_first (k0 : string) (c0 : list (list Z)) (rest : BatchEncoding) (n : nat) :
  Forall (fun kv => length (concat (snd kv)) = n) ((k0, c0) :: rest) ->
  length (concat c0) = n.
Proof. intros Hal. apply Forall_cons in Hal as [Hc _]. exact Hc. Qed.

(** X2: a batch that holds some tokens but fewer than the sequence length
    is kept whole: [tokenize] returns, for every key, one single block that
    holds the entire concatenated column, and [labels] is that one block of
    [input_ids]. *)
Theorem tokenize_short_batch_single_block
    (tokenizer : list string -> BatchEncoding) (sel : string) (L : Z)
    (ex : dict (list string)) (texts : list string) (ids : list (list Z)) (n : nat) :
  dict_get sel ex = Some texts ->
  dict_get "input_ids" (tokenizer texts) = Some ids ->
  Forall (fun kv => length (concat (snd kv)) = n) (tokenizer texts) ->
  (0 < n)%nat -> Z.of_nat n < L ->
  exists r,
    tokenize tokenizer sel L ex = Ok r /\
    (forall k cols, k <> "labels"%string ->
       dict_get k (tokenizer texts) = Some cols ->
       dict_get k r = Some [concat cols]) /\
    dict_get "labels" r = Some [concat ids].
Proof.
  intros Hsel Hids Hal Hpos Hlt.
  destruct (tokenizer texts) as [|[k0 c0] rest] eqn:Henc; [discriminate|].
  pose proof (aligned_first _ _ _ _ Hal) as Hn0.
  rewrite <- Henc in Hids, Hal |- *.
  eexists. split.
  { apply (tokenize_nonzero _ _ _ _ texts k0 c0 rest ids); try assumption. lia. }
  rewrite Hn0. split.
  - intros k cols Hk Hcols. rewrite dict_get_packed.
    destruct (String.eqb_spec k "labels"); [contradiction|].
    rewrite Hcols. cbn [fmap option_fmap option_map]. f_equal.
    pose proof (dict_get_Forall (fun c => length (concat c) = n) _ _ _ Hal Hcols) as Hlen.
    cbv beta in Hlen. rewrite <- Hlen. apply slices_short; lia.
  - rewrite dict_get_packed. rewrite String.eqb_refl. f_equal.
    pose proof (dict_get_Forall (fun c => length (concat c) = n) _ _ _ Hal Hids) as Hlen.
    cbv beta in Hlen. rewrite <- Hlen. apply slices_short; lia.
Qed.

Lemma tokenize_short_batch_single_block_witness :
  exists r,
    tokenize char_tokenizer "text" 8 [("text"%string, ["ab"; "c"]%string)] = Ok r /\
    dict_get "attention_mask" r = Some [[1; 1; 1]] /\
    dict_get "labels" r = Some [[97; 98; 99]].
Proof.
  destruct (tokenize_short_batch_single_block char_tokenizer "text" 8
              [("text"%string, ["ab"; "c"]%string)] ["ab"; "c"]%string
              [[97; 98]; [99]] 3)
    as (r & Hr & Hkeys & Hlab); try reflexivity; try lia.
  - repeat constructor.
  - exists r. split; [exact Hr|]. split; [|exact Hlab].
    apply (Hkeys "attention_mask"%string [[1; 1]; [1]]); [discriminate|reflexivity].
Defined.

(** X3: on a batch that holds [n >= L] tokens per column ([L > 0]), every
    key of the result, [attention_mask] and [labels] included, holds
    exactly [n / L] blocks, and each block has exactly [L] entries. *)
Theorem tokenize_full_batch_every_column
    (tokenizer : list string -> BatchEncoding) (sel : string) (L : Z)
    (ex : dict (list string)) (texts : list string) (ids : list (list Z)) (n : nat) :
  dict_get sel ex = Some texts ->
  dict_get "input_ids" (tokenizer texts) = Some ids ->
  Forall (fun kv => length (concat (snd kv)) = n) (tokenizer texts) ->
  0 < L -> L <= Z.of_nat n ->
  exists r,
    tokenize tokenizer sel L ex = Ok r /\
    forall k bs, dict_get k r = Some bs ->
      length bs = Z.to_nat (Z.of_nat n / L) /\
      Forall (fun b => Z.of_nat (length b) = L) bs.
Proof.
  intros Hsel Hids Hal HL Hge.
  destruct (tokenizer texts) as [|[k0 c0] rest] eqn:Henc; [discriminate|].
  pose proof (aligned_first _ _ _ _ Hal) as Hn0.
  rewrite <- Henc in Hids, Hal.
  eexists. split.
  { apply (tokenize_nonzero _ _ _ _ texts k0 c0 rest ids); try assumption. lia. }
  rewrite Hn0.
  assert (Hq : 0 <= Z.of_nat n / L) by (apply Z.div_pos; lia).
  assert (Hfit : Z.of_nat n / L * L <= Z.of_nat n)
    by (rewrite Z.mul_comm; apply Z.mul_div_le; lia).
  assert (Hcol : forall c : list (list Z), length (concat c) = n ->
            length (slices L (packed_length L (Z.of_nat n)) (concat c))
            = Z.to_nat (Z.of_nat n / L) /\
            Forall (fun b => Z.of_nat (length b) = L)
                   (slices L (packed_length L (Z.of_nat n)) (concat c))).
  { intros c Hc. rewrite slices_full by lia. split.
    - unfold full_blocks. rewrite length_map, length_seq. reflexivity.
    - apply full_blocks_length; lia. }
  intros k bs. rewrite dict_get_packed.
  destruct (String.eqb k "labels").
  - intros [= <-]. apply Hcol.
    exact (dict_get_Forall (fun c => length (concat c) = n) _ _ _ Hal Hids).
  - destruct (dict_get k (tokenizer texts)) as [cols|] eqn:Hcols; [|discriminate].
    intros [= <-]. apply Hcol.
    exact (dict_get_Forall (fun c => length (concat c) = n) _ _ _ Hal Hcols).
Qed.

Lemma tokenize_full_batch_every_column_witness :
  exists r,
    tokenize char_tokenizer "text" 2 [("text"%string, ["abc"; "de"]%string)] = Ok r /\
    forall k bs, dict_get k r = Some bs ->
      length bs = 2%nat /\ Forall (fun b => Z.of_nat (length b) = 2) bs.
Proof.
  apply (tokenize_full_batch_every_column char_tokenizer "text" 2
           [("text"%string, ["abc"; "de"]%string)] ["abc"; "de"]%string
           [[97; 98; 99]; [100; 101]] 5); try reflexivity; try lia.
  repeat constructor.
Defined.

(** X4: no padding and nothing invented: every entry of every block that
    [tokenize] returns under a key is an entry of the tokenizer's column of
    that key ([input_ids] for [labels]). *)
Theorem tokenize_blocks_hold_column_entries_only
    (tokenizer : list string -> BatchEncoding) (sel : string) (L : Z)
    (ex : dict (list string)) (texts : list string) (r : BatchEncoding)
    (k : string) (bs : list (list Z)) (b : list Z) (x : Z) :
  dict_get sel ex = Some texts ->
  tokenize tokenizer sel L ex = Ok r ->
  dict_get k r = Some bs -> b ∈ bs -> x ∈ b ->
  exists cols,
    dict_get (if String.eqb k "labels" then "input_ids"%string else k)
             (tokenizer texts) = Some cols /\
    x ∈ concat cols.
Proof.
  intros Hsel Hr Hk Hb Hx.
  destruct (tokenize_Ok_inv _ _ _ _ _ Hr)
    as (texts' & k0 & c0 & rest & ids & Hsel' & HL & Henc & Hids & ->).
  rewrite Hsel in Hsel'. injection Hsel' as <-.
  rewrite dict_get_packed in Hk.
  destruct (String.eqb k "labels").
  - injection Hk as <-. exists ids. split; [exact Hids|].
    eapply elem_of_slices; eassumption.
  - destruct (dict_get k (tokenizer texts)) as [cols|] eqn:Hcols; [|discriminate].
    injection Hk as <-. exists cols. split; [reflexivity|].
    eapply elem_of_slices; eassumption.
Qed.

Lemma tokenize_blocks_hold_column_entries_only_witness :
  exists cols,
    dict_get "input_ids" (char_tokenizer ["abc"; "de"]%string) = Some cols /\
    100 ∈ concat cols.
Proof.
  apply (tokenize_blocks_hold_column_entries_only char_tokenizer "text" 2
           [("text"%string, ["abc"; "de"]%string)] ["abc"; "de"]%string
           [ ("input_ids"%string, [[97; 98]; [99; 100]]);
             ("attention_mask"%string, [[1; 1]; [1; 1]]);
             ("labels"%string, [[97; 98]; [99; 100]]) ]
           "labels" [[97; 98]; [99; 100]] [99; 100] 100);
    try reflexivity.
  - apply list_elem_of_further, list_elem_of_here.
  - apply list_elem_of_further, list_elem_of_here.
Defined.

Lemma concat_map_filter_nonempty {A} (encode g : A -> list Z) (texts : list A) :
  (forall t, encode t = [] -> g t = []) ->
  concat (map g (filter (fun t => encode t <> []) texts)) = concat (map g texts).
Proof.
  intros Hg. induction texts as [|t texts IH]; [reflexivity|].
  rewrite filter_cons. destruct (decide (encode t <> [])) as [Hne|He].
  - simpl. rewrite IH. reflexivity.
  - simpl. rewrite IH. rewrite (Hg t); [reflexivity|].
    destruct (encode t); [reflexivity|]. exfalso. apply He. discriminate.
Qed.

(** X5: examples without tokens are skipped silently: with a tokenizer that
    encodes every text on its own, [tokenize] returns the same on a batch
    and on that batch without the texts that encode to no token. *)
Theorem tokenize_skips_empty_examples (encode : string -> list Z)
    (sel : string) (L : Z) (ex ex' : dict (list string)) (texts : list string) :
  dict_get sel ex = Some texts ->
  dict_get sel ex' = Some (filter (fun t => encode t <> []) texts) ->
  tokenize (per_example_tokenizer encode) sel L ex'
  = tokenize (per_example_tokenizer encode) sel L ex.
Proof.
  intros Hsel Hsel'. unfold tokenize, tokenize_blocks, dict_item.
  rewrite Hsel, Hsel'. unfold per_example_tokenizer.
  cbn [bind dict_keys map fst snd dict_get]. rewrite String.eqb_refl.
  cbn [bind].
  rewrite (concat_map_filter_nonempty encode encode) by auto.
  rewrite (concat_map_filter_nonempty encode
             (fun s => map (fun _ : Z => 1) (encode s))).
  - reflexivity.
  - intros t ->. reflexivity.
Qed.

Lemma tokenize_skips_empty_examples_witness :
  tokenize (per_example_tokenizer char_codes) "text" 2
           [("text"%string, ["ab"; "cd"]%string)]
  = tokenize (per_example_tokenizer char_codes) "text" 2
             [("text"%string, [""; "ab"; ""; "cd"; ""]%string)].
Proof.
  apply (tokenize_skips_empty_examples char_codes "text" 2
           [("text"%string, [""; "ab"; ""; "cd"; ""]%string)]
           [("text"%string, ["ab"; "cd"]%string)]
           [""; "ab"; ""; "cd"; ""]%string); reflexivity.
Defined.

Lemma dict_keys_map_snd {V W} (g : V -> W) (d : dict V) :
  dict_keys (map (fun kv => (fst kv, g (snd kv))) d) = dict_keys d.
Proof. unfold dict_keys. rewrite map_map. reflexivity. Qed.

Lemma dict_keys_set {V} (k : string) (v : V) (d : dict V) :
  dict_keys (dict_set k v d)
  = dict_keys d ++ (if bool_decide (k ∈ dict_keys d) then [] else [k]).
Proof.
  induction d as [|[k' v'] d IH]; [reflexivity|].
  cbn [dict_set]. destruct (String.eqb_spec k k') as [->|Hne].
  - cbn [dict_keys map fst]. rewrite bool_decide_eq_true_2 by left.
    rewrite app_nil_r. reflexivity.
  - cbn [dict_keys map fst app]. fold (dict_keys (dict_set k v d)) (dict_keys d).
    rewrite IH. do 2 f_equal.
    rewrite (bool_decide_ext (k ∈ k' :: dict_keys d) (k ∈ dict_keys d));
      [reflexivity|].
    rewrite elem_of_cons. tauto.
Qed.

(** X6: the keys of the result are the keys of the encoding in their order,
    with [labels] added at the end unless the encoding already has a
    [labels] column, which is then overwritten in place; under [labels] the
    result always holds what it holds under [input_ids]. *)
Theorem tokenize_result_keys (tokenizer : list string -> BatchEncoding)
    (sel : string) (L : Z) (ex : dict (list string)) (texts : list string)
    (r : BatchEncoding) :
  dict_get sel ex = Some texts ->
  tokenize tokenizer sel L ex = Ok r ->
  dict_keys r
  = dict_keys (tokenizer texts)
    ++ (if bool_decide ("labels"%string ∈ dict_keys (tokenizer texts))
        then [] else ["labels"%string]) /\
  dict_get "labels" r = dict_get "input_ids" r /\
  is_Some (dict_get "labels" r).
Proof.
  intros Hsel Hr.
  destruct (tokenize_Ok_inv _ _ _ _ _ Hr)
    as (texts' & k0 & c0 & rest & ids & Hsel' & HL & Henc & Hids & ->).
  rewrite Hsel in Hsel'. injection Hsel' as <-.
  split; [|split].
  - rewrite dict_keys_set.
    rewrite (dict_keys_map_snd (fun c => slices L _ (concat c))). reflexivity.
  - rewrite !dict_get_packed. cbn [String.eqb Ascii.eqb Bool.eqb].
    rewrite Hids. reflexivity.
  - rewrite dict_get_packed. cbn [String.eqb Ascii.eqb Bool.eqb]. eexists. reflexivity.
Qed.

Lemma tokenize_result_keys_witness :
  dict_keys [ ("labels"%string, [[97; 98]]); ("input_ids"%string, [[97; 98]]) ]
  = ["labels"; "input_ids"]%string ++ [] /\
  dict_get "labels" [ ("labels"%string, [[97; 98]]); ("input_ids"%string, [[97; 98]]) ]
  = dict_get "input_ids"
      [ ("labels"%string, [[97; 98]]); ("input_ids"%string, [[97; 98]]) ] /\
  is_Some (dict_get "labels"
      [ ("labels"%string, [[97; 98]]); ("input_ids"%string, [[97; 98]]) ]).
Proof.
  apply (tokenize_result_keys
           (fun texts => [ ("labels"%string, [[7; 7; 7]]);
                           ("input_ids"%string, map char_codes texts) ])
           "text" 2 [("text"%string, ["abc"%string])] ["abc"%string]
           [ ("labels"%string, [[97; 98]]); ("input_ids"%string, [[97; 98]]) ]);
    reflexivity.
Defined.

Lemma slices_empty_column (L : Z) :
  L <> 0 -> slices L (packed_length L 0) [] = [].
Proof.
  intros HL. unfold slices, packed_length, range_len.
  destruct (Z.leb_spec L 0) as [Hle|Hgt].
  - assert (L < 0) by lia. rewrite Z.div_0_l by lia. simpl.
    destruct (Z.ltb_spec 0 L); [lia|]. reflexivity.
  - destruct (Z.ltb_spec 0 L); [|lia]. reflexivity.
Qed.

(** X7: a batch without any token (no text at all, or only texts that
    encode to nothing) yields no block under any key, for every sequence
    length other than 0. *)
Theorem tokenize_no_tokens_no_blocks (tokenizer : list string -> BatchEncoding)
    (sel : string) (L : Z) (ex : dict (list string)) (texts : list string) :
  L <> 0 ->
  dict_get sel ex = Some texts ->
  is_Some (dict_get "input_ids" (tokenizer texts)) ->
  Forall (fun kv => concat (snd kv) = []) (tokenizer texts) ->
  exists r,
    tokenize tokenizer sel L ex = Ok r /\
    forall k bs, dict_get k r = Some bs -> bs = [].
Proof.
  intros HL Hsel [ids Hids] Hempty.
  destruct (tokenizer texts) as [|[k0 c0] rest] eqn:Henc; [discriminate|].
  assert (Hc0 : concat c0 = []) by (apply Forall_cons in Hempty as [Hc _]; exact Hc).
  rewrite <- Henc in Hids, Hempty.
  eexists. split.
  { apply (tokenize_nonzero _ _ _ _ texts k0 c0 rest ids); assumption. }
  rewrite Hc0. cbn [length]. change (Z.of_nat 0) with 0.
  intros k bs. rewrite dict_get_packed.
  destruct (String.eqb k "labels").
  - intros [= <-].
    rewrite (dict_get_Forall (fun c => concat c = []) _ _ _ Hempty Hids).
    apply slices_empty_column, HL.
  - destruct (dict_get k (tokenizer texts)) as [cols|] eqn:Hcols; [|discriminate].
    intros [= <-].
    rewrite (dict_get_Forall (fun c => concat c = []) _ _ _ Hempty Hcols).
    apply slices_empty_column, HL.
Qed.

Lemma tokenize_no_tokens_no_blocks_witness :
  exists r,
    tokenize char_tokenizer "text" 4 [("text"%string, [""; ""]%string)] = Ok r /\
    forall k bs, dict_get k r = Some bs -> bs = [].
Proof.
  apply (tokenize_no_tokens_no_blocks char_tokenizer "text" 4
           [("text"%string, [""; ""]%string)] [""; ""]%string).
  - lia.
  - reflexivity.
  - eexists. reflexivity.
  - repeat constructor.
Defined.

(** * Further properties of the list objects of the result *)

Lemma alloc_dict_keys (d : dict (list (list Z))) (s : store)
    (refs : dict loc) (s' : store) :
  alloc_dict d s = (refs, s') -> dict_keys refs = dict_keys d.
Proof.
  revert s refs s'. induction d as [|[k0 blocks] d IH]; intros s refs s' Halloc.
  - simpl in Halloc. injection Halloc as <- <-. reflexivity.
  - cbn [alloc_dict] in Halloc. rewrite alloc_blocks_layout in Halloc.
    destruct (alloc_dict d _) as [refs' s2] eqn:Hrest.
    injection Halloc as <- <-. cbn [dict_keys map fst].
    f_equal. exact (IH _ _ _ Hrest).
Qed.

Lemma dict_get_None_keys {V} (k : string) (d : dict V) :
  dict_get k d = None <-> k ∉ dict_keys d.
Proof.
  induction d as [|[k' v] d IH]; simpl.
  - split; [intros _ Hin; inversion Hin|reflexivity].
  - rewrite not_elem_of_cons. destruct (String.eqb_spec k k') as [->|Hne].
    + split; [discriminate|]. intros [Hne _]. contradiction.
    + rewrite IH. tauto.
Qed.

(** Every list of blocks that [alloc_dict] builds is made of lists that did
    not exist before, and two different keys never share a list. *)
Lemma alloc_dict_fresh (d : dict (list (list Z))) (s : store)
    (refs : dict loc) (s' : store) :
  alloc_dict d s = (refs, s') ->
  forall k r, dict_get k refs = Some r ->
    exists ls bs, dict_get k d = Some bs /\ is_blocks s' r ls bs /\
                  Forall (fun l => (length s <= l)%nat) (r :: ls).
Proof.
  revert s refs s'. induction d as [|[k0 blocks] d IH]; intros s refs s' Halloc k r Hk.
  - simpl in Halloc. injection Halloc as <- <-. discriminate.
  - cbn [alloc_dict] in Halloc. rewrite alloc_blocks_layout in Halloc.
    destruct (alloc_dict d _) as [refs' s2] eqn:Hrest.
    injection Halloc as <- <-.
    destruct (alloc_dict_spec _ _ _ _ Hrest) as [[ext Hext] _].
    cbn [dict_get] in Hk |- *. destruct (String.eqb k k0).
    + injection Hk as <-.
      exists (seq (S (length s)) (length blocks)), blocks.
      split; [reflexivity|]. split.
      * rewrite Hext. apply is_blocks_extend, layout_is_blocks.
      * apply Forall_cons. split; [lia|].
        apply Forall_forall. intros l Hl. apply elem_of_seq in Hl. lia.
    + destruct (IH _ _ _ Hrest k r Hk) as (ls & bs & Hd & Hblk & Hfresh).
      exists ls, bs. split; [exact Hd|]. split; [exact Hblk|].
      eapply Forall_impl; [exact Hfresh|].
      intros l Hl. cbv beta in Hl. rewrite length_app in Hl. lia.
Qed.

Lemma alloc_dict_disjoint (d : dict (list (list Z))) (s : store)
    (refs : dict loc) (s' : store) :
  alloc_dict d s = (refs, s') ->
  forall k k' r r', k <> k' ->
    dict_get k refs = Some r -> dict_get k' refs = Some r' ->
    forall l, l ∈ block_locs s' r -> l ∉ block_locs s' r'.
Proof.
  revert s refs s'. induction d as [|[k0 blocks] d IH];
    intros s refs s' Halloc k k' r r' Hne Hk Hk'.
  - simpl in Halloc. injection Halloc as <- <-. discriminate.
  - cbn [alloc_dict] in Halloc. rewrite alloc_blocks_layout in Halloc.
    destruct (alloc_dict d _) as [refs' s2] eqn:Hrest.
    injection Halloc as <- <-.
    destruct (alloc_dict_spec _ _ _ _ Hrest) as [[ext Hext] _].
    set (s1 := s ++ (VRef <$> seq (S (length s)) (length blocks))
                 :: (fmap (M := list) VInt <$> blocks)) in *.
    assert (Hhead : is_blocks s2 (length s) (seq (S (length s)) (length blocks)) blocks).
    { rewrite Hext. apply is_blocks_extend, layout_is_blocks. }
    assert (Hhead_old : forall l, l ∈ length s :: seq (S (length s)) (length blocks) ->
                          (l < length s1)%nat).
    { intros l Hl. unfold s1. rewrite length_app. cbn [length].
      rewrite length_fmap.
      apply elem_of_cons in Hl as [->|Hl]; [lia|]. apply elem_of_seq in Hl. lia. }
    destruct (is_blocks_read _ _ _ _ Hhead) as [_ Hlocs_head].
    cbn [dict_get] in Hk, Hk'.
    destruct (String.eqb_spec k k0) as [->|Hk0];
      destruct (String.eqb_spec k' k0) as [->|Hk0'].
    + contradiction.
    + injection Hk as <-.
      destruct (alloc_dict_fresh _ _ _ _ Hrest k' r' Hk') as (ls & bs & _ & Hblk & Hfresh).
      destruct (is_blocks_read _ _ _ _ Hblk) as [_ Hlocs].
      rewrite Hlocs_head, Hlocs. intros l Hl Hl'.
      specialize (Hhead_old l Hl). rewrite Forall_forall in Hfresh.
      specialize (Hfresh l Hl'). cbv beta in Hfresh. lia.
    + injection Hk' as <-.
      destruct (alloc_dict_fresh _ _ _ _ Hrest k r Hk) as (ls & bs & _ & Hblk & Hfresh).
      destruct (is_blocks_read _ _ _ _ Hblk) as [_ Hlocs].
      rewrite Hlocs_head, Hlocs. intros l Hl Hl'.
      specialize (Hhead_old l Hl'). rewrite Forall_forall in Hfresh.
      specialize (Hfresh l Hl). cbv beta in Hfresh. lia.
    + exact (IH _ _ _ Hrest k k' r r' Hne Hk Hk').
Qed.

(** A successful run of [tokenize_heap], taken apart. *)
Lemma tokenize_heap_Done_inv (tokenizer : list string -> BatchEncoding)
    (sel : string) (L : Z) (ex : dict (list string)) (s0 : store)
    (refs : dict loc) (s : store) :
  tokenize_heap tokenizer sel L ex s0 = Done (refs, s) ->
  exists blocks result s1 r_ids ls ids,
    tokenize_blocks tokenizer sel L ex = Ok blocks /\
    alloc_dict blocks s0 = (result, s1) /\
    dict_get "input_ids" result = Some r_ids /\
    dict_get "input_ids" blocks = Some ids /\
    is_blocks s1 r_ids ls ids /\
    refs = dict_set "labels" (length s1) result /\
    s = s1 ++ (VRef <$> seq (S (length s1)) (length ids))
           :: (fmap (M := list) VInt <$> ids).
Proof.
  unfold tokenize_heap. intros Hrun.
  destruct (tokenize_blocks tokenizer sel L ex) as [blocks|]; [|discriminate].
  destruct (alloc_dict blocks s0) as [result s1] eqn:Halloc.
  destruct (dict_get "input_ids" result) as [r_ids|] eqn:Hr; [|discriminate].
  destruct (alloc_dict_spec _ _ _ _ Halloc) as [_ Hkeys].
  destruct (alloc_dict_fresh _ _ _ _ Halloc _ _ Hr) as (ls & ids & Hids & _ & _).
  destruct (Hkeys _ _ Hids) as (r & ls' & Hr' & Hblk & Hnd).
  rewrite Hr in Hr'. injection Hr' as <-.
  pose proof (is_blocks_bound _ _ _ _ Hblk) as Hbound.
  apply Forall_cons in Hbound as [Hlt _].
  assert (Hfuel : exists fuel, length s1 = S fuel).
  { destruct (length s1) as [|fuel]; [lia|]. exists fuel. reflexivity. }
  destruct Hfuel as [fuel Hfuel].
  destruct (deepcopy_blocks fuel s1 r_ids ls' ids Hblk Hnd) as [m' Hcopy].
  rewrite <- Hfuel in Hcopy. rewrite Hcopy in Hrun. injection Hrun as <- <-.
  exists blocks, result, s1, r_ids, ls', ids.
  split; [reflexivity|]. split; [exact Halloc|]. split; [exact Hr|].
  split; [exact Hids|]. split; [exact Hblk|]. split; reflexivity.
Qed.

(** X8: the run on list objects agrees with the run on values.  Whatever
    [tokenize] raises, the run on the heap raises too, and [deepcopy] never
    fails; when [tokenize] returns, the run on the heap returns a dict with
    the same keys, every key refers to a list of blocks that reads back as
    the value under that key, and the lists that existed before the call are
    all still there, unchanged: the store has only grown. *)
Theorem tokenize_heap_agrees_with_tokenize
    (tokenizer : list string -> BatchEncoding) (sel : string) (L : Z)
    (ex : dict (list string)) (s0 : store) :
  (forall e, tokenize tokenizer sel L ex = Raise e ->
     tokenize_heap tokenizer sel L ex s0 = Fail (PyExn e)) /\
  (forall enc, tokenize tokenizer sel L ex = Ok enc ->
     exists refs s ext,
       tokenize_heap tokenizer sel L ex s0 = Done (refs, s) /\
       s = s0 ++ ext /\
       dict_keys refs = dict_keys enc /\
       forall k bs, dict_get k enc = Some bs ->
         exists r, dict_get k refs = Some r /\ read_blocks s r = Some bs).
Proof.
  split.
  - intros e He. unfold tokenize in He. unfold tokenize_heap.
    destruct (tokenize_blocks tokenizer sel L ex) as [blocks|e'];
      [|injection He as ->; reflexivity].
    cbn [bind] in He. unfold dict_item in He.
    destruct (dict_get "input_ids" blocks) as [ids|] eqn:Hids; [discriminate|].
    injection He as <-.
    destruct (alloc_dict blocks s0) as [result s1] eqn:Halloc.
    apply dict_get_None_keys in Hids.
    rewrite <- (alloc_dict_keys _ _ _ _ Halloc) in Hids.
    apply dict_get_None_keys in Hids. rewrite Hids. reflexivity.
  - intros enc Henc. unfold tokenize in Henc. unfold tokenize_heap.
    destruct (tokenize_blocks tokenizer sel L ex) as [blocks|]; [|discriminate].
    cbn [bind] in Henc. unfold dict_item in Henc.
    destruct (dict_get "input_ids" blocks) as [ids|] eqn:Hids; [|discriminate].
    injection Henc as <-.
    destruct (alloc_dict blocks s0) as [result s1] eqn:Halloc.
    destruct (alloc_dict_spec _ _ _ _ Halloc) as [[ext Hext] Hkeys].
    destruct (Hkeys _ _ Hids) as (r & ls & Hr & Hblk & Hnd).
    rewrite Hr.
    pose proof (is_blocks_bound _ _ _ _ Hblk) as Hbound.
    apply Forall_cons in Hbound as [Hlt _].
    assert (Hfuel : exists fuel, length s1 = S fuel).
    { destruct (length s1) as [|fuel]; [lia|]. exists fuel. reflexivity. }
    destruct Hfuel as [fuel Hfuel].
    destruct (deepcopy_blocks fuel s1 r ls ids Hblk Hnd) as [m' Hcopy].
    rewrite <- Hfuel in Hcopy. rewrite Hcopy.
    eexists _, _, _. split; [reflexivity|]. split.
    { rewrite Hext, <- app_assoc. reflexivity. }
    split.
    { rewrite !dict_keys_set, (alloc_dict_keys _ _ _ _ Halloc). reflexivity. }
    intros k bs Hk. destruct (String.eqb_spec k "labels") as [->|Hne].
    + rewrite dict_get_set_eq in Hk. injection Hk as <-.
      exists (length s1). split; [apply dict_get_set_eq|].
      apply (is_blocks_read _ _ (seq (S (length s1)) (length ids))).
      apply layout_is_blocks.
    + rewrite dict_get_set_ne in Hk by exact Hne.
      destruct (Hkeys _ _ Hk) as (r' & ls' & Hr' & Hblk' & _).
      exists r'. split; [rewrite dict_get_set_ne by exact Hne; exact Hr'|].
      apply (is_blocks_read _ _ ls'). apply is_blocks_extend, Hblk'.
Qed.

Lemma tokenize_heap_agrees_with_tokenize_witness :
  tokenize_heap char_tokenizer "text" 0 [("text"%string, ["abc"%string])] [[VInt 5]]
  = Fail (PyExn ZeroDivisionError).
Proof.
  apply (tokenize_heap_agrees_with_tokenize char_tokenizer "text" 0
           [("text"%string, ["abc"%string])] [[VInt 5]]).
  reflexivity.
Defined.

(** X9: no two keys of the result share a list object: for different keys
    (among them [attention_mask], [input_ids] and [labels]) the outer lists
    and all blocks are different objects, so that replacing the contents of
    any list of one column changes nothing of what is read from another. *)
Theorem tokenize_heap_columns_disjoint
    (tokenizer : list string -> BatchEncoding) (sel : string) (L : Z)
    (ex : dict (list string)) (s0 : store) (refs : dict loc) (s : store)
    (k k' : string) (r r' : loc) :
  tokenize_heap tokenizer sel L ex s0 = Done (refs, s) ->
  k <> k' ->
  dict_get k refs = Some r -> dict_get k' refs = Some r' ->
  (forall l, l ∈ block_locs s r -> l ∉ block_locs s r') /\
  (forall l obj, l ∈ block_locs s r ->
     read_blocks (<[l := obj]> s) r' = read_blocks s r').
Proof.
  intros Hrun Hne Hk Hk'.
  destruct (tokenize_heap_Done_inv _ _ _ _ _ _ _ Hrun)
    as (blocks & result & s1 & r_ids & ls_ids & ids
        & _ & Halloc & _ & _ & _ & -> & ->).
  set (new := (VRef <$> seq (S (length s1)) (length ids))
                :: (fmap (M := list) VInt <$> ids)) in *.
  assert (Hlab : is_blocks (s1 ++ new) (length s1)
                   (seq (S (length s1)) (length ids)) ids)
    by apply layout_is_blocks.
  assert (Hold : forall k0 r0, k0 <> "labels"%string ->
            dict_get k0 (dict_set "labels" (length s1) result) = Some r0 ->
            exists ls bs, dict_get k0 result = Some r0 /\
                          is_blocks s1 r0 ls bs /\ is_blocks (s1 ++ new) r0 ls bs).
  { intros k0 r0 Hk0 Hget. rewrite dict_get_set_ne in Hget by exact Hk0.
    destruct (alloc_dict_fresh _ _ _ _ Halloc k0 r0 Hget) as (ls & bs & _ & Hblk & _).
    exists ls, bs. split; [exact Hget|]. split; [exact Hblk|].
    apply is_blocks_extend, Hblk. }
  assert (Hnew : forall l, l ∈ length s1 :: seq (S (length s1)) (length ids) ->
                   (length s1 <= l)%nat).
  { intros l Hl. apply elem_of_cons in Hl as [->|Hl]; [lia|].
    apply elem_of_seq in Hl. lia. }
  assert (Hsep : exists ls bs ls' bs',
            is_blocks (s1 ++ new) r ls bs /\ is_blocks (s1 ++ new) r' ls' bs' /\
            forall l, l ∈ r :: ls -> l ∉ r' :: ls').
  { destruct (String.eqb_spec k "labels") as [->|Hkl];
      destruct (String.eqb_spec k' "labels") as [->|Hkl'].
    - contradiction.
    - rewrite dict_get_set_eq in Hk. injection Hk as <-.
      destruct (Hold k' r' Hkl' Hk') as (ls' & bs' & _ & Hblk1 & Hblk').
      exists (seq (S (length s1)) (length ids)), ids, ls', bs'.
      split; [exact Hlab|]. split; [exact Hblk'|].
      intros l Hl Hl'. specialize (Hnew l Hl).
      pose proof (is_blocks_bound _ _ _ _ Hblk1) as Hb.
      rewrite Forall_forall in Hb. specialize (Hb l Hl'). cbv beta in Hb. lia.
    - rewrite dict_get_set_eq in Hk'. injection Hk' as <-.
      destruct (Hold k r Hkl Hk) as (ls & bs & _ & Hblk1 & Hblk).
      exists ls, bs, (seq (S (length s1)) (length ids)), ids.
      split; [exact Hblk|]. split; [exact Hlab|].
      intros l Hl Hl'. specialize (Hnew l Hl').
      pose proof (is_blocks_bound _ _ _ _ Hblk1) as Hb.
      rewrite Forall_forall in Hb. specialize (Hb l Hl). cbv beta in Hb. lia.
    - destruct (Hold k r Hkl Hk) as (ls & bs & Hget & Hblk1 & Hblk).
      destruct (Hold k' r' Hkl' Hk') as (ls' & bs' & Hget' & Hblk1' & Hblk').
      exists ls, bs, ls', bs'. split; [exact Hblk|]. split; [exact Hblk'|].
      pose proof (alloc_dict_disjoint _ _ _ _ Halloc k k' r r' Hne Hget Hget') as Hdis.
      destruct (is_blocks_read _ _ _ _ Hblk1) as [_ Hl1].
      destruct (is_blocks_read _ _ _ _ Hblk1') as [_ Hl1'].
      rewrite Hl1, Hl1' in Hdis. exact Hdis. }
  destruct Hsep as (ls & bs & ls' & bs' & Hblk & Hblk' & Hdis).
  destruct (is_blocks_read _ _ _ _ Hblk) as [_ Hlocs].
  destruct (is_blocks_read _ _ _ _ Hblk') as [Hread' Hlocs'].
  rewrite Hlocs, Hlocs'. split; [exact Hdis|].
  intros l obj Hl. rewrite Hread'.
  apply (is_blocks_read _ _ ls'). apply is_blocks_insert_other; [|exact Hblk'].
  apply Hdis, Hl.
Qed.

Lemma tokenize_heap_columns_disjoint_witness :
  (forall l, l ∈ block_locs
               [[VRef 1%nat]; [VInt 97; VInt 98];
                [VRef 3%nat]; [VInt 1; VInt 1];
                [VRef 5%nat]; [VInt 97; VInt 98]] 2%nat ->
             l ∉ block_locs
               [[VRef 1%nat]; [VInt 97; VInt 98];
                [VRef 3%nat]; [VInt 1; VInt 1];
                [VRef 5%nat]; [VInt 97; VInt 98]] 0%nat) /\
  (forall l obj, l ∈ block_locs
               [[VRef 1%nat]; [VInt 97; VInt 98];
                [VRef 3%nat]; [VInt 1; VInt 1];
                [VRef 5%nat]; [VInt 97; VInt 98]] 2%nat ->
     read_blocks (<[l := obj]>
               [[VRef 1%nat]; [VInt 97; VInt 98];
                [VRef 3%nat]; [VInt 1; VInt 1];
                [VRef 5%nat]; [VInt 97; VInt 98]]) 0%nat
     = read_blocks
               [[VRef 1%nat]; [VInt 97; VInt 98];
                [VRef 3%nat]; [VInt 1; VInt 1];
                [VRef 5%nat]; [VInt 97; VInt 98]] 0%nat).
Proof.
  apply (tokenize_heap_columns_disjoint char_tokenizer "text" 2
           [("text"%string, ["abc"%string])] []
           [("input_ids"%string, 0%nat); ("attention_mask"%string, 2%nat);
            ("labels"%string, 4%nat)]
           [[VRef 1%nat]; [VInt 97; VInt 98];
            [VRef 3%nat]; [VInt 1; VInt 1];
            [VRef 5%nat]; [VInt 97; VInt 98]]
           "attention_mask" "input_ids" 2%nat 0%nat);
    [vm_compute; reflexivity|discriminate|reflexivity|reflexivity].
Defined.

(** * Further properties of the relative position buckets and the mask *)

(** With a valid configuration the bucket function returns, and what it
    returns is this. *)
Lemma relative_position_bucket_value (log_offset : Z -> Z -> Z -> Z)
    (r num_buckets max_distance : Z) :
  2 <= num_buckets -> 0 < max_distance ->
  relative_position_bucket log_offset r num_buckets max_distance
  = Ok (if Z.max (- r) 0 <? num_buckets / 2 then Z.max (- r) 0
        else Z.min (num_buckets / 2
                    + log_offset num_buckets max_distance (Z.max (- r) 0))
                   (num_buckets - 1)).
Proof.
  intros Hnb Hmd. unfold relative_position_bucket.
  assert (1 <= num_buckets / 2) by (Z.div_mod_to_equations; lia).
  destruct (Z.eqb_spec (num_buckets / 2) 0); [lia|].
  destruct (Z.leb_spec (max_distance * (num_buckets / 2)) 0); [nia|].
  reflexivity.
Qed.

(** The clamp of line 86 from above: whatever the float term is, and
    whatever the configuration, a bucket that is returned is at most
    [num_buckets - 1].  Nothing in the code clamps the logarithmic branch
    from below. *)
Lemma relative_position_bucket_upper (log_offset : Z -> Z -> Z -> Z)
    (r num_buckets max_distance b : Z) :
  relative_position_bucket log_offset r num_buckets max_distance = Ok b ->
  b <= num_buckets - 1.
Proof.
  unfold relative_position_bucket.
  destruct (Z.eqb_spec (num_buckets / 2) 0) as [|Hme]; [discriminate|].
  destruct (Z.leb_spec (max_distance * (num_buckets / 2)) 0); [discriminate|].
  intros [= <-].
  destruct (Z.ltb_spec (Z.max (- r) 0) (num_buckets / 2)) as [Hs|Hl]; [|lia].
  Z.div_mod_to_equations. lia.
Qed.

(** X10: whatever the float arithmetic of the logarithmic branch does, a key
    at or after the query (relative position [>= 0]) falls into bucket 0,
    and a key less than [num_buckets / 2] positions before the query falls
    into the bucket of its exact distance, so that these distances all have
    buckets of their own. *)
Theorem relative_position_bucket_near (log_offset : Z -> Z -> Z -> Z)
    (num_buckets max_distance : Z) :
  2 <= num_buckets -> 0 < max_distance ->
  (forall r, 0 <= r ->
     relative_position_bucket log_offset r num_buckets max_distance = Ok 0) /\
  (forall r, 0 <= - r < num_buckets / 2 ->
     relative_position_bucket log_offset r num_buckets max_distance = Ok (- r)) /\
  (forall r1 r2, 0 <= - r1 < num_buckets / 2 -> 0 <= - r2 < num_buckets / 2 ->
     relative_position_bucket log_offset r1 num_buckets max_distance
     = relative_position_bucket log_offset r2 num_buckets max_distance ->
     r1 = r2).
Proof.
  intros Hnb Hmd.
  assert (Hme : 1 <= num_buckets / 2) by (Z.div_mod_to_equations; lia).
  assert (Hband : forall r, 0 <= - r < num_buckets / 2 ->
     relative_position_bucket log_offset r num_buckets max_distance = Ok (- r)).
  { intros r Hr. rewrite relative_position_bucket_value by assumption.
    rewrite Z.max_l by lia.
    destruct (Z.ltb_spec (- r) (num_buckets / 2)); [reflexivity|lia]. }
  split; [|split].
  - intros r Hr. rewrite relative_position_bucket_value by assumption.
    rewrite Z.max_r by lia.
    destruct (Z.ltb_spec 0 (num_buckets / 2)); [reflexivity|lia].
  - exact Hband.
  - intros r1 r2 Hr1 Hr2. rewrite !Hband by assumption. intros [= Heq]. lia.
Qed.

Lemma relative_position_bucket_near_witness :
  relative_position_bucket (fun _ _ _ => -1000) 7 32 128 = Ok 0 /\
  relative_position_bucket (fun _ _ _ => -1000) (-15) 32 128 = Ok 15.
Proof.
  destruct (relative_position_bucket_near (fun _ _ _ => -1000) 32 128)
    as (Hfuture & Hband & _); [lia|lia|].
  split; [apply Hfuture; lia|].
  apply (Hband (-15)). change (32 / 2) with 16. lia.
Defined.

(** X11: what the bucket function does with every configuration: it raises
    [ZeroDivisionError] exactly when [num_buckets] is 0 or 1, whatever the
    position; otherwise it raises [ValueError] exactly when
    [max_distance / (num_buckets // 2)] is not positive; otherwise it
    returns. *)
Theorem relative_position_bucket_configuration (log_offset : Z -> Z -> Z -> Z)
    (r num_buckets max_distance : Z) :
  (relative_position_bucket log_offset r num_buckets max_distance
   = Raise ZeroDivisionError <-> num_buckets = 0 \/ num_buckets = 1) /\
  (relative_position_bucket log_offset r num_buckets max_distance
   = Raise ValueError <->
   num_buckets <> 0 /\ num_buckets <> 1 /\ max_distance * (num_buckets / 2) <= 0) /\
  ((exists b, relative_position_bucket log_offset r num_buckets max_distance = Ok b)
   <-> 0 < max_distance * (num_buckets / 2)).
Proof.
  unfold relative_position_bucket.
  assert (Hme : num_buckets / 2 = 0 <-> num_buckets = 0 \/ num_buckets = 1)
    by (Z.div_mod_to_equations; lia).
  destruct (Z.eqb_spec (num_buckets / 2) 0) as [Hz|Hnz].
  - split; [|split].
    + split; [intros _; apply Hme, Hz|reflexivity].
    + split; [discriminate|]. intros (H0 & H1 & _). apply Hme in Hz. lia.
    + split; [intros [b Hb]; discriminate|]. rewrite Hz. lia.
  - destruct (Z.leb_spec (max_distance * (num_buckets / 2)) 0) as [Hle|Hgt].
    + split; [|split].
      * split; [discriminate|]. intros Hnb. apply Hme in Hnb. contradiction.
      * split; [|reflexivity]. intros _.
        split; [|split]; try assumption; intros ->; apply Hnz; reflexivity.
      * split; [intros [b Hb]; discriminate|lia].
    + split; [|split].
      * split; [discriminate|]. intros Hnb. apply Hme in Hnb. contradiction.
      * split; [discriminate|]. intros (_ & _ & Hle). lia.
      * split; [intros _; exact Hgt|]. intros _. eexists. reflexivity.
Qed.

Lemma lookup_map {A B} (f : A -> B) (l : list A) (i : nat) :
  map f l !! i = f <$> (l !! i).
Proof.
  revert i. induction l as [|a l IH]; intros [|i]; simpl; try reflexivity.
  apply IH.
Qed.

Lemma lookup_arange (n : Z) (i : nat) :
  (i < Z.to_nat n)%nat -> arange n !! i = Some (Z.of_nat i).
Proof.
  intros Hi. unfold arange. rewrite list_lookup_fmap.
  rewrite lookup_seq_lt by exact Hi. reflexivity.
Qed.

Lemma length_arange (n : Z) : length (arange n) = Z.to_nat n.
Proof. unfold arange. rewrite length_fmap, length_seq. reflexivity. Qed.

(** X12: the table of bucket indices that [T5RelativePositionBias.forward]
    looks up for [i] queries and [j] keys has [i] rows of [j] entries; the
    entry of query [q] and key [k] is 0 when the key is not before the
    query, and the distance [q - k] itself when the key is less than
    [num_buckets / 2] positions before the query. *)
Theorem rp_bucket_table (log_offset : Z -> Z -> Z -> Z)
    (m : T5RelativePositionBias) (i j : Z) :
  2 <= num_buckets m -> 0 < max_distance m ->
  exists table,
    rp_bucket log_offset m i j = Ok table /\
    length table = Z.to_nat i /\
    (forall row, row ∈ table -> length row = Z.to_nat j) /\
    forall q k : nat, (q < Z.to_nat i)%nat -> (k < Z.to_nat j)%nat ->
      exists row b,
        table !! q = Some row /\ row !! k = Some b /\
        ((q <= k)%nat -> b = 0) /\
        ((k < q)%nat -> Z.of_nat (q - k) < num_buckets m / 2 -> b = Z.of_nat (q - k)).
Proof.
  intros Hnb Hmd.
  set (value := fun r =>
         if Z.max (- r) 0 <? num_buckets m / 2 then Z.max (- r) 0
         else Z.min (num_buckets m / 2
                     + log_offset (num_buckets m) (max_distance m) (Z.max (- r) 0))
                    (num_buckets m - 1)).
  exists (map (map value) (rel_pos i j)).
  split; [|split; [|split]].
  - unfold rp_bucket, relative_position_bucket_tensor.
    rewrite relative_position_bucket_value by assumption. cbn [bind].
    apply map_result_ok. intros row. apply map_result_ok. intros r.
    apply relative_position_bucket_value; assumption.
  - unfold rel_pos. rewrite !length_map. apply length_arange.
  - intros row Hrow. apply list_elem_of_In, in_map_iff in Hrow as [row0 [<- Hrow0]].
    unfold rel_pos in Hrow0. apply in_map_iff in Hrow0 as [q [<- _]].
    rewrite !length_map. apply length_arange.
  - intros q k Hq Hk. unfold rel_pos.
    eexists _, _. split; [|split; [|split]].
    + rewrite !lookup_map, lookup_arange by exact Hq. reflexivity.
    + rewrite !lookup_map, lookup_arange by exact Hk. reflexivity.
    + intros Hqk. unfold value.
      assert (1 <= num_buckets m / 2) by (Z.div_mod_to_equations; lia).
      rewrite Z.max_r by lia.
      destruct (Z.ltb_spec 0 (num_buckets m / 2)); [reflexivity|lia].
    + intros Hkq Hband. unfold value.
      rewrite Z.max_l by lia.
      destruct (Z.ltb_spec (- (Z.of_nat k - Z.of_nat q)) (num_buckets m / 2)); lia.
Qed.

Lemma rp_bucket_table_witness :
  exists table,
    rp_bucket (fun _ _ _ => 0) (T5RelativePositionBias_init (PowHalf 64) 32 128 8) 3 3
    = Ok table /\
    length table = 3%nat.
Proof.
  destruct (rp_bucket_table (fun _ _ _ => 0)
              (T5RelativePositionBias_init (PowHalf 64) 32 128 8) 3 3)
    as (table & Htable & Hlen & _); [simpl; lia|simpl; lia|].
  exists table. split; assumption.
Defined.

(** With the default table of [Attention] and three positions, the indices
    are the distances below the diagonal and 0 elsewhere; the float term is
    not reached. *)
Example rp_bucket_3_3 :
  rp_bucket (fun _ _ _ => 0) (T5RelativePositionBias_init (PowHalf 64) 32 128 8) 3 3
  = Ok [[0; 0; 0]; [1; 0; 0]; [2; 1; 0]].
Proof. vm_compute. reflexivity. Qed.

Lemma map_constant {A B} (f : A -> B) (c : B) (l : list A) :
  (forall x, In x l -> f x = c) -> map f l = replicate (length l) c.
Proof.
  induction l as [|a l IH]; intros Hf; [reflexivity|].
  simpl. rewrite (Hf a) by (left; reflexivity). f_equal.
  apply IH. intros x Hx. apply Hf. right. exact Hx.
Qed.

(** X13: the causal mask for [i] queries and [j >= i] keys: row [q] leaves
    exactly its first [j - i + q + 1] keys unmasked and masks all later
    ones; in particular no row is masked entirely, and in the square case
    of self-attention query [q] sees the keys [0 .. q]. *)
Theorem causal_mask_matrix_rows (i j : Z) (q : nat) :
  0 <= i <= j -> (q < Z.to_nat i)%nat ->
  length (causal_mask_matrix i j) = Z.to_nat i /\
  causal_mask_matrix i j !! q
  = Some (replicate (Z.to_nat (j - i) + q + 1) false
          ++ replicate (Z.to_nat i - q - 1) true).
Proof.
  intros Hij Hq. unfold causal_mask_matrix. split.
  - rewrite length_map. apply length_arange.
  - rewrite lookup_map, lookup_arange by exact Hq. cbn [fmap option_fmap option_map].
    f_equal. unfold arange.
    replace (Z.to_nat j)
      with ((Z.to_nat (j - i) + q + 1) + (Z.to_nat i - q - 1))%nat by lia.
    rewrite seq_app, fmap_app, map_app. f_equal.
    + rewrite (map_constant _ false).
      * rewrite length_fmap, length_seq. reflexivity.
      * intros c Hc. apply list_elem_of_In, list_elem_of_fmap in Hc as [c0 [-> Hc0]].
        apply elem_of_seq in Hc0. unfold causal_mask, triu_ones.
        apply Z.leb_gt. lia.
    + rewrite (map_constant _ true).
      * rewrite length_fmap, length_seq. reflexivity.
      * intros c Hc. apply list_elem_of_In, list_elem_of_fmap in Hc as [c0 [-> Hc0]].
        apply elem_of_seq in Hc0. unfold causal_mask, triu_ones.
        apply Z.leb_le. lia.
Qed.

Lemma causal_mask_matrix_rows_witness :
  length (causal_mask_matrix 3 3) = 3%nat /\
  causal_mask_matrix 3 3 !! 1%nat = Some [false; false; true].
Proof.
  apply (causal_mask_matrix_rows 3 3 1); [lia|simpl; lia].
Defined.

(** * Further properties of the modules on shapes *)

Lemma split_last_app (lead : shape) (d : Z) : split_last (lead ++ [d]) = Some (lead, d).
Proof.
  induction lead as [|x lead IH]; [reflexivity|].
  cbn [app split_last]. rewrite IH.
  destruct (lead ++ [d]) eqn:Hl; [destruct lead; discriminate|reflexivity].
Qed.

Lemma split_last_Some (x lead : shape) (d : Z) :
  split_last x = Some (lead, d) -> x = lead ++ [d].
Proof.
  revert lead. induction x as [|a x IH]; intros lead Hx; [discriminate|].
  cbn [split_last] in Hx. destruct x as [|b x].
  - injection Hx as <- <-. reflexivity.
  - destruct (split_last (b :: x)) as [[lead' l]|]; [|discriminate].
    cbn [mbind option_bind] in Hx. injection Hx as <- <-.
    cbn [app]. f_equal. apply IH. reflexivity.
Qed.

Lemma Linear_forward_app (m : Linear) (lead : shape) :
  Linear_forward m (lead ++ [in_features m]) = Some (lead ++ [out_features m]).
Proof.
  unfold Linear_forward. rewrite split_last_app. cbn [mbind option_bind].
  rewrite Z.eqb_refl. reflexivity.
Qed.

Lemma Linear_forward_Some (m : Linear) (x y : shape) :
  Linear_forward m x = Some y ->
  exists lead, x = lead ++ [in_features m] /\ y = lead ++ [out_features m].
Proof.
  unfold Linear_forward. intros Hy.
  destruct (split_last x) as [[lead d]|] eqn:Hx; [|discriminate].
  cbn [mbind option_bind] in Hy.
  destruct (Z.eqb_spec d (in_features m)) as [->|]; [|discriminate].
  injection Hy as <-. exists lead. split; [apply split_last_Some, Hx|reflexivity].
Qed.

Lemma LayerNorm_forward_Some (m : LayerNorm) (x y : shape) :
  LayerNorm_forward m x = Some y -> y = x.
Proof.
  unfold LayerNorm_forward. intros Hy.
  destruct (split_last x) as [[lead d]|]; [|discriminate].
  cbn [mbind option_bind] in Hy.
  destruct (d =? normalized_shape m); [|discriminate].
  injection Hy as <-. reflexivity.
Qed.

Lemma split_heads_Some (h : Z) (q q' : shape) :
  split_heads h q = Some q' -> exists b n hd, q = [b; n; hd].
Proof.
  unfold split_heads. intros Hq.
  destruct q as [|b [|n [|hd [|? ?]]]]; try discriminate.
  exists b, n, hd. reflexivity.
Qed.

Lemma Attention_forward_inv (dim h d : Z) (a : Attention) (x y : shape) :
  Attention_init dim h d = Ok a ->
  Attention_forward a x = Some y -> exists b n, x = [b; n; dim].
Proof.
  intros Ha Hy. unfold Attention_forward in Hy.
  destruct (Attention_qkv a x) as [[[q k] v]|] eqn:Hqkv; [|discriminate].
  unfold Attention_qkv in Hqkv.
  unfold Attention_init in Ha.
  destruct (pow_neg_half d) as [sc|]; [|discriminate].
  cbn [bind] in Ha. injection Ha as <-.
  cbn [to_q to_kv heads] in Hqkv.
  destruct (Linear_forward (mkLinear dim (h * d) false) x) as [q0|] eqn:Hq0;
    [|discriminate].
  cbn [mbind option_bind] in Hqkv.
  destruct (Linear_forward (mkLinear dim (d * 2) false) x) as [kv|];
    [|discriminate].
  cbn [mbind option_bind] in Hqkv.
  destruct (chunk2 kv ≫= unpack2) as [[k' v']|]; [|discriminate].
  cbn [mbind option_bind] in Hqkv.
  destruct (split_heads h q0) as [q1|] eqn:Hq1; [|discriminate].
  apply Linear_forward_Some in Hq0 as (lead & -> & ->).
  apply split_heads_Some in Hq1 as (b & n & hd & Hq1).
  cbn [in_features out_features] in *.
  change [b; n; hd] with ([b; n] ++ [hd]) in Hq1.
  apply app_inj_tail in Hq1 as [-> _]. exists b, n. reflexivity.
Qed.

(** X14: the shape contract of [Attention.forward], both ways: a layer
    built for positive [heads] and [dim_head] accepts exactly the inputs of
    shape [(b, n, dim)], and returns that same shape; an input of any other
    rank or last size is a shape error. *)
Theorem Attention_forward_contract (dim h d : Z) (a : Attention) (x y : shape) :
  0 < h -> 0 < d ->
  Attention_init dim h d = Ok a ->
  (Attention_forward a x = Some y <-> (exists b n, x = [b; n; dim]) /\ y = x).
Proof.
  intros Hh Hd Ha. split.
  - intros Hy.
    pose proof (Attention_forward_inv dim h d a x y Ha Hy) as Hx.
    split; [exact Hx|]. destruct Hx as (b & n & ->).
    rewrite (Attention_forward_shape dim h d b n a) in Hy by assumption.
    injection Hy as <-. reflexivity.
  - intros [(b & n & ->) ->].
    apply (Attention_forward_shape dim h d); assumption.
Qed.

Lemma Attention_forward_contract_witness :
  exists a,
    Attention_init 16 4 8 = Ok a /\
    Attention_forward a [2; 5; 16] = Some [2; 5; 16] /\
    Attention_forward a [5; 16] = None.
Proof.
  destruct (Attention_init 16 4 8) as [a|] eqn:Ha; [|discriminate].
  exists a. split; [reflexivity|]. split.
  - apply (Attention_forward_contract 16 4 8 a [2; 5; 16] [2; 5; 16]);
      [lia|lia|exact Ha|].
    split; [exists 2, 5; reflexivity|reflexivity].
  - destruct (Attention_forward a [5; 16]) as [y|] eqn:Hy; [|reflexivity].
    apply (Attention_forward_contract 16 4 8 a [5; 16] y) in Hy;
      [|lia|lia|exact Ha].
    destruct Hy as [(b & n & Hx) _]. discriminate.
Defined.

Lemma FeedForward_forward_app (dim : Z) (lead : shape) :
  0 < dim ->
  FeedForward_forward (FeedForward_init dim 4) (lead ++ [dim]) = Some (lead ++ [dim]).
Proof.
  intros Hdim. unfold FeedForward_forward, FeedForward_init.
  cbn [ff_proj_in ff_proj_out].
  pose proof (Linear_forward_app (mkLinear dim (dim * 4 * 2) true) lead) as Hin.
  pose proof (Linear_forward_app (mkLinear (dim * 4) dim true) lead) as Hout.
  cbn [in_features out_features] in Hin, Hout.
  rewrite Hin. cbn [mbind option_bind].
  unfold GEGLU_forward, chunk2. rewrite split_last_app. cbn [mbind option_bind].
  rewrite chunk2_sizes_even by lia.
  cbn [fmap list_fmap unpack2 mbind option_bind].
  rewrite broadcast_refl. cbn [mbind option_bind]. exact Hout.
Qed.

(** X15: the shape contract of [FeedForward.forward], both ways: for
    positive [dim] it accepts exactly the shapes whose last size is [dim],
    of any rank from 1 on, and returns the shape it was given. *)
Theorem FeedForward_forward_contract (dim : Z) (x y : shape) :
  0 < dim ->
  (FeedForward_forward (FeedForward_init dim 4) x = Some y
   <-> (exists lead, x = lead ++ [dim]) /\ y = x).
Proof.
  intros Hdim. split.
  - intros Hy.
    assert (Hx : exists lead, x = lead ++ [dim]).
    { unfold FeedForward_forward, FeedForward_init in Hy.
      cbn [ff_proj_in ff_proj_out] in Hy.
      destruct (Linear_forward (mkLinear dim (dim * 4 * 2) true) x) as [x1|] eqn:Hx1;
        [|discriminate].
      apply Linear_forward_Some in Hx1 as (lead & -> & _).
      exists lead. reflexivity. }
    split; [exact Hx|]. destruct Hx as (lead & ->).
    rewrite FeedForward_forward_app in Hy by exact Hdim.
    injection Hy as <-. reflexivity.
  - intros [(lead & ->) ->]. apply FeedForward_forward_app, Hdim.
Qed.

Lemma FeedForward_forward_contract_witness :
  FeedForward_forward (FeedForward_init 16 4) [7; 2; 5; 16] = Some [7; 2; 5; 16].
Proof.
  apply (FeedForward_forward_contract 16 [7; 2; 5; 16] [7; 2; 5; 16]); [lia|].
  split; [exists [7; 2; 5]; reflexivity|reflexivity].
Defined.

(** A shape error stays a shape error through a layer and through the
    rest of the stack. *)
Lemma layers_forward_None (ls : list (Residual (PreNorm LayerNorm Attention)
                                      * Residual (PreNorm LayerNorm FeedForward))) :
  forward (mkTransformer ls) (None : option shape) = None.
Proof.
  unfold forward at 1, Transformer_forward. cbn [layers].
  induction ls as [|l ls IH]; [reflexivity|].
  cbn [fold_left]. exact IH.
Qed.

Lemma Transformer_forward_cons
    (l : Residual (PreNorm LayerNorm Attention) * Residual (PreNorm LayerNorm FeedForward))
    (ls : list (Residual (PreNorm LayerNorm Attention)
                * Residual (PreNorm LayerNorm FeedForward)))
    (x : option shape) :
  forward (mkTransformer (l :: ls)) x
  = forward (mkTransformer ls) (forward (snd l) (forward (fst l) x)).
Proof. reflexivity. Qed.

(** What the attention half of a layer accepts. *)
Lemma attention_layer_inv (dim h d : Z) (a : Attention) (x y : shape) :
  Attention_init dim h d = Ok a ->
  forward (mkResidual (PreNorm_init dim a)) (Some x) = Some y ->
  exists b n, x = [b; n; dim].
Proof.
  intros Ha Hy.
  rewrite Residual_forward_eq, PreNorm_forward_eq in Hy.
  unfold tensor_add, shape_add, forward, LayerNorm_module, Attention_module,
    PreNorm_init in Hy.
  cbn [res_fn pn_fn norm mbind option_bind] in Hy.
  destruct (LayerNorm_forward (mkLayerNorm dim) x) as [x'|] eqn:Hln; [|discriminate].
  apply LayerNorm_forward_Some in Hln as ->.
  cbn [mbind option_bind] in Hy.
  destruct (Attention_forward a x) as [z|] eqn:Hz; [|discriminate].
  exact (Attention_forward_inv dim h d a x z Ha Hz).
Qed.

Lemma Transformer_forward_inv (dim h d : Z) (a : Attention) (k : nat) (x y : shape) :
  Attention_init dim h d = Ok a ->
  forward (mkTransformer
             (replicate (S k)
                (mkResidual (PreNorm_init dim a),
                 mkResidual (PreNorm_init dim (FeedForward_init dim 4)))))
          (Some x) = Some y ->
  exists b n, x = [b; n; dim].
Proof.
  intros Ha Hy. cbn [replicate] in Hy. rewrite Transformer_forward_cons in Hy.
  cbn [fst snd] in Hy.
  destruct (forward (mkResidual (PreNorm_init dim a)) (Some x)) as [z|] eqn:Hz.
  - exact (attention_layer_inv dim h d a x z Ha Hz).
  - change (forward (mkResidual (PreNorm_init dim (FeedForward_init dim 4))) None)
      with (@None shape) in Hy.
    rewrite layers_forward_None in Hy. discriminate.
Qed.

(** X16: the shape contract of [Transformer.forward], both ways: a
    transformer constructed with at least one layer and positive sizes
    accepts exactly the inputs of shape [(b, n, dim)] and returns that
    shape, whatever its depth; one constructed with [depth <= 0] has no
    layer and returns every tensor as it is. *)
Theorem Transformer_forward_contract (dim depth h d : Z)
    (t : Transformer LayerNorm Attention FeedForward) (x y : shape) :
  0 < dim -> 0 < h -> 0 < d ->
  Transformer_init dim depth h d = Ok t ->
  (1 <= depth ->
     (forward t (Some x) = Some y <-> (exists b n, x = [b; n; dim]) /\ y = x)) /\
  (depth <= 0 -> forward t (Some x) = Some x).
Proof.
  intros Hdim Hh Hd Ht.
  pose proof (Attention_init_ok dim h d ltac:(lia)) as Ha.
  rewrite (Transformer_init_ok dim depth h d _ Ha) in Ht. injection Ht as <-.
  split.
  - intros Hdepth. destruct (Z.to_nat depth) as [|k] eqn:Hk; [lia|]. split.
    + intros Hy.
      pose proof (Transformer_forward_inv dim h d _ k x y Ha Hy) as Hx.
      split; [exact Hx|]. destruct Hx as (b & n & ->).
      rewrite (Transformer_forward_shape dim h d b n _ (S k)) in Hy by assumption.
      injection Hy as <-. reflexivity.
    + intros [(b & n & ->) ->].
      apply (Transformer_forward_shape dim h d); assumption.
  - intros Hdepth. replace (Z.to_nat depth) with 0%nat by lia. reflexivity.
Qed.

Lemma Transformer_forward_contract_witness :
  exists t,
    Transformer_init 16 3 4 8 = Ok t /\
    forward t (Some [2; 5; 16]) = Some [2; 5; 16].
Proof.
  destruct (Transformer_init 16 3 4 8) as [t|] eqn:Ht; [|discriminate].
  exists t. split; [reflexivity|].
  destruct (Transformer_forward_contract 16 3 4 8 t [2; 5; 16] [2; 5; 16])
    as [Hdeep _]; [lia|lia|lia|exact Ht|].
  apply Hdeep; [lia|]. split; [exists 2, 5; reflexivity|reflexivity].
Defined.

(** X18: the contract of [LaMDA.forward], both ways: a model with at least
    one layer and positive sizes returns logits exactly for the tensors of
    token ids that have two axes and hold only ids in [[0, num_tokens)];
    the logits then have the shape of the input followed by [num_tokens].
    One id outside the table, or a tensor of another rank, is an error. *)
Theorem LaMDA_forward_contract
    (num_tokens dim depth dim_head_arg heads_arg : Z) (m : LaMDA)
    (x : IdTensor) (y : shape) :
  0 < dim -> 0 < dim_head_arg -> 0 < heads_arg -> 1 <= depth ->
  LaMDA_init num_tokens dim depth dim_head_arg heads_arg = Ok m ->
  (LaMDA_forward m x = Some y <->
   Forall (fun t => 0 <= t < num_tokens) (ids_data x) /\
   (exists b n, ids_shape x = [b; n]) /\
   y = ids_shape x ++ [num_tokens]).
Proof.
  intros Hdim Hdh Hh Hdepth Hm.
  pose proof (Attention_init_ok dim dim_head_arg heads_arg ltac:(lia)) as Ha.
  unfold LaMDA_init in Hm.
  rewrite (Transformer_init_ok dim depth dim_head_arg heads_arg _ Ha) in Hm.
  cbn [bind] in Hm.
  destruct (Z.to_nat depth) as [|k] eqn:Hk; [lia|].
  match type of Hm with
  | Ok (mkLaMDA _ ?t _) = _ => set (T := t) in *
  end.
  injection Hm as <-.
  unfold LaMDA_forward, Embedding_forward.
  cbn [token_emb transformer to_logits num_embeddings embedding_dim fst snd].
  assert (Hrange : forallb (fun t => (0 <=? t) && (t <? num_tokens)) (ids_data x) = true
                   <-> Forall (fun t => 0 <= t < num_tokens) (ids_data x)).
  { rewrite forallb_forall, Forall_forall. split; intros Hall t Ht.
    - apply list_elem_of_In in Ht. specialize (Hall t Ht).
      apply andb_prop in Hall as [H0 H1].
      apply Z.leb_le in H0. apply Z.ltb_lt in H1. lia.
    - apply list_elem_of_In in Ht. specialize (Hall t Ht).
      apply andb_true_intro. split; [apply Z.leb_le|apply Z.ltb_lt]; lia. }
  split.
  - intros Hy.
    destruct (forallb _ (ids_data x)) eqn:Hall; [|discriminate].
    cbn [mbind option_bind] in Hy.
    match type of Hy with
    | mbind _ ?o = _ => destruct o as [z|] eqn:Hz; [|discriminate]
    end.
    unfold T in Hz.
    destruct (Transformer_forward_inv dim dim_head_arg heads_arg _ k _ z Ha Hz)
      as (b & n & Hshape).
    change [b; n; dim] with ([b; n] ++ [dim]) in Hshape.
    apply app_inj_tail in Hshape as [Hshape _].
    rewrite Hshape in Hz.
    change ([b; n] ++ [dim]) with [b; n; dim] in Hz.
    rewrite (Transformer_forward_shape dim dim_head_arg heads_arg b n _ (S k)) in Hz
      by assumption.
    injection Hz as <-. cbn [mbind option_bind] in Hy.
    rewrite LayerNorm_forward_shape in Hy. cbn [mbind option_bind] in Hy.
    pose proof (Linear_forward_app (mkLinear dim num_tokens true) [b; n]) as Hlin.
    cbn [in_features out_features app] in Hlin. rewrite Hlin in Hy.
    injection Hy as <-.
    split; [apply Hrange; reflexivity|]. split; [exists b, n; exact Hshape|].
    rewrite Hshape. reflexivity.
  - intros (Hids & (b & n & Hshape) & ->).
    apply Hrange in Hids. rewrite Hids, Hshape. cbn [mbind option_bind app].
    unfold T.
    rewrite (Transformer_forward_shape dim dim_head_arg heads_arg b n _ (S k))
      by assumption.
    cbn [mbind option_bind]. rewrite LayerNorm_forward_shape.
    cbn [mbind option_bind].
    pose proof (Linear_forward_app (mkLinear dim num_tokens true) [b; n]) as Hlin.
    cbn [in_features out_features app] in Hlin. exact Hlin.
Qed.

Lemma LaMDA_forward_contract_witness :
  exists m,
    LaMDA_init 100 16 2 4 8 = Ok m /\
    LaMDA_forward m (mkIdTensor [2; 3] [1; 2; 3; 4; 5; 100]) = None.
Proof.
  destruct (LaMDA_init 100 16 2 4 8) as [m|] eqn:Hm; [|discriminate].
  exists m. split; [reflexivity|].
  destruct (LaMDA_forward m (mkIdTensor [2; 3] [1; 2; 3; 4; 5; 100])) as [y|] eqn:Hy;
    [|reflexivity].
  apply (LaMDA_forward_contract 100 16 2 4 8 m _ y) in Hy;
    [|lia|lia|lia|lia|exact Hm].
  destruct Hy as (Hids & _). cbn [ids_data] in Hids.
  rewrite Forall_forall in Hids.
  assert (Hin : 100 ∈ [1; 2; 3; 4; 5; 100])
    by (do 5 apply list_elem_of_further; apply list_elem_of_here).
  specialize (Hids 100 Hin). lia.
Defined.

Lemma split_heads_zero (q : shape) : split_heads 0 q = None.
Proof. destruct q as [|b [|n [|hd [|? ?]]]]; reflexivity. Qed.

Lemma Attention_forward_no_heads (a : Attention) (x : shape) :
  heads a = 0 -> Attention_forward a x = None.
Proof.
  intros Hh. unfold Attention_forward, Attention_qkv. rewrite Hh.
  destruct (Linear_forward (to_q a) x) as [q|]; [|reflexivity].
  cbn [mbind option_bind].
  destruct (Linear_forward (to_kv a) x) as [kv|]; [|reflexivity].
  cbn [mbind option_bind].
  destruct (chunk2 kv ≫= unpack2) as [[k v]|]; [|reflexivity].
  cbn [mbind option_bind]. rewrite split_heads_zero. reflexivity.
Qed.

(** * Construction with the libraries' argument checks *)

Lemma check_size_ok (n : Z) : 0 <= n -> check_size n = Ok tt.
Proof. intros Hn. unfold check_size. destruct (Z.ltb_spec n 0); [lia|reflexivity]. Qed.

Lemma check_size_negative (n : Z) : n < 0 -> check_size n = Raise RuntimeError.
Proof. intros Hn. unfold check_size. destruct (Z.ltb_spec n 0); [reflexivity|lia]. Qed.

(** A constructor of the tensor library either builds the record or raises
    [RuntimeError], the latter exactly when one of its sizes is negative. *)
Lemma nn_Linear_ok (i o : Z) (b : bool) :
  0 <= i -> 0 <= o -> nn_Linear i o b = Ok (mkLinear i o b).
Proof.
  intros Hi Ho. unfold nn_Linear. rewrite !check_size_ok by assumption. reflexivity.
Qed.

Lemma nn_Linear_negative (i o : Z) (b : bool) :
  i < 0 \/ o < 0 -> nn_Linear i o b = Raise RuntimeError.
Proof.
  intros H. unfold nn_Linear, check_size.
  destruct (Z.ltb_spec o 0); [reflexivity|].
  destruct (Z.ltb_spec i 0); [reflexivity|lia].
Qed.

Lemma nn_Linear_cases (i o : Z) (b : bool) :
  nn_Linear i o b = Ok (mkLinear i o b) \/ nn_Linear i o b = Raise RuntimeError.
Proof.
  destruct (Z.le_gt_cases 0 i); [destruct (Z.le_gt_cases 0 o)|].
  - left. apply nn_Linear_ok; assumption.
  - right. apply nn_Linear_negative. lia.
  - right. apply nn_Linear_negative. lia.
Qed.

Lemma nn_Embedding_ok (n dim : Z) :
  0 <= n -> 0 <= dim -> nn_Embedding n dim = Ok (mkEmbedding n dim).
Proof.
  intros Hn Hd. unfold nn_Embedding. rewrite !check_size_ok by assumption. reflexivity.
Qed.

Lemma nn_Embedding_negative (n dim : Z) :
  n < 0 \/ dim < 0 -> nn_Embedding n dim = Raise RuntimeError.
Proof.
  intros H. unfold nn_Embedding, check_size.
  destruct (Z.ltb_spec n 0); [reflexivity|].
  destruct (Z.ltb_spec dim 0); [reflexivity|lia].
Qed.

Lemma nn_Embedding_cases (n dim : Z) :
  nn_Embedding n dim = Ok (mkEmbedding n dim) \/ nn_Embedding n dim = Raise RuntimeError.
Proof.
  destruct (Z.le_gt_cases 0 n); [destruct (Z.le_gt_cases 0 dim)|].
  - left. apply nn_Embedding_ok; assumption.
  - right. apply nn_Embedding_negative. lia.
  - right. apply nn_Embedding_negative. lia.
Qed.

Lemma nn_LayerNorm_ok (dim : Z) : 0 <= dim -> nn_LayerNorm dim = Ok (mkLayerNorm dim).
Proof. intros Hd. unfold nn_LayerNorm. rewrite check_size_ok by assumption. reflexivity. Qed.

Lemma nn_LayerNorm_cases (dim : Z) :
  nn_LayerNorm dim = Ok (mkLayerNorm dim) \/ nn_LayerNorm dim = Raise RuntimeError.
Proof.
  destruct (Z.le_gt_cases 0 dim).
  - left. apply nn_LayerNorm_ok; assumption.
  - right. unfold nn_LayerNorm. rewrite check_size_negative by lia. reflexivity.
Qed.

(** With sizes that are not negative the checks pass, and the checked
    constructor is the constructor's own computation. *)
Lemma Attention_init_checked_eq (dim h d : Z) :
  0 <= dim -> 0 <= h -> 0 <= d ->
  Attention_init_checked dim h d = Attention_init dim h d.
Proof.
  intros Hdim Hh Hd. unfold Attention_init_checked, Attention_init.
  destruct (pow_neg_half d) as [s|e]; [|reflexivity]. cbn [bind].
  unfold T5RelativePositionBias_init_checked.
  rewrite !nn_Linear_ok, nn_Embedding_ok by nia. reflexivity.
Qed.

(** What the checked constructor builds, the constructor's own computation
    builds too. *)
Lemma Attention_init_checked_sound (dim h d : Z) (a : Attention) :
  Attention_init_checked dim h d = Ok a -> Attention_init dim h d = Ok a.
Proof.
  unfold Attention_init_checked, Attention_init, T5RelativePositionBias_init_checked.
  destruct (pow_neg_half d) as [s|e]; [|discriminate]. cbn [bind].
  destruct (nn_Linear_cases dim (h * d) false) as [-> | ->]; [|discriminate].
  cbn [bind].
  destruct (nn_Linear_cases dim (d * 2) false) as [-> | ->]; [|discriminate].
  cbn [bind].
  destruct (nn_Linear_cases (h * d) dim true) as [-> | ->]; [|discriminate].
  cbn [bind].
  destruct (nn_Embedding_cases 32 h) as [-> | ->]; [|discriminate].
  cbn [bind]. intros H. exact H.
Qed.

(** The two ways in which [Attention.__init__] fails: the power of line 112
    on a zero [dim_head], before anything is allocated, and a negative
    size in one of the allocations after it. *)
Lemma Attention_init_checked_zero (dim h : Z) :
  Attention_init_checked dim h 0 = Raise ZeroDivisionError.
Proof. reflexivity. Qed.

Lemma Attention_init_checked_negative (dim h d : Z) :
  d <> 0 -> dim < 0 \/ h < 0 \/ d < 0 ->
  Attention_init_checked dim h d = Raise RuntimeError.
Proof.
  intros Hd Hneg. unfold Attention_init_checked, pow_neg_half.
  destruct (Z.eqb_spec d 0); [contradiction|]. cbn [bind].
  destruct (nn_Linear_cases dim (h * d) false) as [Hq | ->]; [|reflexivity].
  rewrite Hq. cbn [bind].
  destruct (Z.le_gt_cases 0 dim) as [Hdim|Hdim];
    [|rewrite nn_Linear_negative in Hq by lia; discriminate].
  destruct (Z.le_gt_cases 0 (h * d)) as [Hhd|Hhd];
    [|rewrite nn_Linear_negative in Hq by lia; discriminate].
  assert (Hd' : d < 0) by nia.
  rewrite (nn_Linear_negative dim (d * 2)) by lia. reflexivity.
Qed.

Lemma FeedForward_init_checked_ok (dim : Z) :
  0 <= dim -> FeedForward_init_checked dim 4 = Ok (FeedForward_init dim 4).
Proof.
  intros Hdim. unfold FeedForward_init_checked, FeedForward_init.
  rewrite !nn_Linear_ok by lia. reflexivity.
Qed.

Lemma FeedForward_init_checked_sound (dim : Z) (ff : FeedForward) :
  FeedForward_init_checked dim 4 = Ok ff -> ff = FeedForward_init dim 4.
Proof.
  unfold FeedForward_init_checked, FeedForward_init.
  destruct (nn_Linear_cases dim (dim * 4 * 2) true) as [-> | ->]; [|discriminate].
  cbn [bind].
  destruct (nn_Linear_cases (dim * 4) dim true) as [-> | ->]; [|discriminate].
  cbn [bind]. intros [= <-]. reflexivity.
Qed.

Lemma map_result_sound {A B} (f g : A -> result B) (l : list A) (bs : list B) :
  (forall a b, f a = Ok b -> g a = Ok b) ->
  map_result f l = Ok bs -> map_result g l = Ok bs.
Proof.
  intros Hfg. revert bs. induction l as [|a l IH]; intros bs; simpl; [trivial|].
  destruct (f a) as [b|e] eqn:Hfa; [|discriminate]. cbn [bind].
  destruct (map_result f l) as [bs'|e] eqn:Hl; [|discriminate]. cbn [bind].
  intros [= <-]. rewrite (Hfg a b Hfa), (IH bs' eq_refl). reflexivity.
Qed.

Lemma map_result_raise {A B} (f : A -> result B) (e : exn) (l : list A) :
  (forall a, f a = Raise e) -> l <> [] -> map_result f l = Raise e.
Proof.
  intros Hf Hl. destruct l as [|a l]; [contradiction|].
  simpl. rewrite Hf. reflexivity.
Qed.

(** One layer: what the body of the loop of lines 156-160 builds. *)
Lemma Transformer_layer_checked_sound (dim h d : Z)
    (l : Residual (PreNorm LayerNorm Attention) * Residual (PreNorm LayerNorm FeedForward)) :
  (attn <-! Attention_init_checked dim h d;
   attn <-! PreNorm_init_checked dim attn;
   ff <-! FeedForward_init_checked dim 4;
   ff <-! PreNorm_init_checked dim ff;
   Ok (mkResidual attn, mkResidual ff)) = Ok l ->
  (attn <-! Attention_init dim h d;
   Ok (mkResidual (PreNorm_init dim attn),
       mkResidual (PreNorm_init dim (FeedForward_init dim 4)))) = Ok l.
Proof.
  destruct (Attention_init_checked dim h d) as [a|e] eqn:Ha; [|discriminate].
  rewrite (Attention_init_checked_sound _ _ _ _ Ha). cbn [bind].
  unfold PreNorm_init_checked.
  destruct (nn_LayerNorm_cases dim) as [-> | ->]; [|discriminate]. cbn [bind].
  destruct (FeedForward_init_checked dim 4) as [ff|e] eqn:Hff; [|discriminate].
  apply FeedForward_init_checked_sound in Hff as ->. cbn [bind].
  intros H. exact H.
Qed.

Lemma Transformer_layer_checked_eq (dim h d : Z) :
  0 <= dim -> 0 <= h -> 0 <= d ->
  (attn <-! Attention_init_checked dim h d;
   attn <-! PreNorm_init_checked dim attn;
   ff <-! FeedForward_init_checked dim 4;
   ff <-! PreNorm_init_checked dim ff;
   Ok (mkResidual attn, mkResidual ff))
  = (attn <-! Attention_init dim h d;
     Ok (mkResidual (PreNorm_init dim attn),
         mkResidual (PreNorm_init dim (FeedForward_init dim 4)))).
Proof.
  intros Hdim Hh Hd. rewrite Attention_init_checked_eq by assumption.
  destruct (Attention_init dim h d) as [a|e]; [|reflexivity]. cbn [bind].
  unfold PreNorm_init_checked.
  rewrite nn_LayerNorm_ok, FeedForward_init_checked_ok by assumption.
  reflexivity.
Qed.

Lemma Transformer_init_checked_sound (dim depth h d : Z)
    (t : Transformer LayerNorm Attention FeedForward) :
  Transformer_init_checked dim depth h d = Ok t -> Transformer_init dim depth h d = Ok t.
Proof.
  unfold Transformer_init_checked, Transformer_init.
  destruct (py_range 0 depth 1) as [r|e]; [|discriminate]. cbn [bind].
  match goal with
  | |- bind (map_result ?f r) _ = _ -> _ =>
      destruct (map_result f r) as [ls|e] eqn:Hls; [|discriminate]
  end.
  cbn [bind]. intros [= <-].
  erewrite map_result_sound; [reflexivity| |exact Hls].
  intros i l. cbv beta. apply Transformer_layer_checked_sound.
Qed.

Lemma Transformer_init_checked_eq (dim depth h d : Z) :
  0 <= dim -> 0 <= h -> 0 <= d ->
  Transformer_init_checked dim depth h d = Transformer_init dim depth h d.
Proof.
  intros Hdim Hh Hd. unfold Transformer_init_checked, Transformer_init.
  rewrite Transformer_layer_checked_eq by assumption. reflexivity.
Qed.

Lemma Transformer_init_checked_empty (dim depth h d : Z) :
  depth <= 0 -> Transformer_init_checked dim depth h d = Ok (mkTransformer []).
Proof.
  intros Hdepth. unfold Transformer_init_checked, py_range.
  cbn [Z.eqb bind]. rewrite range_len_depth.
  replace (Z.to_nat depth) with 0%nat by lia. reflexivity.
Qed.

Lemma Transformer_init_checked_raise (dim depth h d : Z) (e : exn) :
  1 <= depth ->
  Attention_init_checked dim h d = Raise e ->
  Transformer_init_checked dim depth h d = Raise e.
Proof.
  intros Hdepth Ha. unfold Transformer_init_checked, py_range.
  cbn [Z.eqb bind]. rewrite range_len_depth, Ha. cbn [bind].
  rewrite (map_result_raise _ e); [reflexivity|reflexivity|].
  destruct (Z.to_nat depth) as [|k] eqn:Hk; [lia|discriminate].
Qed.

(** Every model the checked constructor builds is a model of [LaMDA_init]:
    what is proved of the models of [LaMDA_init] holds of the models that
    the code really constructs. *)
Lemma LaMDA_init_checked_sound (num_tokens dim depth dim_head_arg heads_arg : Z) (m : LaMDA) :
  LaMDA_init_checked num_tokens dim depth dim_head_arg heads_arg = Ok m ->
  LaMDA_init num_tokens dim depth dim_head_arg heads_arg = Ok m.
Proof.
  unfold LaMDA_init_checked, LaMDA_init.
  destruct (nn_Embedding_cases num_tokens dim) as [-> | ->]; [|discriminate].
  cbn [bind].
  destruct (Transformer_init_checked dim depth dim_head_arg heads_arg) as [t|e] eqn:Ht;
    [|discriminate].
  rewrite (Transformer_init_checked_sound _ _ _ _ _ Ht). cbn [bind].
  destruct (nn_LayerNorm_cases dim) as [-> | ->]; [|discriminate]. cbn [bind].
  destruct (nn_Linear_cases dim num_tokens true) as [-> | ->]; [|discriminate].
  cbn [bind]. intros H. exact H.
Qed.

Lemma LaMDA_init_checked_eq (num_tokens dim depth dim_head_arg heads_arg : Z) :
  0 <= num_tokens -> 0 <= dim -> 0 <= dim_head_arg -> 0 <= heads_arg ->
  LaMDA_init_checked num_tokens dim depth dim_head_arg heads_arg
  = LaMDA_init num_tokens dim depth dim_head_arg heads_arg.
Proof.
  intros Hnt Hdim Hdh Hh. unfold LaMDA_init_checked, LaMDA_init.
  rewrite nn_Embedding_ok by assumption. cbn [bind].
  rewrite Transformer_init_checked_eq by assumption.
  destruct (Transformer_init dim depth dim_head_arg heads_arg) as [t|e]; [|reflexivity].
  cbn [bind]. rewrite nn_LayerNorm_ok, nn_Linear_ok by assumption. reflexivity.
Qed.

(** A model whose attention layers have no query head fails on every
    input. *)
Lemma LaMDA_forward_no_heads (num_tokens dim depth heads_arg : Z) (m : LaMDA) :
  1 <= depth ->
  LaMDA_init num_tokens dim depth 0 heads_arg = Ok m ->
  Forall (fun l => heads (pn_fn (res_fn (fst l))) = 0) (layers (transformer m)) /\
  forall x, LaMDA_forward m x = None.
Proof.
  intros Hdepth Hm. unfold LaMDA_init in Hm.
  destruct (Transformer_init dim depth 0 heads_arg) as [t|e] eqn:Ht; [|discriminate].
  pose proof (Transformer_init_layers _ _ _ _ _ Ht) as Hls.
  cbn [bind] in Hm. injection Hm as <-. cbn [transformer]. split.
  - rewrite Hls. apply Forall_replicate. reflexivity.
  - intros x. unfold LaMDA_forward.
    cbn [token_emb transformer to_logits].
    destruct (Embedding_forward _ x) as [s|]; [|reflexivity].
    cbn [mbind option_bind].
    destruct t as [ls]. cbn [layers] in Hls. subst ls.
    destruct (Z.to_nat depth) as [|k] eqn:Hk; [lia|].
    cbn [replicate]. rewrite Transformer_forward_cons. cbn [fst snd].
    rewrite (Residual_forward_eq (mkResidual (PreNorm_init dim _)) (Some s)).
    rewrite PreNorm_forward_eq.
    unfold tensor_add at 1, shape_add, PreNorm_init.
    cbn [res_fn pn_fn norm].
    unfold forward at 3, Attention_module.
    destruct (forward (mkLayerNorm dim) (Some s)) as [s'|];
      cbn [mbind option_bind].
    + rewrite Attention_forward_no_heads by reflexivity.
      cbn [mbind option_bind].
      change (forward (mkResidual (mkPreNorm (mkLayerNorm dim) (FeedForward_init dim 4)))
                (@None shape)) with (@None shape).
      rewrite layers_forward_None. reflexivity.
    + change (forward (mkResidual (mkPreNorm (mkLayerNorm dim) (FeedForward_init dim 4)))
                (@None shape)) with (@None shape).
      rewrite layers_forward_None. reflexivity.
Qed.

(** The loaders are built exactly when the batch size is positive; the
    sequence length plays no part, and the stream of either loader is the
    closure [tokenize]. *)
Lemma stream_dataloaders_ok (args : CFG) (tokenizer : list string -> BatchEncoding) :
  0 < batch_size args ->
  stream_dataloaders args tokenizer
  = Ok (mkDataLoader
          (tokenize tokenizer (select_input_string args) (tokenizer_seq_length args))
          (batch_size args) true,
        mkDataLoader
          (tokenize tokenizer (select_input_string args) (tokenizer_seq_length args))
          (batch_size args) true).
Proof.
  intros Hb. unfold stream_dataloaders, DataLoader_init.
  destruct (Z.leb_spec (batch_size args) 0); [lia|]. reflexivity.
Qed.

Lemma stream_dataloaders_rejects (args : CFG) (tokenizer : list string -> BatchEncoding) :
  batch_size args <= 0 -> stream_dataloaders args tokenizer = Raise ValueError.
Proof.
  intros Hb. unfold stream_dataloaders, DataLoader_init.
  destruct (Z.leb_spec (batch_size args) 0); [reflexivity|lia].
Qed.

(** C6, amended: of the three settings, construction rejects two.  A batch
    size that is not positive makes [stream_dataloaders] raise
    ([ValueError], from the loader of line 94), and a [dim_head] that is
    not positive makes [Attention.__init__] raise ([ZeroDivisionError] at
    line 112 for zero, [RuntimeError] from an allocation of lines 117-118
    for a negative one); no batch has been processed by then.  The sequence
    length is not looked at by construction: with a positive batch size the
    loaders are built whatever it is, and their stream is the closure
    [tokenize], which reads it when a batch is processed.  That call raises
    [ZeroDivisionError] for a zero sequence length and returns normally,
    with no block under any key, for a negative one. *)
Theorem construction_rejects_batch_size_and_dim_head
    (args : CFG) (tokenizer : list string -> BatchEncoding)
    (dim heads_arg dim_head_arg : Z)
    (ex : dict (list string)) (texts : list string) :
  dict_get (select_input_string args) ex = Some texts ->
  is_Some (dict_get "input_ids" (tokenizer texts)) ->
  (batch_size args <= 0 -> stream_dataloaders args tokenizer = Raise ValueError) /\
  (dim_head_arg = 0 ->
     Attention_init_checked dim heads_arg dim_head_arg = Raise ZeroDivisionError) /\
  (dim_head_arg < 0 ->
     Attention_init_checked dim heads_arg dim_head_arg = Raise RuntimeError) /\
  (0 < batch_size args ->
     exists train eval,
       stream_dataloaders args tokenizer = Ok (train, eval) /\
       dl_dataset eval = dl_dataset train /\
       (tokenizer_seq_length args = 0 ->
          dl_dataset train ex = Raise ZeroDivisionError) /\
       (tokenizer_seq_length args < 0 ->
          dl_dataset train ex
          = Ok (dict_set "labels" []
                  (map (fun kv => (fst kv, [])) (tokenizer texts))))).
Proof.
  intros Hsel Hids. split; [|split; [|split]].
  - apply stream_dataloaders_rejects.
  - intros ->. apply Attention_init_checked_zero.
  - intros Hd. apply Attention_init_checked_negative; lia.
  - intros Hb. eexists _, _. split; [apply stream_dataloaders_ok; exact Hb|].
    cbn [dl_dataset]. split; [reflexivity|].
    pose proof (tokenize_nonpositive_seq_length tokenizer (select_input_string args)
                  (tokenizer_seq_length args) ex texts Hsel Hids) as [H0 Hneg].
    split; assumption.
Qed.

Lemma construction_rejects_batch_size_and_dim_head_witness :
  stream_dataloaders (mkCFG "text" 4 0) char_tokenizer = Raise ValueError /\
  Attention_init_checked 16 8 0 = Raise ZeroDivisionError /\
  Attention_init_checked 16 8 (-4) = Raise RuntimeError /\
  (exists train eval,
     stream_dataloaders (mkCFG "text" 0 2) char_tokenizer = Ok (train, eval) /\
     dl_dataset train [("text"%string, ["abc"%string])] = Raise ZeroDivisionError) /\
  (exists train eval,
     stream_dataloaders (mkCFG "text" (-3) 2) char_tokenizer = Ok (train, eval) /\
     dl_dataset train [("text"%string, ["abc"%string])]
     = Ok [ ("input_ids"%string, []);
            ("attention_mask"%string, []);
            ("labels"%string, []) ]).
Proof.
  assert (Hsel : forall L b,
    dict_get (select_input_string (mkCFG "text" L b)) [("text"%string, ["abc"%string])]
    = Some ["abc"%string]) by reflexivity.
  assert (Hids : is_Some (dict_get "input_ids" (char_tokenizer ["abc"%string])))
    by (eexists; reflexivity).
  split; [|split; [|split; [|split]]].
  - destruct (construction_rejects_batch_size_and_dim_head
                (mkCFG "text" 4 0) char_tokenizer 16 8 0 _ _ (Hsel 4 0) Hids)
      as (Hb & _). apply Hb. simpl. lia.
  - destruct (construction_rejects_batch_size_and_dim_head
                (mkCFG "text" 4 0) char_tokenizer 16 8 0 _ _ (Hsel 4 0) Hids)
      as (_ & Hz & _). apply Hz. reflexivity.
  - destruct (construction_rejects_batch_size_and_dim_head
                (mkCFG "text" 4 0) char_tokenizer 16 8 (-4) _ _ (Hsel 4 0) Hids)
      as (_ & _ & Hn & _). apply Hn. lia.
  - destruct (construction_rejects_batch_size_and_dim_head
                (mkCFG "text" 0 2) char_tokenizer 16 8 4 _ _ (Hsel 0 2) Hids)
      as (_ & _ & _ & Hok).
    destruct Hok as (train & eval & Hc & _ & H0 & _); [simpl; lia|].
    exists train, eval. split; [exact Hc|apply H0; reflexivity].
  - destruct (construction_rejects_batch_size_and_dim_head
                (mkCFG "text" (-3) 2) char_tokenizer 16 8 4 _ _ (Hsel (-3) 2) Hids)
      as (_ & _ & _ & Hok).
    destruct Hok as (train & eval & Hc & _ & _ & Hneg); [simpl; lia|].
    exists train, eval. split; [exact Hc|apply Hneg; simpl; lia].
Defined.

(** X17: what [LaMDA(num_tokens, dim, depth, dim_head, heads)] does at
    construction, with the allocations of the tensor library.  A negative
    [num_tokens] or [dim] raises [RuntimeError] at the token table.  With
    positive [num_tokens] and [dim] and [depth >= 1], the model's [heads]
    is the attention's [dim_head]: [heads = 0] raises [ZeroDivisionError],
    and a negative [heads] or [dim_head] raises [RuntimeError]; with
    positive [heads] and a [dim_head] that is not negative, zero included,
    the model is built, with [depth] layers.  With [depth <= 0] no layer is
    built and nothing looks at [heads] and [dim_head]. *)
Theorem LaMDA_init_outcome (num_tokens dim depth dim_head_arg heads_arg : Z) :
  (num_tokens < 0 \/ dim < 0 ->
     LaMDA_init_checked num_tokens dim depth dim_head_arg heads_arg
     = Raise RuntimeError) /\
  (0 < num_tokens -> 0 < dim -> 1 <= depth -> heads_arg = 0 ->
     LaMDA_init_checked num_tokens dim depth dim_head_arg heads_arg
     = Raise ZeroDivisionError) /\
  (0 < num_tokens -> 0 < dim -> 1 <= depth -> heads_arg <> 0 ->
   heads_arg < 0 \/ dim_head_arg < 0 ->
     LaMDA_init_checked num_tokens dim depth dim_head_arg heads_arg
     = Raise RuntimeError) /\
  (0 < num_tokens -> 0 < dim ->
   depth <= 0 \/ (0 < heads_arg /\ 0 <= dim_head_arg) ->
     exists m,
       LaMDA_init_checked num_tokens dim depth dim_head_arg heads_arg = Ok m /\
       LaMDA_init num_tokens dim depth dim_head_arg heads_arg = Ok m /\
       length (layers (transformer m)) = Z.to_nat depth).
Proof.
  split; [|split; [|split]].
  - intros Hneg. unfold LaMDA_init_checked.
    rewrite nn_Embedding_negative by exact Hneg. reflexivity.
  - intros Hnt Hdim Hdepth ->. unfold LaMDA_init_checked.
    rewrite nn_Embedding_ok by lia. cbn [bind].
    rewrite (Transformer_init_checked_raise dim depth dim_head_arg 0 ZeroDivisionError)
      by (assumption || apply Attention_init_checked_zero).
    reflexivity.
  - intros Hnt Hdim Hdepth Hh Hneg. unfold LaMDA_init_checked.
    rewrite nn_Embedding_ok by lia. cbn [bind].
    rewrite (Transformer_init_checked_raise dim depth dim_head_arg heads_arg RuntimeError);
      [reflexivity|assumption|].
    apply Attention_init_checked_negative; [assumption|lia].
  - intros Hnt Hdim [Hdepth|[Hh Hdh]].
    + assert (Hc : LaMDA_init_checked num_tokens dim depth dim_head_arg heads_arg
                   = Ok {| token_emb := mkEmbedding num_tokens dim;
                           transformer := mkTransformer [];
                           to_logits := (mkLayerNorm dim, mkLinear dim num_tokens true) |}).
      { unfold LaMDA_init_checked.
        rewrite nn_Embedding_ok by lia. cbn [bind].
        rewrite Transformer_init_checked_empty by assumption. cbn [bind].
        rewrite nn_LayerNorm_ok, nn_Linear_ok by lia. reflexivity. }
      eexists. split; [exact Hc|]. split; [apply LaMDA_init_checked_sound, Hc|].
      cbn [transformer layers length]. lia.
    + assert (Heq := LaMDA_init_checked_eq num_tokens dim depth dim_head_arg heads_arg
                       ltac:(lia) ltac:(lia) Hdh ltac:(lia)).
      pose proof (Attention_init_ok dim dim_head_arg heads_arg ltac:(lia)) as Ha.
      rewrite Heq. unfold LaMDA_init.
      rewrite (Transformer_init_ok dim depth dim_head_arg heads_arg _ Ha).
      eexists. split; [reflexivity|]. split; [reflexivity|].
      cbn [transformer layers]. apply length_replicate.
Qed.

Lemma LaMDA_init_outcome_witness :
  LaMDA_init_checked (-1) 16 2 4 8 = Raise RuntimeError /\
  LaMDA_init_checked 100 16 2 8 0 = Raise ZeroDivisionError /\
  LaMDA_init_checked 100 16 1 0 (-8) = Raise RuntimeError /\
  exists m, LaMDA_init_checked 100 16 2 0 8 = Ok m /\
            length (layers (transformer m)) = 2%nat.
Proof.
  destruct (LaMDA_init_outcome (-1) 16 2 4 8) as (Hneg & _).
  destruct (LaMDA_init_outcome 100 16 2 8 0) as (_ & Hzero & _).
  destruct (LaMDA_init_outcome 100 16 1 0 (-8)) as (_ & _ & Hsize & _).
  destruct (LaMDA_init_outcome 100 16 2 0 8) as (_ & _ & _ & Hok).
  split; [apply Hneg; left; lia|].
  split; [apply Hzero; [lia|lia|lia|reflexivity]|].
  split; [apply Hsize; [lia|lia|lia|lia|left; lia]|].
  destruct Hok as (m & Hm & _ & Hlen); [lia|lia|right; lia|].
  exists m. split; [exact Hm|exact Hlen].
Defined.

(** X19: a zero [dim_head] is caught only when data flows: with positive
    [num_tokens], [dim] and [heads] and [depth >= 1], the model
    [LaMDA(num_tokens, dim, depth, 0, heads)] is constructed, the
    allocations of the tensor library included, but its attention layers
    have no query head, and its forward pass fails on every input. *)
Theorem LaMDA_zero_dim_head_fails_at_forward (num_tokens dim depth heads_arg : Z) :
  0 < num_tokens -> 0 < dim -> 0 < heads_arg -> 1 <= depth ->
  exists m,
    LaMDA_init_checked num_tokens dim depth 0 heads_arg = Ok m /\
    Forall (fun l => heads (pn_fn (res_fn (fst l))) = 0) (layers (transformer m)) /\
    forall x, LaMDA_forward m x = None.
Proof.
  intros Hnt Hdim Hh Hdepth.
  assert (Heq := LaMDA_init_checked_eq num_tokens dim depth 0 heads_arg
                   ltac:(lia) ltac:(lia) ltac:(lia) ltac:(lia)).
  pose proof (Attention_init_ok dim 0 heads_arg ltac:(lia)) as Ha.
  assert (Hm : exists m, LaMDA_init num_tokens dim depth 0 heads_arg = Ok m).
  { unfold LaMDA_init.
    rewrite (Transformer_init_ok dim depth 0 heads_arg _ Ha). eexists. reflexivity. }
  destruct Hm as [m Hm]. exists m. split; [rewrite Heq; exact Hm|].
  apply (LaMDA_forward_no_heads num_tokens dim depth heads_arg); assumption.
Qed.

Lemma LaMDA_zero_dim_head_fails_at_forward_witness :
  exists m,
    LaMDA_init_checked 100 16 2 0 8 = Ok m /\
    LaMDA_forward m (mkIdTensor [2; 3] [1; 2; 3; 4; 5; 6]) = None.
Proof.
  destruct (LaMDA_zero_dim_head_fails_at_forward 100 16 2 8) as (m & Hm & _ & Hf);
    [lia|lia|lia|lia|].
  exists m. split; [exact Hm|apply Hf].
Defined.
